(** * Token authentication core of the gRPC user-management service

    A shallow embedding of the Go packages [auth] (JWT service), [utils]
    (validators, password hashing, rate limiter), [models], [database] and
    [services] (the AuthService RPC handlers and the profile handlers of
    UserService), followed by the properties proved about them.

    Conventions.
    - A Go [string] is a Rocq [string] (a sequence of bytes); [len] is
      [String.length].
    - [time.Time] and [time.Duration] are integers counting nanoseconds.
    - A Go function returning [(T, error)] returns a [result]; a function
      returning only [error] returns [option error] ([None] is [nil]).
    - Everything that lives outside the process (the MongoDB collections, the
      wall clock, the faults of the store, the identifiers it hands out, the
      entropy of the hasher) is a field of [World]; the handlers are
      computations in the monad [M] over it.  A computation that yields no
      result stands for a Go panic.
    - Third-party packages (golang-jwt, bcrypt, net/mail, unicode, the BSON
      ObjectID codec) are parameters, gathered in the records [jwt.Lib] and
      [Platform].
    - The collections keep BSON dates: an instant written to the store, or
      sent in a filter, is rounded down to the millisecond
      ([mongo.DateTime]); an instant the process keeps in memory is not. *)

From Stdlib Require Import ZArith NArith List String Ascii Bool Lia.
Import ListNotations.
Local Open Scope string_scope.
Local Open Scope Z_scope.

Set Implicit Arguments.

(* ================================================================== *)
(** ** Go runtime *)

Inductive result (E A : Type) : Type :=
| Ok (a : A)
| Err (e : E).
Arguments Ok {E A} a.
Arguments Err {E A} e.

Module time.
Definition Time := Z.
Definition Duration := Z.
Definition Nanosecond : Duration := 1.
Definition Millisecond : Duration := 1000000 * Nanosecond.
Definition Second : Duration := 1000000000 * Nanosecond.
Definition Minute : Duration := 60 * Second.
Definition Hour : Duration := 60 * Minute.
Definition Add (t : Time) (d : Duration) : Time := t + d.
(** [t.Truncate(d)]: round [t] down to a multiple of [d]; [t] itself when
    [d <= 0]. *)
Definition Truncate (t : Time) (d : Duration) : Time :=
  if d <=? 0 then t else t - t mod d.
End time.

(* ================================================================== *)
(** ** MongoDB driver: errors and identifiers *)

Module mongo.
(** The errors a collection operation can return.  [ErrNoDocuments] is the
    sentinel the handlers compare against. *)
Inductive Error : Type :=
| ErrNoDocuments
| DuplicateKey
| CommandError (msg : string).

Definition is_ErrNoDocuments (e : Error) : bool :=
  match e with ErrNoDocuments => true | _ => false end.

Definition Error_string (e : Error) : string :=
  match e with
  | ErrNoDocuments => "mongo: no documents in result"
  | DuplicateKey => "E11000 duplicate key error"
  | CommandError msg => msg
  end.

(** [primitive.ObjectID]: twelve raw bytes. *)
Definition ObjectID := string.
Definition NilObjectID : ObjectID := "".

(** [primitive.NewDateTimeFromTime(t).Time()]: a BSON date counts whole
    milliseconds.  The driver rounds every [time.Time] down to one when it
    encodes a document, an update or a filter, so this is what the store
    keeps, compares and gives back. *)
Definition DateTime (t : time.Time) : time.Time :=
  time.Truncate t time.Millisecond.
End mongo.

(* ================================================================== *)
(** ** golang-jwt: the interface the service uses *)

Module jwt.
Inductive SigningMethod : Type :=
| HS256 | HS384 | HS512 | RS256 | ES256 | PS256 | EdDSA | SigningMethodNone.

(** The type assertion of [token.Method] to the HMAC family. *)
Definition isHMAC (m : SigningMethod) : bool :=
  match m with
  | HS256 | HS384 | HS512 => true
  | _ => false
  end.

(** The sentinel errors a parse error can wrap. *)
Inductive Sentinel : Type :=
| ErrTokenMalformed
| ErrTokenUnverifiable
| ErrTokenSignatureInvalid
| ErrTokenExpired
| ErrTokenNotValidYet
| ErrTokenUsedBeforeIssued
| ErrTokenInvalidClaims.

Definition Sentinel_eqb (a b : Sentinel) : bool :=
  match a, b with
  | ErrTokenMalformed, ErrTokenMalformed
  | ErrTokenUnverifiable, ErrTokenUnverifiable
  | ErrTokenSignatureInvalid, ErrTokenSignatureInvalid
  | ErrTokenExpired, ErrTokenExpired
  | ErrTokenNotValidYet, ErrTokenNotValidYet
  | ErrTokenUsedBeforeIssued, ErrTokenUsedBeforeIssued
  | ErrTokenInvalidClaims, ErrTokenInvalidClaims => true
  | _, _ => false
  end.

(** An error value of the library: the sentinels found along its chain. *)
Definition Error := list Sentinel.

(** [errors.Is(err, target)]. *)
Definition errors_Is (err : Error) (target : Sentinel) : bool :=
  existsb (Sentinel_eqb target) err.

(** [jwt.NewNumericDate(t)]: the library keeps whole seconds. *)
Definition NewNumericDate (t : time.Time) : time.Time :=
  time.Truncate t time.Second.

(** [jwt.RegisteredClaims]; the three dates are pointers in Go, so each
    may be absent. *)
Record RegisteredClaims : Type := {
  Issuer : string;
  Subject : string;
  Audience : list string;
  ExpiresAt : option time.Time;
  NotBefore : option time.Time;
  IssuedAt : option time.Time;
  ID : string
}.

(** [jwt.Token], for a claims type [C]. *)
Record Token (C : Type) : Type := {
  Method : SigningMethod;
  Claims : C;
  Valid : bool
}.

Definition Key := string.

(** [jwt.Keyfunc]: from the method announced in the header to the key, or
    an error message. *)
Definition Keyfunc := SigningMethod -> result string Key.

(** The two entry points of the library, at a claims type [C]:
    [NewWithClaims(method, claims).SignedString(key)] and
    [ParseWithClaims(tokenString, claims, keyFunc)], the latter at the
    instant its validator reads from the clock. *)
Record Lib (C : Type) : Type := {
  SignedString : SigningMethod -> C -> Key -> result Error string;
  ParseWithClaims : string -> Keyfunc -> time.Time -> result Error (Token C)
}.
End jwt.

(* ================================================================== *)
(** ** The Go [error] interface, as far as the service builds values of it *)

Inductive error : Type :=
| errors_New (msg : string)     (* a sentinel made by errors.New *)
| fmt_Errorf (msg : string)     (* a fresh value made by fmt.Errorf *)
| jwt_error (e : jwt.Error).    (* an error of the jwt library, passed on *)

(* ================================================================== *)
(** ** package models *)

Module models.
Record User : Type := {
  User_ID : mongo.ObjectID;
  User_Email : string;
  User_Password : string;
  User_Name : string;
  User_CreatedAt : time.Time;
  User_UpdatedAt : time.Time;
  User_IsActive : bool;
  User_IsDeleted : bool
}.

Record InvalidatedToken : Type := {
  InvalidatedToken_ID : mongo.ObjectID;
  InvalidatedToken_Token : string;
  InvalidatedToken_UserID : mongo.ObjectID;
  InvalidatedToken_ExpiresAt : time.Time;
  InvalidatedToken_CreatedAt : time.Time
}.

Record LoginAttempt : Type := {
  LoginAttempt_ID : mongo.ObjectID;
  LoginAttempt_Email : string;
  LoginAttempt_IPAddress : string;
  LoginAttempt_Timestamp : time.Time;
  LoginAttempt_Success : bool
}.
End models.
Import models.

(** What the driver's encoding keeps of each document: the dates to the
    millisecond, everything else as it is. *)
Definition User_bson (u : User) : User :=
  {| User_ID := User_ID u; User_Email := User_Email u;
     User_Password := User_Password u; User_Name := User_Name u;
     User_CreatedAt := mongo.DateTime (User_CreatedAt u);
     User_UpdatedAt := mongo.DateTime (User_UpdatedAt u);
     User_IsActive := User_IsActive u; User_IsDeleted := User_IsDeleted u |}.

Definition InvalidatedToken_bson (t : InvalidatedToken) : InvalidatedToken :=
  {| InvalidatedToken_ID := InvalidatedToken_ID t;
     InvalidatedToken_Token := InvalidatedToken_Token t;
     InvalidatedToken_UserID := InvalidatedToken_UserID t;
     InvalidatedToken_ExpiresAt := mongo.DateTime (InvalidatedToken_ExpiresAt t);
     InvalidatedToken_CreatedAt := mongo.DateTime (InvalidatedToken_CreatedAt t) |}.

Definition LoginAttempt_bson (a : LoginAttempt) : LoginAttempt :=
  {| LoginAttempt_ID := LoginAttempt_ID a;
     LoginAttempt_Email := LoginAttempt_Email a;
     LoginAttempt_IPAddress := LoginAttempt_IPAddress a;
     LoginAttempt_Timestamp := mongo.DateTime (LoginAttempt_Timestamp a);
     LoginAttempt_Success := LoginAttempt_Success a |}.

(* ================================================================== *)
(** ** package database: the three collections and their indexes *)

Module database.
Record Database : Type := {
  Users : list User;
  Tokens : list InvalidatedToken;
  Attempts : list LoginAttempt
}.

Inductive Collection : Type := users | invalidated_tokens | login_attempts.

Definition with_Users (us : list User) (db : Database) : Database :=
  {| Users := us; Tokens := Tokens db; Attempts := Attempts db |}.
Definition with_Tokens (ts : list InvalidatedToken) (db : Database) : Database :=
  {| Users := Users db; Tokens := ts; Attempts := Attempts db |}.
Definition with_Attempts (ats : list LoginAttempt) (db : Database) : Database :=
  {| Users := Users db; Tokens := Tokens db; Attempts := ats |}.

(** [createIndexes]: the unique indexes, as the clash each one forbids. *)
Definition userIndexes_unique (a b : User) : bool :=
  String.eqb (User_Email a) (User_Email b).
Definition tokenIndexes_unique (a b : InvalidatedToken) : bool :=
  String.eqb (InvalidatedToken_Token a) (InvalidatedToken_Token b).
Definition attemptIndexes_unique (a b : LoginAttempt) : bool := false.

(** [createIndexes]: the TTL indexes.  [expires_at] with
    [SetExpireAfterSeconds(0)] on the tokens, [timestamp] with
    [SetExpireAfterSeconds(3600)] on the attempts.  One pass of the
    store's TTL monitor at instant [now] drops what has expired. *)
Definition tokenIndexes_expireAfter : time.Duration := 0 * time.Second.
Definition attemptIndexes_expireAfter : time.Duration := 3600 * time.Second.

Definition token_live (now : time.Time) (t : InvalidatedToken) : bool :=
  now <? time.Add (InvalidatedToken_ExpiresAt t) tokenIndexes_expireAfter.
Definition attempt_live (now : time.Time) (a : LoginAttempt) : bool :=
  now <? time.Add (LoginAttempt_Timestamp a) attemptIndexes_expireAfter.

Definition ttlMonitor (now : time.Time) (db : Database) : Database :=
  {| Users := Users db;
     Tokens := filter (token_live now) (Tokens db);
     Attempts := filter (attempt_live now) (Attempts db) |}.
End database.
Import database.

(* ================================================================== *)
(** ** The world outside the process, and computations over it *)

(** One entry per operation sent to the store. *)
Inductive StoreOp : Type :=
| OpFindOne (c : Collection)
| OpCountDocuments (c : Collection)
| OpInsertOne (c : Collection).

Record World : Type := {
  w_db : Database;                   (* the collections *)
  w_now : time.Time;                 (* what time.Now() returns next *)
  w_ticks : list N;                  (* time elapsing after each reading *)
  w_faults : list (option string);   (* per store operation: a failure? *)
  w_ids : list mongo.ObjectID;       (* identifiers given to inserted docs *)
  w_entropy : list string;           (* salts drawn by the hasher *)
  w_trace : list StoreOp             (* operations sent so far *)
}.

Definition M (A : Type) : Type := World -> option (A * World).

Definition ret {A} (a : A) : M A := fun w => Some (a, w).

Definition bind {A B} (m : M A) (k : A -> M B) : M B :=
  fun w => match m w with
           | Some (a, w') => k a w'
           | None => None
           end.

(** A nil-pointer dereference or any other Go panic. *)
Definition panic {A} : M A := fun _ => None.

Declare Scope go_scope.
Delimit Scope go_scope with go.
Notation "x <- m ;; k" := (bind m (fun x => k))
  (at level 100, m at next level, right associativity) : go_scope.
Notation "m ;;; k" := (bind m (fun _ => k))
  (at level 100, right associativity) : go_scope.
Local Open Scope go_scope.

(** The world after a reading of the clock: time moves on by the next
    tick. *)
Definition ticked (w : World) : World :=
  {| w_db := w_db w;
     w_now := w_now w + Z.of_N (hd 0%N (w_ticks w));
     w_ticks := tl (w_ticks w);
     w_faults := w_faults w; w_ids := w_ids w;
     w_entropy := w_entropy w; w_trace := w_trace w |}.

(** The world after an operation was sent to the store: it is traced and
    its entry of the fault schedule is used up. *)
Definition sent (op : StoreOp) (w : World) : World :=
  {| w_db := w_db w; w_now := w_now w; w_ticks := w_ticks w;
     w_faults := tl (w_faults w); w_ids := w_ids w;
     w_entropy := w_entropy w;
     w_trace := (w_trace w ++ [op])%list |}.

Definition with_db (db : Database) (w : World) : World :=
  {| w_db := db; w_now := w_now w; w_ticks := w_ticks w;
     w_faults := w_faults w; w_ids := w_ids w;
     w_entropy := w_entropy w; w_trace := w_trace w |}.

Definition id_taken (w : World) : World :=
  {| w_db := w_db w; w_now := w_now w; w_ticks := w_ticks w;
     w_faults := w_faults w; w_ids := tl (w_ids w);
     w_entropy := w_entropy w; w_trace := w_trace w |}.

Definition entropy_drawn (w : World) : World :=
  {| w_db := w_db w; w_now := w_now w; w_ticks := w_ticks w;
     w_faults := w_faults w; w_ids := w_ids w;
     w_entropy := tl (w_entropy w); w_trace := w_trace w |}.

(** [time.Now()] *)
Definition time_Now : M time.Time := fun w => Some (w_now w, ticked w).

Definition get_db : M Database := fun w => Some (w_db w, w).

Definition put_db (db : Database) : M unit := fun w => Some (tt, with_db db w).

(** The store is contacted; the answer tells whether the operation fails
    on the way (a timeout, a lost connection), and with what message. *)
Definition send (op : StoreOp) : M (option string) := fun w =>
  Some (hd None (w_faults w), sent op w).

Definition fresh_id : M mongo.ObjectID := fun w =>
  Some (hd mongo.NilObjectID (w_ids w), id_taken w).

Definition draw_entropy : M string := fun w =>
  Some (hd "" (w_entropy w), entropy_drawn w).

(** *** Collection operations *)

Section Collection_ops.
Variable D : Type.
Variable c : Collection.
Variable docs : Database -> list D.
Variable with_docs : list D -> Database -> Database.
Variable unique : D -> D -> bool.
Variable with_id : mongo.ObjectID -> D -> D.
Variable bson : D -> D.

(** [coll.FindOne(ctx, filter).Decode(&doc)] *)
Definition FindOne (flt : D -> bool) : M (result mongo.Error D) :=
  fault <- send (OpFindOne c) ;;
  match fault with
  | Some msg => ret (Err (mongo.CommandError msg))
  | None =>
      db <- get_db ;;
      match find flt (docs db) with
      | Some d => ret (Ok d)
      | None => ret (Err mongo.ErrNoDocuments)
      end
  end.

(** [coll.CountDocuments(ctx, filter)] *)
Definition CountDocuments (flt : D -> bool) : M (result mongo.Error Z) :=
  fault <- send (OpCountDocuments c) ;;
  match fault with
  | Some msg => ret (Err (mongo.CommandError msg))
  | None =>
      db <- get_db ;;
      ret (Ok (Z.of_nat (List.length (filter flt (docs db)))))
  end.

(** [coll.InsertOne(ctx, doc)], for a document without [_id]: refused when
    it clashes with a document under a unique index, otherwise stored, as
    encoded, under a fresh identifier, which is returned. *)
Definition InsertOne (doc : D) : M (result mongo.Error mongo.ObjectID) :=
  fault <- send (OpInsertOne c) ;;
  match fault with
  | Some msg => ret (Err (mongo.CommandError msg))
  | None =>
      db <- get_db ;;
      if existsb (unique doc) (docs db)
      then ret (Err mongo.DuplicateKey)
      else
        id <- fresh_id ;;
        put_db (with_docs (docs db ++ [bson (with_id id doc)])%list db) ;;;
        ret (Ok id)
  end.
End Collection_ops.

Definition User_with_id (id : mongo.ObjectID) (u : User) : User :=
  {| User_ID := id; User_Email := User_Email u;
     User_Password := User_Password u; User_Name := User_Name u;
     User_CreatedAt := User_CreatedAt u; User_UpdatedAt := User_UpdatedAt u;
     User_IsActive := User_IsActive u; User_IsDeleted := User_IsDeleted u |}.

Definition InvalidatedToken_with_id (id : mongo.ObjectID)
    (t : InvalidatedToken) : InvalidatedToken :=
  {| InvalidatedToken_ID := id;
     InvalidatedToken_Token := InvalidatedToken_Token t;
     InvalidatedToken_UserID := InvalidatedToken_UserID t;
     InvalidatedToken_ExpiresAt := InvalidatedToken_ExpiresAt t;
     InvalidatedToken_CreatedAt := InvalidatedToken_CreatedAt t |}.

Definition LoginAttempt_with_id (id : mongo.ObjectID)
    (a : LoginAttempt) : LoginAttempt :=
  {| LoginAttempt_ID := id;
     LoginAttempt_Email := LoginAttempt_Email a;
     LoginAttempt_IPAddress := LoginAttempt_IPAddress a;
     LoginAttempt_Timestamp := LoginAttempt_Timestamp a;
     LoginAttempt_Success := LoginAttempt_Success a |}.

(** [db.Users], [db.Tokens] and [db.Attempts] as collection handles. *)
Definition Users_FindOne := FindOne users Users.
Definition Users_InsertOne :=
  InsertOne users Users with_Users userIndexes_unique User_with_id User_bson.
Definition Tokens_FindOne := FindOne invalidated_tokens Tokens.
Definition Tokens_InsertOne :=
  InsertOne invalidated_tokens Tokens with_Tokens tokenIndexes_unique
    InvalidatedToken_with_id InvalidatedToken_bson.
Definition Attempts_CountDocuments := CountDocuments login_attempts Attempts.
Definition Attempts_InsertOne :=
  InsertOne login_attempts Attempts with_Attempts attemptIndexes_unique
    LoginAttempt_with_id LoginAttempt_bson.

(* ================================================================== *)
(** ** Standard-library and third-party functions the packages call *)

Record Platform : Type := {
  (** [mail.ParseAddress(s)] returns no error *)
  mail_ParseAddress : string -> bool;
  (** the runes met by [range s] and by the regexp engine *)
  utf8_runes : string -> list Z;
  unicode_IsLetter : Z -> bool;
  strings_TrimSpace : string -> string;
  (** [bcrypt.GenerateFromPassword(password, DefaultCost)], given its salt *)
  bcrypt_GenerateFromPassword : string -> string -> result string string;
  (** [bcrypt.CompareHashAndPassword(hash, password)] returns no error *)
  bcrypt_CompareHashAndPassword : string -> string -> bool;
  primitive_ObjectIDFromHex : string -> result string mongo.ObjectID;
  ObjectID_Hex : mongo.ObjectID -> string
}.

(* ================================================================== *)
(** ** package utils *)

Module utils.
Section utils.
Variable P : Platform.

Definition MinPasswordLength : Z := 8.
Definition MaxPasswordLength : Z := 128.
Definition MaxNameLength : Z := 50.
Definition MaxEmailLength : Z := 128.

Definition len (s : string) : Z := Z.of_nat (String.length s).

(** *** The five password patterns, as matchers over runes *)

(** [.{8,}]: eight runes in a row, none of them a line feed. *)
Fixpoint run_of_non_newlines (need : nat) (left : nat) (rs : list Z) : bool :=
  match left with
  | O => true
  | S left' =>
      match rs with
      | [] => false
      | r :: rs' =>
          if r =? 10 then run_of_non_newlines need need rs'
          else run_of_non_newlines need left' rs'
      end
  end.
Definition hasMinLen (s : string) : bool :=
  run_of_non_newlines 8 8 (utf8_runes P s).

Definition in_range (lo hi r : Z) : bool := (lo <=? r) && (r <=? hi).
(** [[A-Z]], [[a-z]], [[0-9]] *)
Definition hasUpper (s : string) : bool :=
  existsb (in_range 65 90) (utf8_runes P s).
Definition hasLower (s : string) : bool :=
  existsb (in_range 97 122) (utf8_runes P s).
Definition hasNumber (s : string) : bool :=
  existsb (in_range 48 57) (utf8_runes P s).
(** the class of thirty punctuation characters, by code point:
    ! @ # $ % ^ & * ( ) _ + - = [ ] { } ; ' : double-quote backslash
    | , . < > / ? *)
Definition special_runes : list Z :=
  [33; 64; 35; 36; 37; 94; 38; 42; 40; 41; 95; 43; 45; 61; 91; 93; 123;
   125; 59; 39; 58; 34; 92; 124; 44; 46; 60; 62; 47; 63].
Definition hasSpecial (s : string) : bool :=
  existsb (fun r => existsb (Z.eqb r) special_runes) (utf8_runes P s).

Record ValidationError : Type := {
  Field : string;
  Message : string
}.

Definition ValidationError_Error (e : ValidationError) : string :=
  Field e ++ ": " ++ Message e.

(** [strings.Join(elems, sep)] *)
Fixpoint strings_Join (elems : list string) (sep : string) : string :=
  match elems with
  | [] => ""
  | [e] => e
  | e :: rest => e ++ sep ++ strings_Join rest sep
  end.

(** ValidateEmail validates email format and length *)
Definition ValidateEmail (email : string) : option ValidationError :=
  if len email =? 0 then
    Some {| Field := "email"; Message := "email is required" |}
  else if len email >? MaxEmailLength then
    Some {| Field := "email"; Message := "email is too long" |}
  else if negb (mail_ParseAddress P email) then
    Some {| Field := "email"; Message := "invalid email format" |}
  else None.

(** ValidatePassword validates password strength *)
Definition ValidatePassword (password : string) : option ValidationError :=
  if len password =? 0 then
    Some {| Field := "password"; Message := "password is required" |}
  else if len password <? MinPasswordLength then
    Some {| Field := "password";
            Message := "password must be at least 8 characters" |}
  else if len password >? MaxPasswordLength then
    Some {| Field := "password";
            Message := "password must be less than 128 characters" |}
  else
    let requirements := ([] : list string) in
    let requirements :=
      if negb (hasMinLen password)
      then (requirements ++ ["at least 8 characters"])%list
      else requirements in
    let requirements :=
      if negb (hasUpper password)
      then (requirements ++ ["at least one uppercase letter"])%list
      else requirements in
    let requirements :=
      if negb (hasLower password)
      then (requirements ++ ["at least one lowercase letter"])%list
      else requirements in
    let requirements :=
      if negb (hasNumber password)
      then (requirements ++ ["at least one number"])%list
      else requirements in
    let requirements :=
      if negb (hasSpecial password)
      then (requirements ++ ["at least one special character"])%list
      else requirements in
    if Z.of_nat (List.length requirements) >? 0 then
      Some {| Field := "password";
              Message := "password must contain "
                         ++ strings_Join requirements ", " |}
    else None.

(** ValidateName validates first name and last name *)
Definition ValidateName (name fieldName : string) : option ValidationError :=
  if len name =? 0 then
    Some {| Field := fieldName; Message := fieldName ++ " is required" |}
  else if len name >? MaxNameLength then
    Some {| Field := fieldName; Message := fieldName ++ " is too long" |}
  else if existsb (fun char => negb (unicode_IsLetter P char)
                               && negb (char =? 32) && negb (char =? 45)
                               && negb (char =? 39))
                  (utf8_runes P name) then
    Some {| Field := fieldName;
            Message := fieldName ++ " contains invalid characters" |}
  else None.

(** HashPassword hashes a password using bcrypt *)
Definition HashPassword (password : string) : M (result string string) :=
  salt <- draw_entropy ;;
  ret (bcrypt_GenerateFromPassword P password salt).

(** CheckPasswordHash compares a password with its hash *)
Definition CheckPasswordHash (password hash : string) : bool :=
  bcrypt_CompareHashAndPassword P hash password.

(** SanitizeString removes leading/trailing whitespace and normalizes *)
Definition SanitizeString (s : string) : string := strings_TrimSpace P s.

(** *** RateLimiter *)

(** The filter of [CheckRateLimit]: email, ip_address, success = false,
    timestamp >= oneMinuteAgo, the latter encoded as a BSON date. *)
Definition rate_filter (email ipAddress : string) (oneMinuteAgo : time.Time)
    (a : LoginAttempt) : bool :=
  String.eqb (LoginAttempt_Email a) email
  && String.eqb (LoginAttempt_IPAddress a) ipAddress
  && Bool.eqb (LoginAttempt_Success a) false
  && (mongo.DateTime oneMinuteAgo <=? LoginAttempt_Timestamp a).

(** CheckRateLimit checks if the user has exceeded login attempts *)
Definition CheckRateLimit (email ipAddress : string) : M (result error bool) :=
  now <- time_Now ;;
  let oneMinuteAgo := time.Add now (-1 * time.Minute) in
  r <- Attempts_CountDocuments (rate_filter email ipAddress oneMinuteAgo) ;;
  match r with
  | Err err =>
      ret (Err (fmt_Errorf ("failed to check rate limit: "
                            ++ mongo.Error_string err)))
  | Ok count =>
      (* Allow up to 5 failed attempts per minute *)
      ret (Ok (count <? 5))
  end.

(** RecordLoginAttempt records a login attempt *)
Definition RecordLoginAttempt (email ipAddress : string) (success : bool)
    : M (option error) :=
  now <- time_Now ;;
  let attempt :=
    {| LoginAttempt_ID := mongo.NilObjectID;
       LoginAttempt_Email := email;
       LoginAttempt_IPAddress := ipAddress;
       LoginAttempt_Timestamp := now;
       LoginAttempt_Success := success |} in
  r <- Attempts_InsertOne attempt ;;
  match r with
  | Err err =>
      ret (Some (fmt_Errorf ("failed to record login attempt: "
                             ++ mongo.Error_string err)))
  | Ok _ => ret None
  end.
End utils.
End utils.

(* ================================================================== *)
(** ** package auth *)

Module auth.
Definition ErrInvalidToken : error := errors_New "invalid token".
Definition ErrTokenExpired : error := errors_New "token expired".
Definition ErrTokenBlacklisted : error :=
  errors_New "token has been invalidated".

Record JWTClaims : Type := {
  UserID : string;
  Email : string;
  RegisteredClaims : jwt.RegisteredClaims
}.

Record JWTService : Type := {
  secretKey : string;
  tokenTTL : time.Duration
}.

Definition NewJWTService (secretKey : string) (tokenTTL : time.Duration)
    : JWTService :=
  {| secretKey := secretKey; tokenTTL := tokenTTL |}.

Section auth.
Variable L : jwt.Lib JWTClaims.
Variable P : Platform.
Variable j : JWTService.

(** The header value printed for a signing method. *)
Definition alg (m : jwt.SigningMethod) : string :=
  match m with
  | jwt.HS256 => "HS256" | jwt.HS384 => "HS384" | jwt.HS512 => "HS512"
  | jwt.RS256 => "RS256" | jwt.ES256 => "ES256" | jwt.PS256 => "PS256"
  | jwt.EdDSA => "EdDSA" | jwt.SigningMethodNone => "none"
  end.

Definition GenerateToken (userID email : string) : M (result error string) :=
  exp <- time_Now ;;
  iat <- time_Now ;;
  nbf <- time_Now ;;
  let claims :=
    {| UserID := userID;
       Email := email;
       RegisteredClaims :=
         {| jwt.ExpiresAt := Some (jwt.NewNumericDate (time.Add exp (tokenTTL j)));
            jwt.IssuedAt := Some (jwt.NewNumericDate iat);
            jwt.NotBefore := Some (jwt.NewNumericDate nbf);
            jwt.Subject := userID;
            jwt.Issuer := "";
            jwt.Audience := [];
            jwt.ID := "" |} |} in
  match jwt.SignedString L jwt.HS256 claims (secretKey j) with
  | Ok s => ret (Ok s)
  | Err e => ret (Err (jwt_error e))
  end.

(** The key function handed to the parser by [ValidateToken]. *)
Definition ValidateToken_keyfunc : jwt.Keyfunc := fun method =>
  if negb (jwt.isHMAC method)
  then Err ("unexpected signing method: " ++ alg method)
  else Ok (secretKey j).

Definition ValidateToken (tokenString : string) : M (result error JWTClaims) :=
  (* First check if token is blacklisted *)
  r <- Tokens_FindOne
         (fun t => String.eqb (InvalidatedToken_Token t) tokenString) ;;
  match r with
  | Ok _ => ret (Err ErrTokenBlacklisted)
  | Err err =>
      if negb (mongo.is_ErrNoDocuments err) then
        ret (Err (fmt_Errorf ("error checking token blacklist: "
                              ++ mongo.Error_string err)))
      else
        (* Parse and validate token *)
        now <- time_Now ;;
        match jwt.ParseWithClaims L tokenString ValidateToken_keyfunc now with
        | Err err =>
            if jwt.errors_Is err jwt.ErrTokenExpired
            then ret (Err ErrTokenExpired)
            else ret (Err ErrInvalidToken)
        | Ok token =>
            if negb (jwt.Valid token)
            then ret (Err ErrInvalidToken)
            else ret (Ok (jwt.Claims token))
        end
  end.

(** The key function handed to the parser by [InvalidateToken]: any
    method, same key. *)
Definition InvalidateToken_keyfunc : jwt.Keyfunc := fun _ =>
  Ok (secretKey j).

Definition InvalidateToken (tokenString userID : string) : M (option error) :=
  (* Parse token to get expiry time *)
  now <- time_Now ;;
  expiryTime <-
    match jwt.ParseWithClaims L tokenString InvalidateToken_keyfunc now with
    | Ok token =>
        (* claims.ExpiresAt.Time, through a pointer that may be nil *)
        match jwt.ExpiresAt (RegisteredClaims (jwt.Claims token)) with
        | Some t => ret t
        | None => panic
        end
    | Err _ =>
        (* If we can't parse, set expiry to current time + token TTL *)
        now' <- time_Now ;;
        ret (time.Add now' (tokenTTL j))
    end ;;
  match primitive_ObjectIDFromHex P userID with
  | Err err => ret (Some (fmt_Errorf ("invalid user ID: " ++ err)))
  | Ok userObjectID =>
      createdAt <- time_Now ;;
      let invalidatedToken :=
        {| InvalidatedToken_ID := mongo.NilObjectID;
           InvalidatedToken_Token := tokenString;
           InvalidatedToken_UserID := userObjectID;
           InvalidatedToken_ExpiresAt := expiryTime;
           InvalidatedToken_CreatedAt := createdAt |} in
      r <- Tokens_InsertOne invalidatedToken ;;
      match r with
      | Err err =>
          ret (Some (fmt_Errorf ("failed to invalidate token: "
                                 ++ mongo.Error_string err)))
      | Ok _ => ret None
      end
  end.

Definition ExtractUserIDFromToken (tokenString : string)
    : M (result error string) :=
  r <- ValidateToken tokenString ;;
  match r with
  | Err err => ret (Err err)
  | Ok claims => ret (Ok (UserID claims))
  end.
End auth.
End auth.

(* ================================================================== *)
(** ** gRPC: status codes, request metadata, protobuf messages *)

Module codes.
Inductive Code : Type :=
| OK | Canceled | Unknown | InvalidArgument | DeadlineExceeded | NotFound
| AlreadyExists | PermissionDenied | ResourceExhausted
| FailedPrecondition | Aborted | OutOfRange | Unimplemented | Internal
| Unavailable | DataLoss | Unauthenticated.
End codes.

Module status.
Record Status : Type := { Code : codes.Code; Message : string }.
Definition Errorf (c : codes.Code) (msg : string) : Status :=
  {| Code := c; Message := msg |}.
End status.

Module pb.
Record User : Type := {
  User_Id : string;
  User_Email : string;
  User_Name : string;
  User_CreatedAt : time.Time;
  User_UpdatedAt : time.Time;
  User_IsActive : bool;
  User_IsDeleted : bool
}.
Record LoginRequest : Type := {
  LoginRequest_Email : string;
  LoginRequest_Password : string
}.
Record LoginResponse : Type := {
  LoginResponse_Token : string;
  LoginResponse_User : User;
  LoginResponse_Message : string
}.
Record LogoutRequest : Type := { LogoutRequest_Token : string }.
Record LogoutResponse : Type := { LogoutResponse_Message : string }.
Record RegisterRequest : Type := {
  RegisterRequest_Email : string;
  RegisterRequest_Password : string;
  RegisterRequest_Name : string
}.
Record RegisterResponse : Type := {
  RegisterResponse_User : User;
  RegisterResponse_Message : string
}.
End pb.

(** The part of [context.Context] the handlers read: the incoming metadata,
    when there is one, as the values stored under each key. *)
Record Context : Type := {
  incoming_metadata : option (string -> list string)
}.

(* ================================================================== *)
(** ** package services: AuthService *)

Module services.
Section services.
Variable L : jwt.Lib auth.JWTClaims.
Variable P : Platform.
(** The [jwtService] field; [db] is the world and [rateLimiter] is
    stateless. *)
Variable jwtService : auth.JWTService.

Definition getClientIP (ctx : Context) : string :=
  match incoming_metadata ctx with
  | Some md =>
      match md "x-real-ip" with
      | xRealIP :: _ => xRealIP
      | [] =>
          match md "x-forwarded-for" with
          | xForwardedFor :: _ => xForwardedFor
          | [] => "unknown"
          end
      end
  | None => "unknown"
  end.

(** The conversion of a stored user to its protobuf form. *)
Definition pbUser_of (user : models.User) : pb.User :=
  {| pb.User_Id := ObjectID_Hex P (models.User_ID user);
     pb.User_Email := models.User_Email user;
     pb.User_Name := models.User_Name user;
     pb.User_CreatedAt := models.User_CreatedAt user;
     pb.User_UpdatedAt := models.User_UpdatedAt user;
     pb.User_IsActive := models.User_IsActive user;
     pb.User_IsDeleted := models.User_IsDeleted user |}.

Definition Login (ctx : Context) (req : pb.LoginRequest)
    : M (result status.Status pb.LoginResponse) :=
  (* Get client IP for rate limiting *)
  let clientIP := getClientIP ctx in
  (* Validate input *)
  match utils.ValidateEmail P (pb.LoginRequest_Email req) with
  | Some err =>
      ret (Err (status.Errorf codes.InvalidArgument
                  (utils.ValidationError_Error err)))
  | None =>
  if String.eqb (pb.LoginRequest_Password req) "" then
    ret (Err (status.Errorf codes.InvalidArgument "password is required"))
  else
  (* Check rate limiting *)
  r <- utils.CheckRateLimit (pb.LoginRequest_Email req) clientIP ;;
  match r with
  | Err _ =>
      ret (Err (status.Errorf codes.Internal "failed to check rate limit"))
  | Ok allowed =>
  if negb allowed then
    ret (Err (status.Errorf codes.ResourceExhausted
                "too many login attempts, please try again later"))
  else
  (* Find user by email *)
  r <- Users_FindOne
         (fun u => String.eqb (models.User_Email u) (pb.LoginRequest_Email req)
                   && Bool.eqb (models.User_IsDeleted u) false) ;;
  match r with
  | Err err =>
      (* Record failed attempt *)
      utils.RecordLoginAttempt (pb.LoginRequest_Email req) clientIP false ;;;
      if mongo.is_ErrNoDocuments err then
        ret (Err (status.Errorf codes.NotFound "invalid email or password"))
      else
        ret (Err (status.Errorf codes.Internal "failed to find user"))
  | Ok user =>
  (* Verify password *)
  if negb (utils.CheckPasswordHash P (pb.LoginRequest_Password req)
             (models.User_Password user)) then
    (* Record failed attempt *)
    utils.RecordLoginAttempt (pb.LoginRequest_Email req) clientIP false ;;;
    ret (Err (status.Errorf codes.Unauthenticated "invalid email or password"))
  else
  (* Check if user is active *)
  if negb (models.User_IsActive user) then
    ret (Err (status.Errorf codes.PermissionDenied
                "account is deactivated/deleted"))
  else
  (* Generate JWT token *)
  r <- auth.GenerateToken L jwtService
         (ObjectID_Hex P (models.User_ID user)) (models.User_Email user) ;;
  match r with
  | Err _ =>
      ret (Err (status.Errorf codes.Internal "failed to generate token"))
  | Ok token =>
  (* Record successful attempt *)
  utils.RecordLoginAttempt (pb.LoginRequest_Email req) clientIP true ;;;
  ret (Ok {| pb.LoginResponse_Token := token;
             pb.LoginResponse_User := pbUser_of user;
             pb.LoginResponse_Message := "Login success" |})
  end end end end.

Definition Logout (ctx : Context) (req : pb.LogoutRequest)
    : M (result status.Status pb.LogoutResponse) :=
  if String.eqb (pb.LogoutRequest_Token req) "" then
    ret (Err (status.Errorf codes.InvalidArgument "token is required"))
  else
  (* Extract user ID from token *)
  r <- auth.ExtractUserIDFromToken L jwtService (pb.LogoutRequest_Token req) ;;
  match r with
  | Err _ =>
      ret (Err (status.Errorf codes.Unauthenticated "invalid token"))
  | Ok userID =>
  (* Invalidate the token *)
  err <- auth.InvalidateToken L P jwtService (pb.LogoutRequest_Token req) userID ;;
  match err with
  | Some _ =>
      ret (Err (status.Errorf codes.Internal "failed to invalidate token"))
  | None =>
      ret (Ok {| pb.LogoutResponse_Message := "Logout successful" |})
  end end.

Definition Register (ctx : Context) (req : pb.RegisterRequest)
    : M (result status.Status pb.RegisterResponse) :=
  (* Validate input *)
  let req_Email := utils.SanitizeString P (pb.RegisterRequest_Email req) in
  let req_Name := utils.SanitizeString P (pb.RegisterRequest_Name req) in
  let req_Password := pb.RegisterRequest_Password req in
  match utils.ValidateEmail P req_Email with
  | Some err =>
      ret (Err (status.Errorf codes.InvalidArgument
                  (utils.ValidationError_Error err)))
  | None =>
  match utils.ValidatePassword P req_Password with
  | Some err =>
      ret (Err (status.Errorf codes.InvalidArgument
                  (utils.ValidationError_Error err)))
  | None =>
  match utils.ValidateName P req_Name "name" with
  | Some err =>
      ret (Err (status.Errorf codes.InvalidArgument
                  (utils.ValidationError_Error err)))
  | None =>
  (* Check if user already exists *)
  r <- Users_FindOne (fun u => String.eqb (models.User_Email u) req_Email) ;;
  match r with
  | Ok _ =>
      ret (Err (status.Errorf codes.AlreadyExists "email already exists"))
  | Err err =>
  if negb (mongo.is_ErrNoDocuments err) then
    ret (Err (status.Errorf codes.Internal "failed to check existing user"))
  else
  (* Hash password *)
  r <- utils.HashPassword P req_Password ;;
  match r with
  | Err _ =>
      ret (Err (status.Errorf codes.Internal "failed to hash password"))
  | Ok hashedPassword =>
  (* Create new user *)
  now <- time_Now ;;
  let user :=
    {| models.User_ID := mongo.NilObjectID;
       models.User_Email := req_Email;
       models.User_Password := hashedPassword;
       models.User_Name := req_Name;
       models.User_CreatedAt := now;
       models.User_UpdatedAt := now;
       models.User_IsActive := true;
       models.User_IsDeleted := false |} in
  (* Insert user *)
  r <- Users_InsertOne user ;;
  match r with
  | Err _ =>
      ret (Err (status.Errorf codes.Internal "failed to create user"))
  | Ok insertedID =>
      (* Set the user ID from the insert result *)
      let user := User_with_id insertedID user in
      ret (Ok {| pb.RegisterResponse_User := pbUser_of user;
                 pb.RegisterResponse_Message := "Registration successful" |})
  end end end end end end.
End services.
End services.

(* ================================================================== *)
(** ** A test bed: executable stand-ins for the third-party packages

    Small implementations of the parameters, used to run the handlers on
    concrete requests.  The token format is not the JOSE one: a token is
    three framed fields, the method name, the claims and a tag computed
    from the key. *)

Module testbed.
(** *** Framing: each byte of a field follows a "1", a "0" closes it *)

Fixpoint frame (s : string) : string :=
  match s with
  | EmptyString => "0"
  | String c r => String "1" (String c (frame r))
  end.

Fixpoint frames (fs : list string) : string :=
  match fs with
  | [] => ""
  | f :: r => frame f ++ frames r
  end.

(** Reads one field; returns it with what follows. *)
Fixpoint unframe (s : string) : option (string * string) :=
  match s with
  | String "0" r => Some ("", r)
  | String "1" (String c r) =>
      match unframe r with
      | Some (f, rest) => Some (String c f, rest)
      | None => None
      end
  | _ => None
  end.

Fixpoint unframes (fuel : nat) (s : string) : option (list string) :=
  match s with
  | EmptyString => Some []
  | _ =>
      match fuel with
      | O => None
      | S fuel' =>
          match unframe s with
          | Some (f, rest) =>
              match unframes fuel' rest with
              | Some fs => Some (f :: fs)
              | None => None
              end
          | None => None
          end
      end
  end.

(** *** Integers and optional dates as text *)

Fixpoint enc_pos (p : positive) : string :=
  match p with
  | xH => "H"
  | xO q => String "O" (enc_pos q)
  | xI q => String "I" (enc_pos q)
  end.

Fixpoint dec_pos (s : string) : option positive :=
  match s with
  | String "H" EmptyString => Some xH
  | String "O" r => option_map xO (dec_pos r)
  | String "I" r => option_map xI (dec_pos r)
  | _ => None
  end.

Definition enc_Z (z : Z) : string :=
  match z with
  | Z0 => "Z"
  | Zpos p => String "P" (enc_pos p)
  | Zneg p => String "N" (enc_pos p)
  end.

Definition dec_Z (s : string) : option Z :=
  match s with
  | String "Z" EmptyString => Some Z0
  | String "P" r => option_map Zpos (dec_pos r)
  | String "N" r => option_map Zneg (dec_pos r)
  | _ => None
  end.

Definition enc_date (d : option time.Time) : string :=
  match d with
  | None => "-"
  | Some t => String "+" (enc_Z t)
  end.

Definition dec_date (s : string) : option (option time.Time) :=
  match s with
  | String "-" EmptyString => Some None
  | String "+" r => option_map Some (dec_Z r)
  | _ => None
  end.

(** *** Claims *)

Definition enc_claims (c : auth.JWTClaims) : string :=
  let rc := auth.RegisteredClaims c in
  frames [auth.UserID c; auth.Email c; jwt.Issuer rc; jwt.Subject rc;
          frames (jwt.Audience rc); enc_date (jwt.ExpiresAt rc);
          enc_date (jwt.NotBefore rc); enc_date (jwt.IssuedAt rc);
          jwt.ID rc].

Definition dec_claims (s : string) : option auth.JWTClaims :=
  match unframes (String.length s) s with
  | Some [uid; email; iss; sub; aud; exp; nbf; iat; id] =>
      match unframes (String.length aud) aud,
            dec_date exp, dec_date nbf, dec_date iat with
      | Some aud', Some exp', Some nbf', Some iat' =>
          Some {| auth.UserID := uid;
                  auth.Email := email;
                  auth.RegisteredClaims :=
                    {| jwt.Issuer := iss; jwt.Subject := sub;
                       jwt.Audience := aud'; jwt.ExpiresAt := exp';
                       jwt.NotBefore := nbf'; jwt.IssuedAt := iat';
                       jwt.ID := id |} |}
      | _, _, _, _ => None
      end
  | _ => None
  end.

(** *** Methods and tags *)

Definition method_of_alg (a : string) : option jwt.SigningMethod :=
  if String.eqb a "HS256" then Some jwt.HS256
  else if String.eqb a "HS384" then Some jwt.HS384
  else if String.eqb a "HS512" then Some jwt.HS512
  else if String.eqb a "RS256" then Some jwt.RS256
  else if String.eqb a "ES256" then Some jwt.ES256
  else if String.eqb a "PS256" then Some jwt.PS256
  else if String.eqb a "EdDSA" then Some jwt.EdDSA
  else if String.eqb a "none" then Some jwt.SigningMethodNone
  else None.

(** The tag of a message under a key (no secrecy is claimed for it). *)
Definition tag (m : jwt.SigningMethod) (key : jwt.Key) (msg : string) : string :=
  frames [auth.alg m; key; msg].

Definition SignedString (m : jwt.SigningMethod) (c : auth.JWTClaims)
    (key : jwt.Key) : result jwt.Error string :=
  if jwt.isHMAC m then
    let body := enc_claims c in
    Ok (frames [auth.alg m; body; tag m key body])
  else Err [jwt.ErrTokenUnverifiable].

(** The validator: expiry and not-before, each when present. *)
Definition validate (now : time.Time) (rc : jwt.RegisteredClaims)
    : list jwt.Sentinel :=
  ((match jwt.ExpiresAt rc with
    | Some exp => if now <? exp then [] else [jwt.ErrTokenExpired]
    | None => []
    end)
   ++
   (match jwt.NotBefore rc with
    | Some nbf => if now <? nbf then [jwt.ErrTokenNotValidYet] else []
    | None => []
    end))%list.

Definition ParseWithClaims (tokenString : string) (keyFunc : jwt.Keyfunc)
    (now : time.Time) : result jwt.Error (jwt.Token auth.JWTClaims) :=
  match unframes (String.length tokenString) tokenString with
  | Some [a; body; sig] =>
      match method_of_alg a, dec_claims body with
      | Some m, Some c =>
          match keyFunc m with
          | Err _ => Err [jwt.ErrTokenUnverifiable]
          | Ok key =>
              if negb (jwt.isHMAC m) then Err [jwt.ErrTokenUnverifiable]
              else if negb (String.eqb sig (tag m key body)) then
                Err [jwt.ErrTokenSignatureInvalid]
              else
                match validate now (auth.RegisteredClaims c) with
                | [] => Ok {| jwt.Method := m; jwt.Claims := c;
                              jwt.Valid := true |}
                | errs => Err (jwt.ErrTokenInvalidClaims :: errs)
                end
          end
      | _, _ => Err [jwt.ErrTokenMalformed]
      end
  | _ => Err [jwt.ErrTokenMalformed]
  end.

Definition jwtlib : jwt.Lib auth.JWTClaims :=
  {| jwt.SignedString := SignedString;
     jwt.ParseWithClaims := ParseWithClaims |}.

(** *** The platform *)

Definition code (c : ascii) : Z := Z.of_nat (nat_of_ascii c).

(** Every byte read as one rune. *)
Definition runes (s : string) : list Z := map code (list_ascii_of_string s).

Definition is_hex (r : Z) : bool :=
  utils.in_range 48 57 r || utils.in_range 97 102 r || utils.in_range 65 70 r.

Definition is_space (r : Z) : bool :=
  (r =? 32) || utils.in_range 9 13 r.

Fixpoint trim_left (s : string) : string :=
  match s with
  | String c r => if is_space (code c) then trim_left r else s
  | EmptyString => s
  end.

Fixpoint rev_string (acc s : string) : string :=
  match s with
  | EmptyString => acc
  | String c r => rev_string (String c acc) r
  end.

Definition trim (s : string) : string :=
  rev_string "" (trim_left (rev_string "" (trim_left s))).

Definition hash (password salt : string) : result string string :=
  if Z.of_nat (String.length password) >? 72
  then Err "bcrypt: password length exceeds 72 bytes"
  else Ok (frame salt ++ password).

Definition compare (hashed password : string) : bool :=
  match unframe hashed with
  | Some (_, p) => String.eqb p password
  | None => false
  end.

Definition object_id (s : string) : result string mongo.ObjectID :=
  if (String.length s =? 24)%nat && forallb is_hex (runes s)
  then Ok s
  else Err "the provided hex string is not a valid ObjectID".

Definition platform : Platform :=
  {| mail_ParseAddress := fun s => existsb (Z.eqb 64) (runes s);
     utf8_runes := runes;
     unicode_IsLetter := fun r =>
       utils.in_range 65 90 r || utils.in_range 97 122 r;
     strings_TrimSpace := trim;
     bcrypt_GenerateFromPassword := hash;
     bcrypt_CompareHashAndPassword := compare;
     primitive_ObjectIDFromHex := object_id;
     ObjectID_Hex := fun id => id |}.
End testbed.

(* ================================================================== *)
(** ** Runs of the service *)

(** What can happen to the world between two calls of interest: any call
    of the token service or of an AuthService handler, the profile handlers
    (which read the clock, send operations and write [db.Users] only), and
    a pass of the store's TTL monitor. *)
Inductive Call : Type :=
| Call_Login (ctx : Context) (req : pb.LoginRequest)
| Call_Logout (ctx : Context) (req : pb.LogoutRequest)
| Call_Register (ctx : Context) (req : pb.RegisterRequest)
| Call_GenerateToken (userID email : string)
| Call_ValidateToken (tokenString : string)
| Call_InvalidateToken (tokenString userID : string)
| Call_ExtractUserIDFromToken (tokenString : string)
| Profile_time_Now
| Profile_send (op : StoreOp)
| Profile_write (us : list User)
| Store_ttlMonitor.

Section runs.
Variable L : jwt.Lib auth.JWTClaims.
Variable P : Platform.
Variable j : auth.JWTService.

Definition run_call (c : Call) : M unit :=
  match c with
  | Call_Login ctx req => services.Login L P j ctx req ;;; ret tt
  | Call_Logout ctx req => services.Logout L P j ctx req ;;; ret tt
  | Call_Register ctx req => services.Register P ctx req ;;; ret tt
  | Call_GenerateToken userID email =>
      auth.GenerateToken L j userID email ;;; ret tt
  | Call_ValidateToken t => auth.ValidateToken L j t ;;; ret tt
  | Call_InvalidateToken t userID =>
      auth.InvalidateToken L P j t userID ;;; ret tt
  | Call_ExtractUserIDFromToken t =>
      auth.ExtractUserIDFromToken L j t ;;; ret tt
  | Profile_time_Now => time_Now ;;; ret tt
  | Profile_send op => send op ;;; ret tt
  | Profile_write us => db <- get_db ;; put_db (with_Users us db)
  | Store_ttlMonitor =>
      fun w => Some (tt, with_db (ttlMonitor (w_now w) (w_db w)) w)
  end.

Fixpoint run_calls (cs : list Call) : M unit :=
  match cs with
  | [] => ret tt
  | c :: rest => run_call c ;;; run_calls rest
  end.
End runs.

(* ================================================================== *)
(** ** Notions the properties are stated with *)

(** The world [w'] comes after [w] and still holds every revocation record
    of [w] that has not expired by the time of [w']. *)
Definition Keeps (w w' : World) : Prop :=
  w_now w <= w_now w' /\
  forall r, In r (Tokens (w_db w)) ->
            w_now w' < InvalidatedToken_ExpiresAt r ->
            In r (Tokens (w_db w')).

Definition keeps {A} (m : M A) : Prop :=
  forall w a w', m w = Some (a, w') -> Keeps w w'.

(** A computation that leaves the collections as they are. *)
Definition readonly {A} (m : M A) : Prop :=
  forall w a w', m w = Some (a, w') -> w_db w' = w_db w.

(** The [n]-th operation sent to the store from now on (counting from 0)
    is not failed by the fault schedule. *)
Definition goes_through (n : nat) (w : World) : Prop :=
  nth n (w_faults w) None = None.

(** The filter of the user lookup of [Login]: this email, not deleted. *)
Definition live_with_email (email : string) (u : User) : Prop :=
  User_Email u = email /\ User_IsDeleted u = false.

(** A [Login] call that gets as far as the lookup of the user: the input
    passes validation, the count of the rate limiter goes through and finds
    fewer than five recent failures, and the lookup itself goes through.
    (The count is the [failures_in_window] of the attempts stored.) *)
Definition reaches_lookup (P : Platform) (ctx : Context)
    (req : pb.LoginRequest) (w : World) : Prop :=
  utils.ValidateEmail P (pb.LoginRequest_Email req) = None
  /\ pb.LoginRequest_Password req <> ""
  /\ goes_through 0 w
  /\ Z.of_nat
       (List.length
          (filter (fun a : LoginAttempt =>
                     String.eqb (LoginAttempt_Email a) (pb.LoginRequest_Email req)
                     && String.eqb (LoginAttempt_IPAddress a)
                                   (services.getClientIP ctx)
                     && negb (LoginAttempt_Success a)
                     && (mongo.DateTime (w_now w - 60 * time.Second)
                         <=? LoginAttempt_Timestamp a))
                  (Attempts (w_db w)))) < 5
  /\ goes_through 1 w.



(** The rate limiter, in the words of its description: an attempt is a
    recent failure of [(identity, origin)] at instant [now] when it is of
    this pair, failed, and no older than one minute. *)
Definition recent_failure (identity origin : string) (now : time.Time)
    (a : LoginAttempt) : Prop :=
  LoginAttempt_Email a = identity /\
  LoginAttempt_IPAddress a = origin /\
  LoginAttempt_Success a = false /\
  now - 60 * time.Second <= LoginAttempt_Timestamp a.

Definition recent_failure_dec identity origin now a :
  {recent_failure identity origin now a}
  + {~ recent_failure identity origin now a}.
Proof.
  unfold recent_failure.
  destruct (string_dec (LoginAttempt_Email a) identity);
    [ | right; tauto ].
  destruct (string_dec (LoginAttempt_IPAddress a) origin);
    [ | right; tauto ].
  destruct (bool_dec (LoginAttempt_Success a) false);
    [ | right; tauto ].
  destruct (Z_le_dec (now - 60 * time.Second) (LoginAttempt_Timestamp a));
    [ left; tauto | right; tauto ].
Defined.

Definition recent_failures (identity origin : string) (now : time.Time)
    (attempts : list LoginAttempt) : Z :=
  Z.of_nat (List.length
              (filter (fun a =>
                         if recent_failure_dec identity origin now a
                         then true else false)
                      attempts)).

(** The same as the store evaluates it: an attempt counts toward the limit
    of [(identity, origin)] at instant [now] when it is of this pair,
    failed, and dated no earlier than the instant one minute before [now],
    taken to the millisecond. *)
Definition counts_toward_limit (identity origin : string) (now : time.Time)
    (a : LoginAttempt) : Prop :=
  LoginAttempt_Email a = identity /\
  LoginAttempt_IPAddress a = origin /\
  LoginAttempt_Success a = false /\
  mongo.DateTime (now - 60 * time.Second) <= LoginAttempt_Timestamp a.

Definition counts_toward_limit_dec identity origin now a :
  {counts_toward_limit identity origin now a}
  + {~ counts_toward_limit identity origin now a}.
Proof.
  unfold counts_toward_limit.
  destruct (string_dec (LoginAttempt_Email a) identity);
    [ | right; tauto ].
  destruct (string_dec (LoginAttempt_IPAddress a) origin);
    [ | right; tauto ].
  destruct (bool_dec (LoginAttempt_Success a) false);
    [ | right; tauto ].
  destruct (Z_le_dec (mongo.DateTime (now - 60 * time.Second))
              (LoginAttempt_Timestamp a));
    [ left; tauto | right; tauto ].
Defined.

Definition failures_in_window (identity origin : string) (now : time.Time)
    (attempts : list LoginAttempt) : Z :=
  Z.of_nat (List.length
              (filter (fun a =>
                         if counts_toward_limit_dec identity origin now a
                         then true else false)
                      attempts)).

(* ================================================================== *)
(** ** Concrete worlds and requests *)

Module examples.
(** [loadConfig]: the secret and the 24 hour lifetime. *)
Definition jwtService : auth.JWTService :=
  auth.NewJWTService "ur-secret-key" (24 * time.Hour).

Definition empty_db : Database :=
  {| Users := []; Tokens := []; Attempts := [] |}.

(** A quiet world at instant [now]: nothing stored, no fault scheduled,
    one nanosecond between two readings of the clock. *)
Definition quiet (now : time.Time) (db : Database) : World :=
  {| w_db := db; w_now := now; w_ticks := [1%N; 1%N; 1%N; 1%N; 1%N; 1%N];
     w_faults := []; w_ids := ["65a000000000000000000001";
                               "65a000000000000000000002"];
     w_entropy := ["salt"]; w_trace := [] |}.

Definition noon : time.Time := 1700000000 * time.Second.

Definition alice_id : mongo.ObjectID := "65a0000000000000000000a1".

(** A string that is no token at all, revoked all the same. *)
Definition revoked_junk : InvalidatedToken :=
  {| InvalidatedToken_ID := "65a0000000000000000000b1";
     InvalidatedToken_Token := "not-a-token";
     InvalidatedToken_UserID := alice_id;
     InvalidatedToken_ExpiresAt := noon + 24 * time.Hour;
     InvalidatedToken_CreatedAt := noon - time.Minute |}.

Definition w_revoked : World :=
  quiet noon {| Users := []; Tokens := [revoked_junk]; Attempts := [] |}.

(** The store times out on the next operation. *)
Definition w_outage : World :=
  {| w_db := empty_db; w_now := noon; w_ticks := [];
     w_faults := [Some "context deadline exceeded"];
     w_ids := []; w_entropy := []; w_trace := [] |}.

Definition no_metadata : Context := {| incoming_metadata := None |}.

(** A token issued to Alice at [noon]. *)
Definition alice_token : string :=
  Eval vm_compute in
    match auth.GenerateToken testbed.jwtlib jwtService alice_id
            "alice@example.com" (quiet noon empty_db) with
    | Some (Ok t, _) => t
    | _ => ""
    end.

Definition one_o_clock : time.Time := noon + time.Hour.

(** *** Users *)

Definition alice_hash : string :=
  Eval vm_compute in
    match testbed.hash "Str0ng!Pass" "pepper" with
    | Ok h => h
    | Err _ => ""
    end.

Definition bob_hash : string :=
  Eval vm_compute in
    match testbed.hash "S3cret!Word" "pepper" with
    | Ok h => h
    | Err _ => ""
    end.

Definition alice : User :=
  {| User_ID := alice_id;
     User_Email := "alice@example.com";
     User_Password := alice_hash;
     User_Name := "Alice";
     User_CreatedAt := noon - time.Hour;
     User_UpdatedAt := noon - time.Hour;
     User_IsActive := true;
     User_IsDeleted := false |}.

(** Bob went through DeleteProfile: deleted and inactive. *)
Definition bob : User :=
  {| User_ID := "65a0000000000000000000b0";
     User_Email := "bob@example.com";
     User_Password := bob_hash;
     User_Name := "Bob";
     User_CreatedAt := noon - time.Hour;
     User_UpdatedAt := noon - time.Minute;
     User_IsActive := false;
     User_IsDeleted := true |}.

(** *** Requests reaching the server from 10.0.0.1 *)

Definition from_10_0_0_1 : Context :=
  {| incoming_metadata :=
       Some (fun key => if String.eqb key "x-real-ip" then ["10.0.0.1"]
                        else []) |}.

Definition failure (email : string) (at_ : time.Time) : LoginAttempt :=
  {| LoginAttempt_ID := "65a0000000000000000000c0";
     LoginAttempt_Email := email;
     LoginAttempt_IPAddress := "10.0.0.1";
     LoginAttempt_Timestamp := at_;
     LoginAttempt_Success := false |}.

(** Five failures for Alice in the last fifty seconds. *)
Definition five_failures : list LoginAttempt :=
  map (fun k => failure "alice@example.com" (noon - k * time.Second))
      [50; 40; 30; 20; 10].

Definition w_throttled : World :=
  quiet noon {| Users := [alice]; Tokens := []; Attempts := five_failures |}.

Definition w_users : World :=
  quiet noon {| Users := [alice; bob]; Tokens := []; Attempts := [] |}.

Definition login_alice (password : string) : pb.LoginRequest :=
  {| pb.LoginRequest_Email := "alice@example.com";
     pb.LoginRequest_Password := password |}.

Definition login_carol : pb.LoginRequest :=
  {| pb.LoginRequest_Email := "carol@example.com";
     pb.LoginRequest_Password := "Wh0ever!Is" |}.

Definition login_bob : pb.LoginRequest :=
  {| pb.LoginRequest_Email := "bob@example.com";
     pb.LoginRequest_Password := "S3cret!Word" |}.

Definition register_bob : pb.RegisterRequest :=
  {| pb.RegisterRequest_Email := "  bob@example.com ";
     pb.RegisterRequest_Password := "N3w!Passw0rd";
     pb.RegisterRequest_Name := "Bob" |}.

(** What goes on between a logout and a later validation. *)
Definition afterwards : list Call :=
  [ Store_ttlMonitor;
    Call_Login from_10_0_0_1 login_carol;
    Profile_write [alice];
    Call_ValidateToken alice_token;
    Store_ttlMonitor ].

(** The world after Alice's logout at one o'clock, and the world after
    what follows it. *)
Definition w_logged_out : World :=
  Eval vm_compute in
    match auth.InvalidateToken testbed.jwtlib testbed.platform jwtService
            alice_token alice_id (quiet one_o_clock empty_db) with
    | Some (_, w) => w
    | None => quiet one_o_clock empty_db
    end.

Definition w_afterwards : World :=
  Eval vm_compute in
    match run_calls testbed.jwtlib testbed.platform jwtService afterwards
            w_logged_out with
    | Some (_, w) => w
    | None => w_logged_out
    end.

(** A token signed with the service's key that carries no expiry. *)
Definition eternal_token : string :=
  Eval vm_compute in
    match jwt.SignedString testbed.jwtlib jwt.HS256
            {| auth.UserID := alice_id;
               auth.Email := "alice@example.com";
               auth.RegisteredClaims :=
                 {| jwt.Issuer := ""; jwt.Subject := alice_id;
                    jwt.Audience := []; jwt.ExpiresAt := None;
                    jwt.NotBefore := Some noon; jwt.IssuedAt := Some noon;
                    jwt.ID := "" |} |}
            "ur-secret-key" with
    | Ok t => t
    | Err _ => ""
    end.

(** A token signed with the service's key, to be used from two o'clock on
    and for two days from noon. *)
Definition early_token : string :=
  Eval vm_compute in
    match jwt.SignedString testbed.jwtlib jwt.HS256
            {| auth.UserID := alice_id;
               auth.Email := "alice@example.com";
               auth.RegisteredClaims :=
                 {| jwt.Issuer := ""; jwt.Subject := alice_id;
                    jwt.Audience := [];
                    jwt.ExpiresAt := Some (noon + 48 * time.Hour);
                    jwt.NotBefore := Some (noon + 2 * time.Hour);
                    jwt.IssuedAt := Some noon;
                    jwt.ID := "" |} |}
            "ur-secret-key" with
    | Ok t => t
    | Err _ => ""
    end.

(** Five failures for Alice, stored at noon, and the world one minute and
    0.9 ms later. *)
Definition w_stale : World :=
  quiet (noon + 60 * time.Second + 900000)
    {| Users := [alice]; Tokens := [];
       Attempts := repeat (failure "alice@example.com" noon) 5 |}.

(** One o'clock, with twenty-five hours between the third and the fourth
    reading of the clock; the world after a token is invalidated there; and
    the world a day later, the TTL monitor having passed: for the early
    token, and for the token issued to Alice at noon. *)
Definition w_early : World :=
  {| w_db := empty_db;
     w_now := one_o_clock;
     w_ticks := [1%N; 1%N; 1%N; Z.to_N (25 * time.Hour)];
     w_faults := [];
     w_ids := ["65a000000000000000000001"];
     w_entropy := [];
     w_trace := [] |}.

Definition w_early_revoked : World :=
  Eval vm_compute in
    match auth.InvalidateToken testbed.jwtlib testbed.platform jwtService
            early_token alice_id w_early with
    | Some (_, w) => w
    | None => w_early
    end.

Definition a_day_later : list Call :=
  [Profile_time_Now; Profile_time_Now; Store_ttlMonitor].

Definition w_early_purged : World :=
  Eval vm_compute in
    match run_calls testbed.jwtlib testbed.platform jwtService a_day_later
            w_early_revoked with
    | Some (_, w) => w
    | None => w_early_revoked
    end.

Definition w_late_revoked : World :=
  Eval vm_compute in
    match auth.InvalidateToken testbed.jwtlib testbed.platform jwtService
            alice_token alice_id w_early with
    | Some (_, w) => w
    | None => w_early
    end.

Definition w_late_purged : World :=
  Eval vm_compute in
    match run_calls testbed.jwtlib testbed.platform jwtService a_day_later
            w_late_revoked with
    | Some (_, w) => w
    | None => w_late_revoked
    end.

(** One o'clock and some: a quiet world whose clock is off the
    millisecond. *)
Definition w_offbeat : World :=
  quiet (one_o_clock + 123456) empty_db.

(** Five logins in a row with a wrong secret. *)
Definition five_wrong_logins : list Call :=
  repeat (Call_Login from_10_0_0_1 (login_alice "Wr0ng!Pass")) 5.

Definition w_long_day : World :=
  {| w_db := {| Users := [alice; bob]; Tokens := []; Attempts := [] |};
     w_now := noon;
     w_ticks := repeat 1000000%N 40;
     w_faults := [];
     w_ids := [];
     w_entropy := [];
     w_trace := [] |}.
End examples.

(* ================================================================== *)
(** ** package services: UserService *)

(** *** UpdateOne *)

(** The world after an update was sent to the store: its entry of the
    fault schedule is used up.  ([w_trace] keeps the finds, the counts and
    the inserts; updates are not traced.) *)
Definition contacted (w : World) : World :=
  {| w_db := w_db w; w_now := w_now w; w_ticks := w_ticks w;
     w_faults := tl (w_faults w); w_ids := w_ids w;
     w_entropy := w_entropy w; w_trace := w_trace w |}.

Definition contact : M (option string) := fun w =>
  Some (hd None (w_faults w), contacted w).

(** The first document matching a filter, with what comes before and after
    it in the collection. *)
Fixpoint split_first {D} (flt : D -> bool) (l : list D)
    : option (list D * D * list D) :=
  match l with
  | [] => None
  | d :: rest =>
      if flt d then Some ([], d, rest)
      else match split_first flt rest with
           | Some (pre, m, post) => Some (d :: pre, m, post)
           | None => None
           end
  end.

(** The [$set] document of an update of a user: the fields the profile
    handlers set, each when it is there. *)
Record SetDoc : Type := {
  set_name : option string;
  set_email : option string;
  set_is_active : option bool;
  set_is_deleted : option bool;
  set_updated_at : option time.Time
}.

Definition set_or {A} (o : option A) (old : A) : A :=
  match o with
  | Some v => v
  | None => old
  end.

Definition apply_set (upd : SetDoc) (u : User) : User :=
  {| User_ID := User_ID u;
     User_Email := set_or (set_email upd) (User_Email u);
     User_Password := User_Password u;
     User_Name := set_or (set_name upd) (User_Name u);
     User_CreatedAt := User_CreatedAt u;
     User_UpdatedAt := set_or (set_updated_at upd) (User_UpdatedAt u);
     User_IsActive := set_or (set_is_active upd) (User_IsActive u);
     User_IsDeleted := set_or (set_is_deleted upd) (User_IsDeleted u) |}.

(** What the driver's encoding keeps of it: the date to the millisecond. *)
Definition SetDoc_bson (upd : SetDoc) : SetDoc :=
  {| set_name := set_name upd;
     set_email := set_email upd;
     set_is_active := set_is_active upd;
     set_is_deleted := set_is_deleted upd;
     set_updated_at := option_map mongo.DateTime (set_updated_at upd) |}.

(** [db.Users.UpdateOne(ctx, filter, update)]: the fields of the update, as
    encoded, are set in the first user matching the filter, unless that
    changes its key under the unique index into one another user has; the
    answer is [MatchedCount]. *)
Definition Users_UpdateOne (flt : User -> bool) (update : SetDoc)
    : M (result mongo.Error Z) :=
  fault <- contact ;;
  match fault with
  | Some msg => ret (Err (mongo.CommandError msg))
  | None =>
      db <- get_db ;;
      match split_first flt (Users db) with
      | None => ret (Ok 0)
      | Some (pre, u, post) =>
          let u' := apply_set (SetDoc_bson update) u in
          if negb (userIndexes_unique u' u)
             && existsb (userIndexes_unique u') (pre ++ post)%list
          then ret (Err mongo.DuplicateKey)
          else
            put_db (with_Users (pre ++ u' :: post)%list db) ;;;
            ret (Ok 1)
      end
  end.

(** *** The messages of the profile handlers *)

Module pbu.
Record GetProfileRequest : Type := { GetProfileRequest_UserId : string }.
Record GetProfileResponse : Type := { GetProfileResponse_User : pb.User }.
Record UpdateProfileRequest : Type := {
  UpdateProfileRequest_UserId : string;
  UpdateProfileRequest_Name : string;
  UpdateProfileRequest_Email : string
}.
Record UpdateProfileResponse : Type := {
  UpdateProfileResponse_User : pb.User;
  UpdateProfileResponse_Message : string
}.
Record DeleteProfileRequest : Type := { DeleteProfileRequest_UserId : string }.
Record DeleteProfileResponse : Type := { DeleteProfileResponse_Message : string }.
End pbu.

(** *** The handlers *)

Module userservice.
Section userservice.
Variable P : Platform.

(** The filter [{_id: id, is_deleted: false}]. *)
Definition live_with_id (id : mongo.ObjectID) (u : User) : bool :=
  String.eqb (User_ID u) id && Bool.eqb (User_IsDeleted u) false.

Definition GetProfile (ctx : Context) (req : pbu.GetProfileRequest)
    : M (result status.Status pbu.GetProfileResponse) :=
  (* Validate user ID *)
  if String.eqb (pbu.GetProfileRequest_UserId req) "" then
    ret (Err (status.Errorf codes.InvalidArgument "user ID is required"))
  else
  match primitive_ObjectIDFromHex P (pbu.GetProfileRequest_UserId req) with
  | Err _ =>
      ret (Err (status.Errorf codes.InvalidArgument "invalid user ID format"))
  | Ok userObjectID =>
  (* Find user *)
  r <- Users_FindOne (live_with_id userObjectID) ;;
  match r with
  | Err err =>
      if mongo.is_ErrNoDocuments err then
        ret (Err (status.Errorf codes.NotFound "user not found"))
      else
        ret (Err (status.Errorf codes.Internal "failed to retrieve user"))
  | Ok user =>
      (* Convert to protobuf *)
      ret (Ok {| pbu.GetProfileResponse_User := services.pbUser_of P user |})
  end end.

(** [update["$set"].(bson.M)["name"] = name] and the same for the email. *)
Definition with_name (name : string) (upd : SetDoc) : SetDoc :=
  {| set_name := Some name;
     set_email := set_email upd;
     set_is_active := set_is_active upd;
     set_is_deleted := set_is_deleted upd;
     set_updated_at := set_updated_at upd |}.

Definition with_email (email : string) (upd : SetDoc) : SetDoc :=
  {| set_name := set_name upd;
     set_email := Some email;
     set_is_active := set_is_active upd;
     set_is_deleted := set_is_deleted upd;
     set_updated_at := set_updated_at upd |}.

Definition UpdateProfile (ctx : Context) (req : pbu.UpdateProfileRequest)
    : M (result status.Status pbu.UpdateProfileResponse) :=
  (* Validate user ID *)
  if String.eqb (pbu.UpdateProfileRequest_UserId req) "" then
    ret (Err (status.Errorf codes.InvalidArgument "user ID is required"))
  else
  match primitive_ObjectIDFromHex P (pbu.UpdateProfileRequest_UserId req) with
  | Err _ =>
      ret (Err (status.Errorf codes.InvalidArgument "invalid user ID format"))
  | Ok userObjectID =>
  (* Sanitize inputs *)
  let req_Name := utils.SanitizeString P (pbu.UpdateProfileRequest_Name req) in
  let req_Email := utils.SanitizeString P (pbu.UpdateProfileRequest_Email req) in
  (* update *)
  now <- time_Now ;;
  let update :=
    {| set_name := None; set_email := None; set_is_active := None;
       set_is_deleted := None; set_updated_at := Some now |} in
  (* Validate and add fields to update *)
  match (if negb (String.eqb req_Name "") then
           match utils.ValidateName P req_Name "name" with
           | Some err => Err err
           | None => Ok (with_name req_Name update)
           end
         else Ok update) with
  | Err err =>
      ret (Err (status.Errorf codes.InvalidArgument
                  (utils.ValidationError_Error err)))
  | Ok update =>
  r <-
    (if negb (String.eqb req_Email "") then
       match utils.ValidateEmail P req_Email with
       | Some err =>
           ret (Err (status.Errorf codes.InvalidArgument
                       (utils.ValidationError_Error err)))
       | None =>
           (* Check if email is already taken by another user *)
           r <- Users_FindOne
                  (fun u => String.eqb (User_Email u) req_Email
                            && negb (String.eqb (User_ID u) userObjectID)) ;;
           match r with
           | Ok _ =>
               ret (Err (status.Errorf codes.AlreadyExists
                           "email is already taken"))
           | Err err =>
               if negb (mongo.is_ErrNoDocuments err) then
                 ret (Err (status.Errorf codes.Internal
                             "failed to check email uniqueness"))
               else
                 ret (Ok (with_email req_Email update))
           end
       end
     else ret (Ok update)) ;;
  match r with
  | Err s => ret (Err s)
  | Ok update =>
  (* Update user *)
  r <- Users_UpdateOne (live_with_id userObjectID) update ;;
  match r with
  | Err _ => ret (Err (status.Errorf codes.Internal "failed to update user"))
  | Ok matchedCount =>
  if matchedCount =? 0 then
    ret (Err (status.Errorf codes.NotFound "user not found"))
  else
  (* Retrieve updated user *)
  r <- Users_FindOne (fun u => String.eqb (User_ID u) userObjectID) ;;
  match r with
  | Err _ =>
      ret (Err (status.Errorf codes.Internal "failed to retrieve updated user"))
  | Ok updatedUser =>
      (* Convert to protobuf *)
      ret (Ok {| pbu.UpdateProfileResponse_User :=
                   services.pbUser_of P updatedUser;
                 pbu.UpdateProfileResponse_Message :=
                   "Profile updated successfully" |})
  end end end end end.

Definition DeleteProfile (ctx : Context) (req : pbu.DeleteProfileRequest)
    : M (result status.Status pbu.DeleteProfileResponse) :=
  (* Validate user ID *)
  if String.eqb (pbu.DeleteProfileRequest_UserId req) "" then
    ret (Err (status.Errorf codes.InvalidArgument "user ID is required"))
  else
  match primitive_ObjectIDFromHex P (pbu.DeleteProfileRequest_UserId req) with
  | Err _ =>
      ret (Err (status.Errorf codes.InvalidArgument "invalid user ID format"))
  | Ok userObjectID =>
  (* Soft delete the user *)
  now <- time_Now ;;
  r <- Users_UpdateOne (live_with_id userObjectID)
         {| set_name := None; set_email := None;
            set_is_active := Some false;
            set_is_deleted := Some true;
            set_updated_at := Some now |} ;;
  match r with
  | Err _ => ret (Err (status.Errorf codes.Internal "failed to delete user"))
  | Ok matchedCount =>
  if matchedCount =? 0 then
    ret (Err (status.Errorf codes.NotFound "user not found"))
  else
    ret (Ok {| pbu.DeleteProfileResponse_Message :=
                 "Profile deleted successfully" |})
  end end.
End userservice.
End userservice.

(** A user after a soft delete recorded at [at_]. *)
Definition mark_deleted (at_ : time.Time) (u : User) : User :=
  {| User_ID := User_ID u;
     User_Email := User_Email u;
     User_Password := User_Password u;
     User_Name := User_Name u;
     User_CreatedAt := User_CreatedAt u;
     User_UpdatedAt := at_;
     User_IsActive := false;
     User_IsDeleted := true |}.

(** A user after an edit of its profile recorded at [at_]: the name and the
    email are replaced when the new one is not empty. *)
Definition edited (name email : string) (at_ : time.Time) (u : User) : User :=
  {| User_ID := User_ID u;
     User_Email := if String.eqb email "" then User_Email u else email;
     User_Password := User_Password u;
     User_Name := if String.eqb name "" then User_Name u else name;
     User_CreatedAt := User_CreatedAt u;
     User_UpdatedAt := at_;
     User_IsActive := User_IsActive u;
     User_IsDeleted := User_IsDeleted u |}.

(** Two user documents of the same account: what no profile update
    touches. *)
Definition same_account (a b : User) : Prop :=
  User_ID a = User_ID b
  /\ User_Password a = User_Password b
  /\ User_CreatedAt a = User_CreatedAt b
  /\ User_IsActive a = User_IsActive b
  /\ User_IsDeleted a = User_IsDeleted b.

(* ================================================================== *)
(** ** What the service relies on from its libraries, continued *)


(** Signing with HS256 and a byte key does not fail. *)
Definition signs_with_HS256 (L : jwt.Lib auth.JWTClaims) : Prop :=
  forall claims key, exists tokenString,
    jwt.SignedString L jwt.HS256 claims key = Ok tokenString.

(** A hash made by bcrypt verifies against the password it was made from. *)
Definition bcrypt_verifies (P : Platform) : Prop :=
  forall password salt hashed,
    bcrypt_GenerateFromPassword P password salt = Ok hashed ->
    bcrypt_CompareHashAndPassword P hashed password = true.

(* ================================================================== *)
(** ** The claims of an issued token *)

(** The expiry [GenerateToken] writes when called in world [w]. *)
Definition expiry_issued (j : auth.JWTService) (w : World) : time.Time :=
  jwt.NewNumericDate (time.Add (w_now w) (auth.tokenTTL j)).

(** The claims [GenerateToken] signs when called in world [w]: the three
    dates come from three readings of the clock in a row. *)
Definition claims_issued (j : auth.JWTService) (userID email : string)
    (w : World) : auth.JWTClaims :=
  {| auth.UserID := userID;
     auth.Email := email;
     auth.RegisteredClaims :=
       {| jwt.ExpiresAt := Some (expiry_issued j w);
          jwt.IssuedAt := Some (jwt.NewNumericDate (w_now (ticked w)));
          jwt.NotBefore :=
            Some (jwt.NewNumericDate (w_now (ticked (ticked w))));
          jwt.Subject := userID;
          jwt.Issuer := "";
          jwt.Audience := [];
          jwt.ID := "" |} |}.

(* ================================================================== *)
(** ** What the password patterns mean *)




(* ================================================================== *)
(** ** The ways a Login call ends *)

Section LoginOutcome.
Variable L : jwt.Lib auth.JWTClaims.
Variable P : Platform.
Variable j : auth.JWTService.
Variable ctx : Context.
Variable req : pb.LoginRequest.
Variable w : World.

Let email := pb.LoginRequest_Email req.
Let password := pb.LoginRequest_Password req.
Let clientIP := services.getClientIP ctx.
Let w1 := sent (OpCountDocuments login_attempts) (ticked w).
Let w2 := sent (OpFindOne users) w1.
Let lookup :=
  find (fun u => String.eqb (User_Email u) email
                 && Bool.eqb (User_IsDeleted u) false)
       (Users (w_db w)).
Let valid_input := utils.ValidateEmail P email = None /\ password <> "".
Let allowed :=
  goes_through 0 w
  /\ failures_in_window email clientIP (w_now w) (Attempts (w_db w)) < 5.

(** Each constructor is one [return] of [Login], with what led to it and
    the world it leaves. *)
Inductive LoginOutcome
  : result status.Status pb.LoginResponse -> World -> Prop :=
| Login_invalid_email err :
    utils.ValidateEmail P email = Some err ->
    LoginOutcome
      (Err (status.Errorf codes.InvalidArgument
              (utils.ValidationError_Error err))) w
| Login_no_password :
    utils.ValidateEmail P email = None ->
    password = "" ->
    LoginOutcome
      (Err (status.Errorf codes.InvalidArgument "password is required")) w
| Login_limiter_failed msg :
    valid_input ->
    hd None (w_faults w) = Some msg ->
    LoginOutcome
      (Err (status.Errorf codes.Internal "failed to check rate limit")) w1
| Login_denied :
    valid_input ->
    goes_through 0 w ->
    5 <= failures_in_window email clientIP (w_now w) (Attempts (w_db w)) ->
    LoginOutcome
      (Err (status.Errorf codes.ResourceExhausted
              "too many login attempts, please try again later")) w1
| Login_lookup_failed msg r w3 :
    valid_input -> allowed ->
    nth 1 (w_faults w) None = Some msg ->
    utils.RecordLoginAttempt email clientIP false w2 = Some (r, w3) ->
    LoginOutcome
      (Err (status.Errorf codes.Internal "failed to find user")) w3
| Login_unknown r w3 :
    valid_input -> allowed -> goes_through 1 w ->
    lookup = None ->
    utils.RecordLoginAttempt email clientIP false w2 = Some (r, w3) ->
    LoginOutcome
      (Err (status.Errorf codes.NotFound "invalid email or password")) w3
| Login_wrong_secret user r w3 :
    valid_input -> allowed -> goes_through 1 w ->
    lookup = Some user ->
    utils.CheckPasswordHash P password (User_Password user) = false ->
    utils.RecordLoginAttempt email clientIP false w2 = Some (r, w3) ->
    LoginOutcome
      (Err (status.Errorf codes.Unauthenticated "invalid email or password")) w3
| Login_inactive user :
    valid_input -> allowed -> goes_through 1 w ->
    lookup = Some user ->
    utils.CheckPasswordHash P password (User_Password user) = true ->
    User_IsActive user = false ->
    LoginOutcome
      (Err (status.Errorf codes.PermissionDenied
              "account is deactivated/deleted")) w2
| Login_signing_failed user e w3 :
    valid_input -> allowed -> goes_through 1 w ->
    lookup = Some user ->
    utils.CheckPasswordHash P password (User_Password user) = true ->
    User_IsActive user = true ->
    auth.GenerateToken L j (ObjectID_Hex P (User_ID user)) (User_Email user) w2
    = Some (Err e, w3) ->
    LoginOutcome
      (Err (status.Errorf codes.Internal "failed to generate token")) w3
| Login_success user token w3 r w4 :
    valid_input -> allowed -> goes_through 1 w ->
    lookup = Some user ->
    utils.CheckPasswordHash P password (User_Password user) = true ->
    User_IsActive user = true ->
    auth.GenerateToken L j (ObjectID_Hex P (User_ID user)) (User_Email user) w2
    = Some (Ok token, w3) ->
    utils.RecordLoginAttempt email clientIP true w3 = Some (r, w4) ->
    LoginOutcome
      (Ok {| pb.LoginResponse_Token := token;
             pb.LoginResponse_User := services.pbUser_of P user;
             pb.LoginResponse_Message := "Login success" |}) w4.
End LoginOutcome.

(* ================================================================== *)
(** ** More concrete worlds and requests *)

Module scenarios.
Import examples.

(** Alice logs in at noon. *)
Definition alice_login
  : option (result status.Status pb.LoginResponse * World) :=
  Eval vm_compute in
    services.Login testbed.jwtlib testbed.platform jwtService from_10_0_0_1
      (login_alice "Str0ng!Pass") w_users.

Definition no_response : pb.LoginResponse :=
  {| pb.LoginResponse_Token := "";
     pb.LoginResponse_User := services.pbUser_of testbed.platform alice;
     pb.LoginResponse_Message := "" |}.

Definition alice_resp : pb.LoginResponse :=
  Eval vm_compute in
    match alice_login with
    | Some (Ok resp, _) => resp
    | _ => no_response
    end.

Definition w_alice_in : World :=
  Eval vm_compute in
    match alice_login with
    | Some (_, w) => w
    | None => w_users
    end.

(** Dave is suspended: stored, not deleted, not active. *)
Definition dave : User :=
  {| User_ID := "65a0000000000000000000d0";
     User_Email := "dave@example.com";
     User_Password := alice_hash;
     User_Name := "Dave";
     User_CreatedAt := noon - time.Hour;
     User_UpdatedAt := noon - time.Hour;
     User_IsActive := false;
     User_IsDeleted := false |}.

Definition w_dave : World :=
  quiet noon {| Users := [alice; dave]; Tokens := []; Attempts := [] |}.

Definition login_dave : pb.LoginRequest :=
  {| pb.LoginRequest_Email := "dave@example.com";
     pb.LoginRequest_Password := "Str0ng!Pass" |}.

(** The same client as in [from_10_0_0_1], announcing another address. *)
Definition from_10_9_9_9 : Context :=
  {| incoming_metadata :=
       Some (fun key => if String.eqb key "x-real-ip" then ["10.9.9.9"]
                        else if String.eqb key "x-forwarded-for"
                             then ["10.0.0.1"]
                             else []) |}.







(** Alice logs out with the token of [alice_token]. *)
Definition logout_alice : pb.LogoutRequest :=
  {| pb.LogoutRequest_Token := alice_token |}.

Definition w_alice_out : World :=
  Eval vm_compute in
    match services.Logout testbed.jwtlib testbed.platform jwtService
            no_metadata logout_alice (quiet one_o_clock empty_db) with
    | Some (_, w) => w
    | None => quiet one_o_clock empty_db
    end.

(** The users of [w_users], a little after noon: the clock is off the
    millisecond. *)
Definition w_users_late : World := quiet (noon + 123456) (w_db w_users).

(** Eve registers, with blanks around her email and name. *)
Definition register_eve : pb.RegisterRequest :=
  {| pb.RegisterRequest_Email := "  eve@example.com ";
     pb.RegisterRequest_Password := "N3w!Passw0rd";
     pb.RegisterRequest_Name := " Eve " |}.

Definition eve_registration
  : option (result status.Status pb.RegisterResponse * World) :=
  Eval vm_compute in
    services.Register testbed.platform no_metadata register_eve
      w_users_late.

Definition eve_resp : pb.RegisterResponse :=
  Eval vm_compute in
    match eve_registration with
    | Some (Ok resp, _) => resp
    | _ => {| pb.RegisterResponse_User :=
                services.pbUser_of testbed.platform alice;
              pb.RegisterResponse_Message := "" |}
    end.

Definition w_eve : World :=
  Eval vm_compute in
    match eve_registration with
    | Some (_, w) => w
    | None => w_users_late
    end.

(** Alice deletes her profile a little after noon. *)
Definition delete_alice : pbu.DeleteProfileRequest :=
  {| pbu.DeleteProfileRequest_UserId := alice_id |}.

Definition alice_deletion
  : option (result status.Status pbu.DeleteProfileResponse * World) :=
  Eval vm_compute in
    userservice.DeleteProfile testbed.platform no_metadata delete_alice
      w_users_late.

Definition deleted_resp : pbu.DeleteProfileResponse :=
  {| pbu.DeleteProfileResponse_Message := "Profile deleted successfully" |}.

Definition w_alice_deleted : World :=
  Eval vm_compute in
    match alice_deletion with
    | Some (_, w) => w
    | None => w_users_late
    end.

Definition get_alice : pbu.GetProfileRequest :=
  {| pbu.GetProfileRequest_UserId := alice_id |}.

Definition alice_profile : pbu.GetProfileResponse :=
  {| pbu.GetProfileResponse_User := services.pbUser_of testbed.platform alice |}.

(** Alice changes her name and keeps her email. *)
Definition rename_alice : pbu.UpdateProfileRequest :=
  {| pbu.UpdateProfileRequest_UserId := alice_id;
     pbu.UpdateProfileRequest_Name := " Alicia ";
     pbu.UpdateProfileRequest_Email := "" |}.

Definition alice_renaming
  : option (result status.Status pbu.UpdateProfileResponse * World) :=
  Eval vm_compute in
    userservice.UpdateProfile testbed.platform no_metadata rename_alice
      w_users_late.

Definition w_alice_renamed : World :=
  Eval vm_compute in
    match alice_renaming with
    | Some (_, w) => w
    | None => w_users_late
    end.

(** The store answers the update and then times out. *)
Definition w_flaky : World :=
  {| w_db := {| Users := [alice; bob]; Tokens := []; Attempts := [] |};
     w_now := noon + 123456;
     w_ticks := [1%N];
     w_faults := [None; Some "context deadline exceeded"];
     w_ids := [];
     w_entropy := [];
     w_trace := [] |}.

Definition w_flaky_renamed : World :=
  Eval vm_compute in
    match userservice.UpdateProfile testbed.platform no_metadata rename_alice
            w_flaky with
    | Some (_, w) => w
    | None => w_flaky
    end.

End scenarios.

(* ================================================================== *)
(** * Properties *)

Unset Implicit Arguments.

(** ** Running computations *)

Lemma run_bind {A B} (m : M A) (k : A -> M B) (w : World) :
  bind m k w = match m w with
               | Some (a, w') => k a w'
               | None => None
               end.
Proof. reflexivity. Qed.

Lemma run_bind_eq {A B} (m : M A) (k : A -> M B) w a w' :
  m w = Some (a, w') -> bind m k w = k a w'.
Proof. intros H. unfold bind. rewrite H. reflexivity. Qed.

(** What [FindOne] answers, and the world it leaves. *)
Lemma FindOne_run {D} c (docs : Database -> list D) flt w :
  FindOne c docs flt w =
  Some (match hd None (w_faults w) with
        | Some msg => Err (mongo.CommandError msg)
        | None => match find flt (docs (w_db w)) with
                  | Some d => Ok d
                  | None => Err mongo.ErrNoDocuments
                  end
        end,
        sent (OpFindOne c) w).
Proof.
  unfold FindOne, bind, send, get_db, ret.
  destruct (hd None (w_faults w)); [reflexivity|].
  simpl. destruct (find flt (docs (w_db w))); reflexivity.
Qed.

Lemma CountDocuments_run {D} c (docs : Database -> list D) flt w :
  CountDocuments c docs flt w =
  Some (match hd None (w_faults w) with
        | Some msg => Err (mongo.CommandError msg)
        | None => Ok (Z.of_nat (List.length (filter flt (docs (w_db w)))))
        end,
        sent (OpCountDocuments c) w).
Proof.
  unfold CountDocuments, bind, send, get_db, ret.
  destruct (hd None (w_faults w)); reflexivity.
Qed.

(** [InsertOne] either fails and leaves the collections alone, or appends
    the document under the next identifier. *)
Lemma InsertOne_run {D} c (docs : Database -> list D) with_docs unique with_id
    bson doc w :
  InsertOne c docs with_docs unique with_id bson doc w =
  match hd None (w_faults w) with
  | Some msg => Some (Err (mongo.CommandError msg), sent (OpInsertOne c) w)
  | None =>
      if existsb (unique doc) (docs (w_db w))
      then Some (Err mongo.DuplicateKey, sent (OpInsertOne c) w)
      else Some (Ok (hd mongo.NilObjectID (w_ids w)),
                 with_db (with_docs (docs (w_db w)
                                     ++ [bson (with_id (hd mongo.NilObjectID (w_ids w)) doc)])%list
                                    (w_db w))
                         (id_taken (sent (OpInsertOne c) w)))
  end.
Proof.
  unfold InsertOne, bind, send, get_db, ret, fresh_id, put_db.
  destruct (hd None (w_faults w)); [reflexivity|].
  simpl. destruct (existsb (unique doc) (docs (w_db w))); reflexivity.
Qed.

Lemma hd_nth {D} (d : D) (l : list D) : hd d l = nth 0 l d.
Proof. destruct l; reflexivity. Qed.

Lemma find_In_Some {D} (flt : D -> bool) (l : list D) (x : D) :
  In x l -> flt x = true -> exists d, find flt l = Some d.
Proof.
  intros Hin Hx. destruct (find flt l) as [d|] eqn:E.
  - now exists d.
  - rewrite (find_none flt l E x Hin) in Hx. discriminate.
Qed.

(** ** BSON dates *)

Lemma DateTime_bounds t :
  t - time.Millisecond < mongo.DateTime t <= t.
Proof.
  unfold mongo.DateTime, time.Truncate, time.Millisecond, time.Nanosecond.
  simpl. pose proof (Z.mod_pos_bound t 1000000 ltac:(lia)). lia.
Qed.

Lemma DateTime_mono a b : a <= b -> mongo.DateTime a <= mongo.DateTime b.
Proof.
  unfold mongo.DateTime, time.Truncate, time.Millisecond, time.Nanosecond.
  simpl. intros H.
  rewrite (Z.div_mod a 1000000) at 1 by lia.
  rewrite (Z.div_mod b 1000000) at 1 by lia.
  pose proof (Z.div_le_mono a b 1000000 ltac:(lia) H). lia.
Qed.

(** A multiple of the millisecond is its own BSON date. *)
Lemma DateTime_whole k : mongo.DateTime (k * time.Millisecond) = k * time.Millisecond.
Proof.
  unfold mongo.DateTime, time.Truncate, time.Millisecond, time.Nanosecond.
  simpl. rewrite Z.mod_mul by lia. lia.
Qed.

Lemma DateTime_idem t : mongo.DateTime (mongo.DateTime t) = mongo.DateTime t.
Proof.
  unfold mongo.DateTime, time.Truncate, time.Millisecond, time.Nanosecond.
  simpl. rewrite Zminus_mod_idemp_r, Z.sub_diag, Z.mod_0_l by lia. lia.
Qed.

(** So is every whole number of seconds, the dates of the jwt library
    among them. *)
Lemma DateTime_whole_seconds t :
  jwt.NewNumericDate t = t -> mongo.DateTime t = t.
Proof.
  unfold jwt.NewNumericDate, time.Truncate, time.Second, time.Nanosecond.
  simpl. intros H.
  assert (Hs : t mod 1000000000 = 0) by lia.
  apply Z.mod_divide in Hs; [|lia]. destruct Hs as [k ->].
  replace (k * 1000000000) with ((k * 1000) * time.Millisecond)
    by (unfold time.Millisecond, time.Nanosecond; lia).
  apply DateTime_whole.
Qed.


(** ** ValidateToken *)

Section ValidateToken_facts.
Variable L : jwt.Lib auth.JWTClaims.
Variable j : auth.JWTService.

(** The whole of [ValidateToken], outcome and world, by cases on what the
    lookup meets. *)
Lemma ValidateToken_run tokenString w :
  auth.ValidateToken L j tokenString w =
  let w1 := sent (OpFindOne invalidated_tokens) w in
  match hd None (w_faults w) with
  | Some msg =>
      Some (Err (fmt_Errorf ("error checking token blacklist: " ++ msg)), w1)
  | None =>
      match find (fun t => String.eqb (InvalidatedToken_Token t) tokenString)
                 (Tokens (w_db w)) with
      | Some _ => Some (Err auth.ErrTokenBlacklisted, w1)
      | None =>
          Some (match jwt.ParseWithClaims L tokenString
                        (auth.ValidateToken_keyfunc j) (w_now w) with
                | Err err =>
                    if jwt.errors_Is err jwt.ErrTokenExpired
                    then Err auth.ErrTokenExpired
                    else Err auth.ErrInvalidToken
                | Ok token =>
                    if negb (jwt.Valid token)
                    then Err auth.ErrInvalidToken
                    else Ok (jwt.Claims token)
                end,
                ticked w1)
      end
  end.
Proof.
  unfold auth.ValidateToken, Tokens_FindOne.
  rewrite run_bind, FindOne_run.
  destruct (hd None (w_faults w)) as [msg|]; [reflexivity|].
  simpl.
  destruct (find _ (Tokens (w_db w))); [reflexivity|].
  simpl. unfold bind, time_Now. simpl.
  destruct (jwt.ParseWithClaims L tokenString _ (w_now w)) as [token|err].
  - destruct (jwt.Valid token); reflexivity.
  - destruct (jwt.errors_Is err jwt.ErrTokenExpired); reflexivity.
Qed.

Lemma ValidateToken_blacklisted tokenString w r :
  In r (Tokens (w_db w)) ->
  InvalidatedToken_Token r = tokenString ->
  hd None (w_faults w) = None ->
  auth.ValidateToken L j tokenString w
  = Some (Err auth.ErrTokenBlacklisted, sent (OpFindOne invalidated_tokens) w).
Proof.
  intros Hin Htok Hfault.
  rewrite ValidateToken_run, Hfault. simpl.
  destruct (find_In_Some
              (fun t => String.eqb (InvalidatedToken_Token t) tokenString)
              _ _ Hin) as [d Hd].
  - rewrite Htok. apply String.eqb_refl.
  - rewrite Hd. reflexivity.
Qed.
End ValidateToken_facts.

(** C3. [ValidateToken] looks the token up in the revocation store first:
    when a record for the exact token string is there (and the lookup goes
    through), the answer is [ErrTokenBlacklisted], neither [ErrInvalidToken]
    nor [ErrTokenExpired], whatever the jwt library would say of the token;
    the world it leaves shows one store operation and a clock that was not
    read, so the parser never ran. *)
Theorem C3_revocation_checked_before_signature
    (L : jwt.Lib auth.JWTClaims) (j : auth.JWTService)
    (tokenString : string) (w : World) (r : InvalidatedToken) :
  In r (Tokens (w_db w)) ->
  InvalidatedToken_Token r = tokenString ->
  goes_through 0 w ->
  auth.ValidateToken L j tokenString w
  = Some (Err auth.ErrTokenBlacklisted, sent (OpFindOne invalidated_tokens) w)
  /\ auth.ErrTokenBlacklisted <> auth.ErrInvalidToken
  /\ auth.ErrTokenBlacklisted <> auth.ErrTokenExpired
  /\ w_now (sent (OpFindOne invalidated_tokens) w) = w_now w
  /\ w_ticks (sent (OpFindOne invalidated_tokens) w) = w_ticks w.
Proof.
  intros Hin Htok Hfault. split.
  - unfold goes_through in Hfault. rewrite <- hd_nth in Hfault.
    eapply ValidateToken_blacklisted; eassumption.
  - repeat split; discriminate.
Qed.

Lemma C3_revocation_checked_before_signature_witness :
  auth.ValidateToken testbed.jwtlib examples.jwtService "not-a-token"
    examples.w_revoked
  = Some (Err auth.ErrTokenBlacklisted,
          sent (OpFindOne invalidated_tokens) examples.w_revoked)
  /\ jwt.ParseWithClaims testbed.jwtlib "not-a-token"
       (auth.ValidateToken_keyfunc examples.jwtService) examples.noon
     = Err [jwt.ErrTokenMalformed].
Proof.
  split.
  - apply (C3_revocation_checked_before_signature testbed.jwtlib
             examples.jwtService "not-a-token" examples.w_revoked
             examples.revoked_junk).
    + left. reflexivity.
    + reflexivity.
    + reflexivity.
  - reflexivity.
Defined.

(** ** Logout *)

Section Logout_facts.
Variable L : jwt.Lib auth.JWTClaims.
Variable P : Platform.
Variable j : auth.JWTService.

Lemma ExtractUserIDFromToken_run tokenString w :
  auth.ExtractUserIDFromToken L j tokenString w =
  match auth.ValidateToken L j tokenString w with
  | Some (Err err, w') => Some (Err err, w')
  | Some (Ok claims, w') => Some (Ok (auth.UserID claims), w')
  | None => None
  end.
Proof.
  unfold auth.ExtractUserIDFromToken. rewrite run_bind.
  destruct (auth.ValidateToken L j tokenString w) as [[[claims|err] w']|];
    reflexivity.
Qed.

(** Whatever makes [ValidateToken] fail, [Logout] answers
    Unauthenticated. *)
Lemma Logout_invalid ctx req w err w' :
  pb.LogoutRequest_Token req <> "" ->
  auth.ValidateToken L j (pb.LogoutRequest_Token req) w = Some (Err err, w') ->
  services.Logout L P j ctx req w
  = Some (Err (status.Errorf codes.Unauthenticated "invalid token"), w').
Proof.
  intros Hne Hv. unfold services.Logout.
  destruct (String.eqb_spec (pb.LogoutRequest_Token req) "") as [E|_];
    [contradiction|].
  rewrite run_bind, ExtractUserIDFromToken_run, Hv. reflexivity.
Qed.
End Logout_facts.

(** C9. When the revocation lookup of [ValidateToken] fails with anything
    but "no documents", [ValidateToken] returns an error of its own, which
    is none of [ErrInvalidToken], [ErrTokenExpired], [ErrTokenBlacklisted].
    Its caller [Logout] does not keep the difference: it answers
    Unauthenticated "invalid token", the answer it gives for a bad token,
    and not Internal. *)
Theorem C9_store_failure_surfaced_as_Unauthenticated
    (L : jwt.Lib auth.JWTClaims) (P : Platform) (j : auth.JWTService)
    (ctx : Context) (req : pb.LogoutRequest) (w : World) (msg : string) :
  hd None (w_faults w) = Some msg ->
  pb.LogoutRequest_Token req <> "" ->
  let internal := fmt_Errorf ("error checking token blacklist: " ++ msg) in
  let w' := sent (OpFindOne invalidated_tokens) w in
  auth.ValidateToken L j (pb.LogoutRequest_Token req) w = Some (Err internal, w')
  /\ internal <> auth.ErrInvalidToken
  /\ internal <> auth.ErrTokenExpired
  /\ internal <> auth.ErrTokenBlacklisted
  /\ services.Logout L P j ctx req w
     = Some (Err (status.Errorf codes.Unauthenticated "invalid token"), w')
  /\ status.Code (status.Errorf codes.Unauthenticated "invalid token")
     <> codes.Internal.
Proof.
  intros Hfault Hne internal w'.
  assert (Hv : auth.ValidateToken L j (pb.LogoutRequest_Token req) w
               = Some (Err internal, w')).
  { rewrite ValidateToken_run, Hfault. reflexivity. }
  split; [exact Hv|].
  repeat split; try discriminate.
  eapply Logout_invalid; eassumption.
Qed.

Lemma C9_store_failure_surfaced_as_Unauthenticated_witness :
  services.Logout testbed.jwtlib testbed.platform examples.jwtService
    examples.no_metadata {| pb.LogoutRequest_Token := "any-token" |}
    examples.w_outage
  = Some (Err {| status.Code := codes.Unauthenticated;
                 status.Message := "invalid token" |},
          sent (OpFindOne invalidated_tokens) examples.w_outage).
Proof.
  apply (C9_store_failure_surfaced_as_Unauthenticated
           testbed.jwtlib testbed.platform examples.jwtService
           examples.no_metadata {| pb.LogoutRequest_Token := "any-token" |}
           examples.w_outage "context deadline exceeded").
  - reflexivity.
  - discriminate.
Defined.

(** ** InvalidateToken *)

Section InvalidateToken_facts.
Variable L : jwt.Lib auth.JWTClaims.
Variable P : Platform.
Variable j : auth.JWTService.

(** The record [InvalidateToken] hands to the store. *)
Let record (tokenString : string) (userObjectID : mongo.ObjectID)
    (expiryTime createdAt : time.Time) : InvalidatedToken :=
  {| InvalidatedToken_ID := mongo.NilObjectID;
     InvalidatedToken_Token := tokenString;
     InvalidatedToken_UserID := userObjectID;
     InvalidatedToken_ExpiresAt := expiryTime;
     InvalidatedToken_CreatedAt := createdAt |}.

(** The tail of [InvalidateToken], once the expiry is chosen in world
    [w2]. *)
Let finish (tokenString userID : string) (expiryTime : time.Time)
    (w2 : World) : option (option error * World) :=
  match primitive_ObjectIDFromHex P userID with
  | Err err => Some (Some (fmt_Errorf ("invalid user ID: " ++ err)), w2)
  | Ok userObjectID =>
      match Tokens_InsertOne
              (record tokenString userObjectID expiryTime (w_now w2))
              (ticked w2) with
      | Some (Ok _, w4) => Some (None, w4)
      | Some (Err err, w4) =>
          Some (Some (fmt_Errorf ("failed to invalidate token: "
                                  ++ mongo.Error_string err)), w4)
      | None => None
      end
  end.

Lemma InvalidateToken_run tokenString userID w :
  auth.InvalidateToken L P j tokenString userID w =
  match jwt.ParseWithClaims L tokenString (auth.InvalidateToken_keyfunc j)
          (w_now w) with
  | Ok token =>
      match jwt.ExpiresAt (auth.RegisteredClaims (jwt.Claims token)) with
      | Some t => finish tokenString userID t (ticked w)
      | None => None
      end
  | Err _ =>
      finish tokenString userID
        (time.Add (w_now (ticked w)) (auth.tokenTTL j)) (ticked (ticked w))
  end.
Proof.
  unfold auth.InvalidateToken, finish, record.
  rewrite run_bind. unfold time_Now at 1.
  rewrite run_bind.
  destruct (jwt.ParseWithClaims L tokenString _ (w_now w)) as [token|perr].
  - destruct (jwt.ExpiresAt _) as [t|]; [|reflexivity].
    unfold ret at 1.
    destruct (primitive_ObjectIDFromHex P userID) as [oid|herr];
      [|reflexivity].
    rewrite run_bind. unfold time_Now at 1. rewrite run_bind.
    destruct (Tokens_InsertOne _ (ticked (ticked w))) as [[[id|e] w4]|];
      reflexivity.
  - rewrite run_bind. unfold time_Now at 1. unfold ret at 1.
    destruct (primitive_ObjectIDFromHex P userID) as [oid|herr];
      [|reflexivity].
    rewrite run_bind. unfold time_Now at 1. rewrite run_bind.
    destruct (Tokens_InsertOne _ (ticked (ticked (ticked w)))) as [[[id|e] w4]|];
      reflexivity.
Qed.

(** The three endings of [finish]. *)
Lemma finish_invalid_identity tokenString userID expiryTime w2 err :
  primitive_ObjectIDFromHex P userID = Err err ->
  finish tokenString userID expiryTime w2
  = Some (Some (fmt_Errorf ("invalid user ID: " ++ err)), w2).
Proof. intros H. unfold finish. rewrite H. reflexivity. Qed.

Lemma finish_insert_fails tokenString userID expiryTime w2 oid :
  primitive_ObjectIDFromHex P userID = Ok oid ->
  hd None (w_faults w2) <> None
  \/ existsb (fun t => String.eqb tokenString (InvalidatedToken_Token t))
             (Tokens (w_db w2)) = true ->
  exists e,
    finish tokenString userID expiryTime w2
    = Some (Some (fmt_Errorf ("failed to invalidate token: "
                              ++ mongo.Error_string e)),
            sent (OpInsertOne invalidated_tokens) (ticked w2)).
Proof.
  intros Hhex Hfail. unfold finish, Tokens_InsertOne. rewrite Hhex.
  rewrite InsertOne_run. simpl.
  destruct (hd None (w_faults w2)) as [msg|] eqn:Hf.
  - exists (mongo.CommandError msg). reflexivity.
  - destruct Hfail as [Hfail|Hdup]; [congruence|].
    unfold tokenIndexes_unique, record. simpl. rewrite Hdup.
    exists mongo.DuplicateKey. reflexivity.
Qed.

Lemma finish_inserts tokenString userID expiryTime w2 oid :
  primitive_ObjectIDFromHex P userID = Ok oid ->
  hd None (w_faults w2) = None ->
  existsb (fun t => String.eqb tokenString (InvalidatedToken_Token t))
          (Tokens (w_db w2)) = false ->
  exists w4,
    finish tokenString userID expiryTime w2 = Some (None, w4)
    /\ Tokens (w_db w4)
       = (Tokens (w_db w2)
          ++ [{| InvalidatedToken_ID := hd mongo.NilObjectID (w_ids w2);
                 InvalidatedToken_Token := tokenString;
                 InvalidatedToken_UserID := oid;
                 InvalidatedToken_ExpiresAt := mongo.DateTime expiryTime;
                 InvalidatedToken_CreatedAt := mongo.DateTime (w_now w2) |}])%list
    /\ Users (w_db w4) = Users (w_db w2)
    /\ Attempts (w_db w4) = Attempts (w_db w2)
    /\ w_now w2 <= w_now w4.
Proof.
  intros Hhex Hf Hdup. unfold finish, Tokens_InsertOne. rewrite Hhex.
  rewrite InsertOne_run. simpl. rewrite Hf.
  unfold tokenIndexes_unique, record. simpl. rewrite Hdup.
  eexists. split; [reflexivity|]. simpl. repeat split. lia.
Qed.

(** A token that parses but carries no [exp] makes [InvalidateToken] panic:
    [claims.ExpiresAt] is a nil pointer. *)
Lemma InvalidateToken_panics_without_exp tokenString userID w token :
  jwt.ParseWithClaims L tokenString (auth.InvalidateToken_keyfunc j) (w_now w)
  = Ok token ->
  jwt.ExpiresAt (auth.RegisteredClaims (jwt.Claims token)) = None ->
  auth.InvalidateToken L P j tokenString userID w = None.
Proof.
  intros Hp He. rewrite InvalidateToken_run, Hp, He. reflexivity.
Qed.
End InvalidateToken_facts.

(** C7, as the code has it.  For a token that parses with an [exp], or does
    not parse at all: [InvalidateToken] inserts a revocation record whose expiry
    is, to the millisecond the store keeps, the token's own [exp] in the
    first case and the instant read from the clock plus the TTL in the
    second (a whole number of seconds, as every [exp] the library handles,
    is kept as it is); it fails with "invalid user ID" when the identity
    does not convert to an ObjectID, and with "failed to invalidate token"
    when the insert errors (the store fails, or the token is already under
    the unique index); in both failures the collections are left as they
    were.  (A token that parses without [exp] is left out: see
    [InvalidateToken_panics_without_exp].) *)
Theorem C7_InvalidateToken_record_and_failures
    (L : jwt.Lib auth.JWTClaims) (P : Platform) (j : auth.JWTService)
    (tokenString userID : string) (w : World) (expiry : time.Time) :
  let parsed := jwt.ParseWithClaims L tokenString
                  (auth.InvalidateToken_keyfunc j) (w_now w) in
  ((exists token, parsed = Ok token
                  /\ jwt.ExpiresAt (auth.RegisteredClaims (jwt.Claims token))
                     = Some expiry)
   \/ (exists perr, parsed = Err perr
                    /\ expiry = time.Add (w_now (ticked w)) (auth.tokenTTL j))) ->
  (forall err,
      primitive_ObjectIDFromHex P userID = Err err ->
      exists w',
        auth.InvalidateToken L P j tokenString userID w
        = Some (Some (fmt_Errorf ("invalid user ID: " ++ err)), w')
        /\ w_db w' = w_db w)
  /\ (forall oid,
         primitive_ObjectIDFromHex P userID = Ok oid ->
         hd None (w_faults w) <> None
         \/ existsb (fun t => String.eqb tokenString (InvalidatedToken_Token t))
                    (Tokens (w_db w)) = true ->
         exists e w',
           auth.InvalidateToken L P j tokenString userID w
           = Some (Some (fmt_Errorf ("failed to invalidate token: "
                                     ++ mongo.Error_string e)), w')
           /\ w_db w' = w_db w)
  /\ (forall oid,
         primitive_ObjectIDFromHex P userID = Ok oid ->
         hd None (w_faults w) = None ->
         existsb (fun t => String.eqb tokenString (InvalidatedToken_Token t))
                 (Tokens (w_db w)) = false ->
         exists w' id createdAt,
           auth.InvalidateToken L P j tokenString userID w = Some (None, w')
           /\ Tokens (w_db w')
              = (Tokens (w_db w)
                 ++ [{| InvalidatedToken_ID := id;
                        InvalidatedToken_Token := tokenString;
                        InvalidatedToken_UserID := oid;
                        InvalidatedToken_ExpiresAt := mongo.DateTime expiry;
                        InvalidatedToken_CreatedAt := createdAt |}])%list
           /\ Users (w_db w') = Users (w_db w)
           /\ Attempts (w_db w') = Attempts (w_db w))
  /\ (expiry - time.Millisecond < mongo.DateTime expiry <= expiry)
  /\ (jwt.NewNumericDate expiry = expiry -> mongo.DateTime expiry = expiry).
Proof.
  intros parsed Hexp.
  assert (Hrun : exists w2,
             auth.InvalidateToken L P j tokenString userID w
             = match primitive_ObjectIDFromHex P userID with
               | Err err => Some (Some (fmt_Errorf ("invalid user ID: " ++ err)), w2)
               | Ok userObjectID =>
                   match Tokens_InsertOne
                           {| InvalidatedToken_ID := mongo.NilObjectID;
                              InvalidatedToken_Token := tokenString;
                              InvalidatedToken_UserID := userObjectID;
                              InvalidatedToken_ExpiresAt := expiry;
                              InvalidatedToken_CreatedAt := w_now w2 |}
                           (ticked w2) with
                   | Some (Ok _, w4) => Some (None, w4)
                   | Some (Err err, w4) =>
                       Some (Some (fmt_Errorf ("failed to invalidate token: "
                                               ++ mongo.Error_string err)), w4)
                   | None => None
                   end
               end
             /\ w_db w2 = w_db w /\ w_faults w2 = w_faults w).
  { rewrite InvalidateToken_run. fold parsed.
    destruct Hexp as [(token & Hp & He) | (perr & Hp & He)]; rewrite Hp.
    - rewrite He. exists (ticked w). repeat split.
    - rewrite <- He. exists (ticked (ticked w)). repeat split. }
  destruct Hrun as (w2 & Hrun & Hdb & Hfaults).
  split; [|split; [|split; [|split]]].
  4: apply DateTime_bounds.
  4: apply DateTime_whole_seconds.
  - intros err Hhex. exists w2. rewrite Hrun, Hhex. split; [reflexivity|assumption].
  - intros oid Hhex Hfail.
    destruct (finish_insert_fails P tokenString userID expiry w2 oid Hhex)
      as [e He].
    { rewrite Hfaults, Hdb. exact Hfail. }
    exists e, (sent (OpInsertOne invalidated_tokens) (ticked w2)).
    rewrite Hrun. rewrite Hhex in He |- *.
    destruct (Tokens_InsertOne _ (ticked w2)) as [[[id|e'] w4]|];
      try discriminate.
    split; [exact He|]. simpl. exact Hdb.
  - intros oid Hhex Hf Hdup.
    destruct (finish_inserts P tokenString userID expiry w2 oid Hhex)
      as (w4 & Hfin & Htok & Hus & Hat & _).
    { rewrite Hfaults. exact Hf. }
    { rewrite Hdb. exact Hdup. }
    exists w4, (hd mongo.NilObjectID (w_ids w2)), (mongo.DateTime (w_now w2)).
    rewrite Hrun. rewrite Hhex in Hfin |- *.
    destruct (Tokens_InsertOne _ (ticked w2)) as [[[id|e'] w4']|];
      try discriminate.
    split; [exact Hfin|]. rewrite Htok, Hus, Hat, Hdb. repeat split.
Qed.

Lemma C7_InvalidateToken_record_and_failures_witness :
  exists w' id createdAt,
    auth.InvalidateToken testbed.jwtlib testbed.platform examples.jwtService
      examples.alice_token examples.alice_id
      (examples.quiet examples.one_o_clock examples.empty_db)
    = Some (None, w')
    /\ Tokens (w_db w')
       = [{| InvalidatedToken_ID := id;
             InvalidatedToken_Token := examples.alice_token;
             InvalidatedToken_UserID := examples.alice_id;
             InvalidatedToken_ExpiresAt := examples.noon + 24 * time.Hour;
             InvalidatedToken_CreatedAt := createdAt |}].
Proof.
  destruct (C7_InvalidateToken_record_and_failures
              testbed.jwtlib testbed.platform examples.jwtService
              examples.alice_token examples.alice_id
              (examples.quiet examples.one_o_clock examples.empty_db)
              (examples.noon + 24 * time.Hour))
    as (_ & _ & Hins & _ & Hwhole).
  - left. eexists. split; vm_compute; reflexivity.
  - destruct (Hins examples.alice_id) as (w' & id & createdAt & Hrun & Htok & _).
    + reflexivity.
    + reflexivity.
    + reflexivity.
    + exists w', id, createdAt. split; [exact Hrun|].
      rewrite Hwhole in Htok by (vm_compute; reflexivity). exact Htok.
Defined.

(** C7 as first stated does not hold.  A token signed with the service's
    key that carries no [exp] parses, and [InvalidateToken] then panics on
    the nil [claims.ExpiresAt]: no record is inserted, and an identity that does not
    convert is not reported either.  And for a string that does not parse,
    at an instant off the millisecond, the record's expiry is not the
    instant read from the clock plus the TTL: the store has rounded it. *)
Lemma C7_counterexample_no_expiry_and_rounding :
  (exists token,
      jwt.ParseWithClaims testbed.jwtlib examples.eternal_token
        (auth.InvalidateToken_keyfunc examples.jwtService) examples.one_o_clock
      = Ok token)
  /\ auth.InvalidateToken testbed.jwtlib testbed.platform examples.jwtService
       examples.eternal_token examples.alice_id
       (examples.quiet examples.one_o_clock examples.empty_db) = None
  /\ (exists err, primitive_ObjectIDFromHex testbed.platform "zz" = Err err)
  /\ auth.InvalidateToken testbed.jwtlib testbed.platform examples.jwtService
       examples.eternal_token "zz"
       (examples.quiet examples.one_o_clock examples.empty_db) = None
  /\ (exists r,
        option_map (fun rw => (fst rw, Tokens (w_db (snd rw))))
          (auth.InvalidateToken testbed.jwtlib testbed.platform
             examples.jwtService "not-a-token" examples.alice_id
             examples.w_offbeat)
        = Some (None, [r])
        /\ InvalidatedToken_ExpiresAt r
           <> time.Add (w_now (ticked examples.w_offbeat))
                (auth.tokenTTL examples.jwtService)).
Proof.
  split; [eexists; vm_compute; reflexivity|].
  split; [vm_compute; reflexivity|].
  split; [eexists; vm_compute; reflexivity|].
  split; [vm_compute; reflexivity|].
  eexists. split; [vm_compute; reflexivity|].
  vm_compute. discriminate.
Defined.

(** ** The rate limiter *)

Lemma faults_ticked w : w_faults (ticked w) = w_faults w.
Proof. reflexivity. Qed.

Lemma CheckRateLimit_run email ipAddress w :
  utils.CheckRateLimit email ipAddress w =
  Some (match hd None (w_faults w) with
        | Some msg => Err (fmt_Errorf ("failed to check rate limit: " ++ msg))
        | None =>
            Ok (Z.of_nat
                  (List.length
                     (filter (utils.rate_filter email ipAddress
                                (time.Add (w_now w) (-1 * time.Minute)))
                        (Attempts (w_db w)))) <? 5)
        end,
        sent (OpCountDocuments login_attempts) (ticked w)).
Proof.
  unfold utils.CheckRateLimit, Attempts_CountDocuments.
  rewrite run_bind. unfold time_Now at 1.
  rewrite run_bind, CountDocuments_run. rewrite faults_ticked.
  destruct (hd None (w_faults w)); reflexivity.
Qed.

(** The filter sent to the store selects exactly the attempts that count
    toward the limit. *)
Lemma rate_filter_counts email ipAddress now a :
  utils.rate_filter email ipAddress (time.Add now (-1 * time.Minute)) a = true
  <-> counts_toward_limit email ipAddress now a.
Proof.
  replace (time.Add now (-1 * time.Minute)) with (now - 60 * time.Second)
    by (unfold time.Add, time.Minute; lia).
  unfold utils.rate_filter, counts_toward_limit.
  rewrite !andb_true_iff, !String.eqb_eq, Z.leb_le.
  destruct (LoginAttempt_Success a); simpl; intuition (try discriminate).
Qed.

Lemma rate_filter_window email ipAddress now attempts :
  Z.of_nat (List.length
              (filter (utils.rate_filter email ipAddress
                         (time.Add now (-1 * time.Minute))) attempts))
  = failures_in_window email ipAddress now attempts.
Proof.
  unfold failures_in_window. f_equal. f_equal.
  apply filter_ext. intros a.
  destruct (counts_toward_limit_dec email ipAddress now a) as [Hc|Hn].
  - now apply rate_filter_counts.
  - destruct (utils.rate_filter _ _ _ a) eqn:E; [|reflexivity].
    apply rate_filter_counts in E. contradiction.
Qed.

(** Taking out of the store an attempt that does not count changes
    nothing to the number of those that do. *)
Lemma failures_in_window_remove email ipAddress now pre a post :
  ~ counts_toward_limit email ipAddress now a ->
  failures_in_window email ipAddress now (pre ++ a :: post)
  = failures_in_window email ipAddress now (pre ++ post).
Proof.
  intros Hn. unfold failures_in_window.
  rewrite !filter_app. simpl.
  destruct (counts_toward_limit_dec email ipAddress now a); [contradiction|].
  reflexivity.
Qed.

(** An attempt of the last minute counts at the store, and an attempt that
    counts at the store is no older than a minute and a millisecond. *)
Lemma recent_failure_counts identity origin now a :
  recent_failure identity origin now a ->
  counts_toward_limit identity origin now a.
Proof.
  unfold recent_failure, counts_toward_limit.
  intros (He & Hi & Hs & Ht). repeat split; try assumption.
  pose proof (DateTime_bounds (now - 60 * time.Second)). lia.
Qed.

Lemma counts_recent_failure identity origin now a :
  counts_toward_limit identity origin now a ->
  recent_failure identity origin (now - time.Millisecond) a.
Proof.
  unfold recent_failure, counts_toward_limit.
  intros (He & Hi & Hs & Ht). repeat split; try assumption.
  pose proof (DateTime_bounds (now - 60 * time.Second)). lia.
Qed.

Lemma filter_length_le {D} (f g : D -> bool) (l : list D) :
  (forall x, f x = true -> g x = true) ->
  (List.length (filter f l) <= List.length (filter g l))%nat.
Proof.
  intros Hfg. induction l as [|x l IH]; simpl; [lia|].
  destruct (f x) eqn:Ef.
  - rewrite (Hfg x Ef). simpl. lia.
  - destruct (g x); simpl; lia.
Qed.

Lemma failures_in_window_bracket identity origin now attempts :
  recent_failures identity origin now attempts
  <= failures_in_window identity origin now attempts
  <= recent_failures identity origin (now - time.Millisecond) attempts.
Proof.
  unfold recent_failures, failures_in_window. split; apply inj_le;
    apply filter_length_le; intros a.
  - destruct (recent_failure_dec identity origin now a) as [H|_];
      [|discriminate].
    intros _. apply recent_failure_counts in H.
    now destruct (counts_toward_limit_dec identity origin now a).
  - destruct (counts_toward_limit_dec identity origin now a) as [H|_];
      [|discriminate].
    intros _. apply counts_recent_failure in H.
    now destruct (recent_failure_dec identity origin
                    (now - time.Millisecond) a).
Qed.

(** C4, as the code has it.  [CheckRateLimit] answers true exactly when
    fewer than five attempts of this [(identity, origin)] pair are failed
    and dated no earlier than the instant one minute before now, taken to
    the millisecond as the store does (the count request itself going
    through).  That count lies between the failures of the last minute and
    those of the last minute and a millisecond.  An attempt that succeeded,
    or is dated before that rounded instant, or is of another pair, does
    not weigh on the answer; and the call leaves the collections as they
    were. *)
Theorem C4_CheckRateLimit_counts_recent_failures
    (identity origin : string) (w : World) :
  exists res w',
    utils.CheckRateLimit identity origin w = Some (res, w')
    /\ w_db w' = w_db w
    /\ (hd None (w_faults w) = None ->
        res = Ok (failures_in_window identity origin (w_now w)
                    (Attempts (w_db w)) <? 5))
    /\ (res = Ok true <->
        hd None (w_faults w) = None
        /\ failures_in_window identity origin (w_now w) (Attempts (w_db w)) < 5)
    /\ (recent_failures identity origin (w_now w) (Attempts (w_db w))
        <= failures_in_window identity origin (w_now w) (Attempts (w_db w))
        <= recent_failures identity origin (w_now w - time.Millisecond)
             (Attempts (w_db w)))
    /\ (forall pre a post,
           Attempts (w_db w) = (pre ++ a :: post)%list ->
           LoginAttempt_Success a = true
           \/ LoginAttempt_Timestamp a
              < mongo.DateTime (w_now w - 60 * time.Second)
           \/ LoginAttempt_Email a <> identity
           \/ LoginAttempt_IPAddress a <> origin ->
           option_map fst
             (utils.CheckRateLimit identity origin
                (with_db (with_Attempts (pre ++ post)%list (w_db w)) w))
           = Some res).
Proof.
  eexists. eexists. split; [apply CheckRateLimit_run|].
  rewrite rate_filter_window.
  split; [reflexivity|]. split; [|split; [|split]].
  - intros Hf. rewrite Hf. reflexivity.
  - destruct (hd None (w_faults w)) as [msg|]; split.
    + discriminate.
    + intros [H _]. discriminate.
    + intros H. injection H as H. apply Z.ltb_lt in H. now split.
    + intros [_ H]. apply Z.ltb_lt in H. now rewrite H.
  - apply failures_in_window_bracket.
  - intros pre a post Hsplit Hnot.
    rewrite CheckRateLimit_run. simpl.
    rewrite rate_filter_window, Hsplit.
    rewrite (failures_in_window_remove identity origin (w_now w) pre a post);
      [reflexivity|].
    unfold counts_toward_limit. intros (He & Hi & Hs & Ht).
    destruct Hnot as [H|[H|[H|H]]]; try contradiction; try congruence; lia.
Qed.

Lemma C4_CheckRateLimit_counts_recent_failures_witness :
  option_map fst
    (utils.CheckRateLimit "alice@example.com" "10.0.0.1" examples.w_throttled)
  = Some (Ok false)
  /\ option_map fst
       (utils.CheckRateLimit "alice@example.com" "10.0.0.1"
          (examples.quiet (examples.noon + 11 * time.Second)
             (w_db examples.w_throttled)))
     = Some (Ok true).
Proof.
  split.
  - destruct (C4_CheckRateLimit_counts_recent_failures
                "alice@example.com" "10.0.0.1" examples.w_throttled)
      as (res & w' & Hrun & _ & Hres & _).
    rewrite Hrun. simpl. rewrite (Hres eq_refl). reflexivity.
  - destruct (C4_CheckRateLimit_counts_recent_failures
                "alice@example.com" "10.0.0.1"
                (examples.quiet (examples.noon + 11 * time.Second)
                   (w_db examples.w_throttled)))
      as (res & w' & Hrun & _ & Hres & _).
    rewrite Hrun. simpl. rewrite (Hres eq_refl). reflexivity.
Defined.

(** C4 as first stated does not hold.  Five failures stored at noon; at one
    minute and 0.9 ms past noon none of them is of the last sixty seconds,
    yet [CheckRateLimit] answers false: the store compares the dates to the
    millisecond, and counts all five. *)
Lemma C4_counterexample_failures_older_than_a_minute :
  recent_failures "alice@example.com" "10.0.0.1"
    (w_now examples.w_stale) (Attempts (w_db examples.w_stale)) = 0
  /\ (forall a, In a (Attempts (w_db examples.w_stale)) ->
                LoginAttempt_Timestamp a
                < w_now examples.w_stale - 60 * time.Second)
  /\ option_map fst
       (utils.CheckRateLimit "alice@example.com" "10.0.0.1" examples.w_stale)
     = Some (Ok false).
Proof.
  split; [vm_compute; reflexivity|].
  split; [|vm_compute; reflexivity].
  intros a Hin. simpl in Hin.
  repeat (destruct Hin as [<-|Hin]; [vm_compute; reflexivity|]).
  destruct Hin.
Defined.

Lemma existsb_never {D} (l : list D) : existsb (fun _ => false) l = false.
Proof. induction l; simpl; auto. Qed.

Lemma RecordLoginAttempt_run email ipAddress success w :
  utils.RecordLoginAttempt email ipAddress success w =
  Some (match hd None (w_faults w) with
        | Some msg =>
            Some (fmt_Errorf ("failed to record login attempt: " ++ msg))
        | None => None
        end,
        match hd None (w_faults w) with
        | Some msg => sent (OpInsertOne login_attempts) (ticked w)
        | None =>
            with_db
              (with_Attempts
                 (Attempts (w_db w)
                  ++ [{| LoginAttempt_ID := hd mongo.NilObjectID (w_ids w);
                         LoginAttempt_Email := email;
                         LoginAttempt_IPAddress := ipAddress;
                         LoginAttempt_Timestamp := mongo.DateTime (w_now w);
                         LoginAttempt_Success := success |}])%list
                 (w_db w))
              (id_taken (sent (OpInsertOne login_attempts) (ticked w)))
        end).
Proof.
  unfold utils.RecordLoginAttempt, Attempts_InsertOne.
  rewrite run_bind. unfold time_Now at 1.
  rewrite run_bind, InsertOne_run. rewrite faults_ticked.
  destruct (hd None (w_faults w)); [reflexivity|].
  unfold attemptIndexes_unique. rewrite existsb_never. reflexivity.
Qed.

Lemma GenerateToken_run (L : jwt.Lib auth.JWTClaims) (j : auth.JWTService)
    userID email w :
  auth.GenerateToken L j userID email w =
  Some (match jwt.SignedString L jwt.HS256
                {| auth.UserID := userID;
                   auth.Email := email;
                   auth.RegisteredClaims :=
                     {| jwt.ExpiresAt :=
                          Some (jwt.NewNumericDate
                                  (time.Add (w_now w) (auth.tokenTTL j)));
                        jwt.IssuedAt :=
                          Some (jwt.NewNumericDate (w_now (ticked w)));
                        jwt.NotBefore :=
                          Some (jwt.NewNumericDate (w_now (ticked (ticked w))));
                        jwt.Subject := userID;
                        jwt.Issuer := "";
                        jwt.Audience := [];
                        jwt.ID := "" |} |}
                (auth.secretKey j) with
        | Ok s => Ok s
        | Err e => Err (jwt_error e)
        end,
        ticked (ticked (ticked w))).
Proof.
  unfold auth.GenerateToken, bind, time_Now, ret.
  destruct (jwt.SignedString L jwt.HS256 _ (auth.secretKey j)); reflexivity.
Qed.

(** ** Login *)

(** One step of a run: the computation at the head of a sequence is
    replaced by its outcome. *)
Ltac run_head :=
  lazymatch goal with
  | |- bind (utils.CheckRateLimit ?e ?ip) ?k ?w = _ =>
      rewrite (run_bind_eq _ k w _ _ (CheckRateLimit_run e ip w))
  | |- bind (utils.RecordLoginAttempt ?e ?ip ?s) ?k ?w = _ =>
      rewrite (run_bind_eq _ k w _ _ (RecordLoginAttempt_run e ip s w))
  | |- bind (auth.GenerateToken ?L ?j ?u ?e) ?k ?w = _ =>
      rewrite (run_bind_eq _ k w _ _ (GenerateToken_run L j u e w))
  | |- bind (Users_FindOne ?f) ?k ?w = _ =>
      rewrite (run_bind_eq (Users_FindOne f) k w _ _
                 (FindOne_run users Users f w))
  | |- bind (Tokens_FindOne ?f) ?k ?w = _ =>
      rewrite (run_bind_eq (Tokens_FindOne f) k w _ _
                 (FindOne_run invalidated_tokens Tokens f w))
  end;
  cbv beta iota.

Section Login_facts.
Variable L : jwt.Lib auth.JWTClaims.
Variable P : Platform.
Variable j : auth.JWTService.

(** Past input validation, [Login] goes on as the rate limiter says. *)
Lemma Login_rate_limited ctx req w w1 :
  utils.ValidateEmail P (pb.LoginRequest_Email req) = None ->
  pb.LoginRequest_Password req <> "" ->
  utils.CheckRateLimit (pb.LoginRequest_Email req) (services.getClientIP ctx) w
  = Some (Ok false, w1) ->
  services.Login L P j ctx req w
  = Some (Err (status.Errorf codes.ResourceExhausted
                 "too many login attempts, please try again later"), w1).
Proof.
  intros Hemail Hpw Hrl. unfold services.Login. rewrite Hemail.
  destruct (String.eqb_spec (pb.LoginRequest_Password req) "");
    [contradiction|].
  cbv beta iota. rewrite (run_bind_eq _ _ _ _ _ Hrl). reflexivity.
Qed.
End Login_facts.

(** C5. A [Login] whose input passes validation and whose rate-limit check
    reports "not allowed" fails with ResourceExhausted; the only operation
    sent to the store is the count on the attempts (no lookup of the user),
    and the collections, the attempts among them, are left as they were. *)
Theorem C5_rate_limited_Login_touches_nothing
    (L : jwt.Lib auth.JWTClaims) (P : Platform) (j : auth.JWTService)
    (ctx : Context) (req : pb.LoginRequest) (w w1 : World) :
  utils.ValidateEmail P (pb.LoginRequest_Email req) = None ->
  pb.LoginRequest_Password req <> "" ->
  utils.CheckRateLimit (pb.LoginRequest_Email req) (services.getClientIP ctx) w
  = Some (Ok false, w1) ->
  services.Login L P j ctx req w
  = Some (Err {| status.Code := codes.ResourceExhausted;
                 status.Message :=
                   "too many login attempts, please try again later" |}, w1)
  /\ w_trace w1 = (w_trace w ++ [OpCountDocuments login_attempts])%list
  /\ w_db w1 = w_db w
  /\ Attempts (w_db w1) = Attempts (w_db w).
Proof.
  intros Hemail Hpw Hrl.
  split; [now apply Login_rate_limited|].
  rewrite CheckRateLimit_run in Hrl. injection Hrl as _ Hw1. subst w1.
  simpl. repeat split.
Qed.

Lemma C5_rate_limited_Login_touches_nothing_witness :
  exists w1,
    services.Login testbed.jwtlib testbed.platform examples.jwtService
      examples.from_10_0_0_1 (examples.login_alice "Str0ng!Pass")
      examples.w_throttled
    = Some (Err {| status.Code := codes.ResourceExhausted;
                   status.Message :=
                     "too many login attempts, please try again later" |}, w1)
    /\ w_db w1 = w_db examples.w_throttled.
Proof.
  eexists.
  destruct (C5_rate_limited_Login_touches_nothing
              testbed.jwtlib testbed.platform examples.jwtService
              examples.from_10_0_0_1 (examples.login_alice "Str0ng!Pass")
              examples.w_throttled
              (sent (OpCountDocuments login_attempts)
                 (ticked examples.w_throttled)))
    as (Hrun & _ & Hdb & _).
  - reflexivity.
  - discriminate.
  - reflexivity.
  - split; [exact Hrun | exact Hdb].
Defined.

(** *** The path of [Login] up to the lookup of the user *)

Lemma hd_tl_nth {D} (d : D) (l : list D) : hd d (tl l) = nth 1 l d.
Proof. destruct l as [|x [|y l]]; reflexivity. Qed.

Lemma hd_tl_tl_nth {D} (d : D) (l : list D) : hd d (tl (tl l)) = nth 2 l d.
Proof. destruct l as [|x [|y [|z l]]]; reflexivity. Qed.

Lemma login_filter_live email u :
  String.eqb (User_Email u) email && Bool.eqb (User_IsDeleted u) false = true
  <-> live_with_email email u.
Proof.
  unfold live_with_email.
  rewrite andb_true_iff, String.eqb_eq, Bool.eqb_true_iff. tauto.
Qed.

Section Login_paths.
Variable L : jwt.Lib auth.JWTClaims.
Variable P : Platform.
Variable j : auth.JWTService.
Variable ctx : Context.
Variable req : pb.LoginRequest.
Variable w : World.

Let email := pb.LoginRequest_Email req.
Let clientIP := services.getClientIP ctx.
Let w1 := sent (OpCountDocuments login_attempts) (ticked w).
Let w2 := sent (OpFindOne users) w1.

Hypothesis Hemail : utils.ValidateEmail P email = None.
Hypothesis Hpassword : pb.LoginRequest_Password req <> "".
Hypothesis Hcount : goes_through 0 w.
Hypothesis Hallowed :
  failures_in_window email clientIP (w_now w) (Attempts (w_db w)) < 5.
Hypothesis Hfind : goes_through 1 w.

(** With the input valid, the limiter willing and the store answering, the
    outcome of [Login] is decided by the user found. *)
Lemma Login_reaches_lookup :
  services.Login L P j ctx req w =
  match find (fun u => String.eqb (User_Email u) email
                       && Bool.eqb (User_IsDeleted u) false)
             (Users (w_db w)) with
  | None =>
      match utils.RecordLoginAttempt email clientIP false w2 with
      | Some (_, w3) =>
          Some (Err (status.Errorf codes.NotFound "invalid email or password"), w3)
      | None => None
      end
  | Some user =>
      if negb (utils.CheckPasswordHash P (pb.LoginRequest_Password req)
                 (User_Password user)) then
        match utils.RecordLoginAttempt email clientIP false w2 with
        | Some (_, w3) =>
            Some (Err (status.Errorf codes.Unauthenticated
                         "invalid email or password"), w3)
        | None => None
        end
      else if negb (User_IsActive user) then
        Some (Err (status.Errorf codes.PermissionDenied
                     "account is deactivated/deleted"), w2)
      else
        match auth.GenerateToken L j (ObjectID_Hex P (User_ID user))
                (User_Email user) w2 with
        | Some (Err _, w3) =>
            Some (Err (status.Errorf codes.Internal "failed to generate token"), w3)
        | Some (Ok token, w3) =>
            match utils.RecordLoginAttempt email clientIP true w3 with
            | Some (_, w4) =>
                Some (Ok {| pb.LoginResponse_Token := token;
                            pb.LoginResponse_User := services.pbUser_of P user;
                            pb.LoginResponse_Message := "Login success" |}, w4)
            | None => None
            end
        | None => None
        end
  end.
Proof.
  unfold services.Login. fold email clientIP. rewrite Hemail.
  destruct (String.eqb_spec (pb.LoginRequest_Password req) "");
    [contradiction|].
  cbv beta iota. run_head.
  unfold goes_through in Hcount, Hfind. rewrite <- hd_nth in Hcount.
  rewrite Hcount, rate_filter_window.
  apply Z.ltb_lt in Hallowed. rewrite Hallowed. cbv beta iota.
  change (negb true) with false. cbv beta iota. run_head. fold w1.
  replace (hd None (w_faults w1)) with (@None string)
    by (unfold w1; simpl; rewrite hd_tl_nth; symmetry; exact Hfind).
  replace (w_db w1) with (w_db w) by reflexivity. fold w2.
  destruct (find _ (Users (w_db w))) as [user|]; cbv beta iota;
    [|reflexivity].
  destruct (negb (utils.CheckPasswordHash P _ _)); [reflexivity|].
  destruct (negb (User_IsActive user)); [reflexivity|].
  rewrite run_bind.
  destruct (auth.GenerateToken L j _ _ w2) as [[[token|e] w3]|];
    reflexivity.
Qed.
End Login_paths.

Lemma find_none_live email us :
  (forall u, In u us -> ~ live_with_email email u) ->
  find (fun u => String.eqb (User_Email u) email
                 && Bool.eqb (User_IsDeleted u) false) us = None.
Proof.
  intros Hnone. destruct (find _ us) as [u|] eqn:E; [|reflexivity].
  apply find_some in E. destruct E as [Hin Hu].
  apply login_filter_live in Hu. destruct (Hnone u Hin Hu).
Qed.

Lemma find_some_live email us :
  (exists u, In u us /\ live_with_email email u) ->
  exists user,
    find (fun u => String.eqb (User_Email u) email
                   && Bool.eqb (User_IsDeleted u) false) us = Some user
    /\ In user us /\ live_with_email email user.
Proof.
  intros (u & Hin & Hu).
  destruct (find_In_Some
              (fun u => String.eqb (User_Email u) email
                        && Bool.eqb (User_IsDeleted u) false)
              us u Hin (proj2 (login_filter_live email u) Hu))
    as [user Hf].
  exists user. split; [exact Hf|].
  apply find_some in Hf. destruct Hf as [Hin' Hu'].
  split; [exact Hin' | now apply login_filter_live].
Qed.

Lemma reaches_lookup_window P ctx req w :
  reaches_lookup P ctx req w ->
  failures_in_window (pb.LoginRequest_Email req) (services.getClientIP ctx)
    (w_now w) (Attempts (w_db w)) < 5.
Proof.
  intros (_ & _ & _ & H & _).
  rewrite <- rate_filter_window.
  erewrite filter_ext; [exact H|].
  intros a. unfold utils.rate_filter, time.Add, time.Minute.
  replace (w_now w + -1 * (60 * time.Second)) with (w_now w - 60 * time.Second)
    by lia.
  destruct (LoginAttempt_Success a); reflexivity.
Qed.

(** [Login], for a call that gets to the lookup. *)
Lemma Login_at_lookup L P j ctx req w :
  reaches_lookup P ctx req w ->
  services.Login L P j ctx req w =
  let email := pb.LoginRequest_Email req in
  let clientIP := services.getClientIP ctx in
  let w2 := sent (OpFindOne users)
              (sent (OpCountDocuments login_attempts) (ticked w)) in
  match find (fun u => String.eqb (User_Email u) email
                       && Bool.eqb (User_IsDeleted u) false)
             (Users (w_db w)) with
  | None =>
      match utils.RecordLoginAttempt email clientIP false w2 with
      | Some (_, w3) =>
          Some (Err (status.Errorf codes.NotFound "invalid email or password"), w3)
      | None => None
      end
  | Some user =>
      if negb (utils.CheckPasswordHash P (pb.LoginRequest_Password req)
                 (User_Password user)) then
        match utils.RecordLoginAttempt email clientIP false w2 with
        | Some (_, w3) =>
            Some (Err (status.Errorf codes.Unauthenticated
                         "invalid email or password"), w3)
        | None => None
        end
      else if negb (User_IsActive user) then
        Some (Err (status.Errorf codes.PermissionDenied
                     "account is deactivated/deleted"), w2)
      else
        match auth.GenerateToken L j (ObjectID_Hex P (User_ID user))
                (User_Email user) w2 with
        | Some (Err _, w3) =>
            Some (Err (status.Errorf codes.Internal "failed to generate token"), w3)
        | Some (Ok token, w3) =>
            match utils.RecordLoginAttempt email clientIP true w3 with
            | Some (_, w4) =>
                Some (Ok {| pb.LoginResponse_Token := token;
                            pb.LoginResponse_User := services.pbUser_of P user;
                            pb.LoginResponse_Message := "Login success" |}, w4)
            | None => None
            end
        | None => None
        end
  end.
Proof.
  intros H. pose proof (reaches_lookup_window _ _ _ _ H) as Hwin.
  destruct H as (He & Hp & H0 & _ & H1).
  now apply Login_reaches_lookup.
Qed.

(** C6. Of two [Login] calls that both get to the lookup of the user, one
    for an identity with no (live) credential in the store and one for an
    existing identity with a secret that does not verify, both fail with
    the same message, "invalid email or password".  (The status codes are
    NotFound for the first and Unauthenticated for the second.) *)
Theorem C6_unknown_identity_and_wrong_secret_same_message
    (L : jwt.Lib auth.JWTClaims) (P : Platform) (j : auth.JWTService)
    (ctx1 ctx2 : Context) (req1 req2 : pb.LoginRequest) (w1 w2 : World) :
  reaches_lookup P ctx1 req1 w1 ->
  reaches_lookup P ctx2 req2 w2 ->
  (forall u, In u (Users (w_db w1)) ->
             ~ live_with_email (pb.LoginRequest_Email req1) u) ->
  (exists u, In u (Users (w_db w2))
             /\ live_with_email (pb.LoginRequest_Email req2) u) ->
  (forall u, In u (Users (w_db w2)) ->
             live_with_email (pb.LoginRequest_Email req2) u ->
             utils.CheckPasswordHash P (pb.LoginRequest_Password req2)
               (User_Password u) = false) ->
  exists s1 w1' s2 w2',
    services.Login L P j ctx1 req1 w1 = Some (Err s1, w1')
    /\ services.Login L P j ctx2 req2 w2 = Some (Err s2, w2')
    /\ status.Message s1 = status.Message s2
    /\ status.Message s1 = "invalid email or password"
    /\ status.Code s1 = codes.NotFound
    /\ status.Code s2 = codes.Unauthenticated.
Proof.
  intros Hr1 Hr2 Hnone Hsome Hwrong.
  rewrite (Login_at_lookup L P j ctx1 req1 w1 Hr1).
  rewrite (Login_at_lookup L P j ctx2 req2 w2 Hr2).
  cbv zeta.
  rewrite (find_none_live _ _ Hnone).
  destruct (find_some_live _ _ Hsome) as (user & Hf & Hin & Hlive).
  rewrite Hf, (Hwrong user Hin Hlive).
  change (negb false) with true. cbv iota.
  rewrite !RecordLoginAttempt_run.
  do 4 eexists. split; [reflexivity|]. split; [reflexivity|].
  repeat split.
Qed.

Lemma C6_unknown_identity_and_wrong_secret_same_message_witness :
  exists s1 w1' s2 w2',
    services.Login testbed.jwtlib testbed.platform examples.jwtService
      examples.from_10_0_0_1 examples.login_carol examples.w_users
    = Some (Err s1, w1')
    /\ services.Login testbed.jwtlib testbed.platform examples.jwtService
         examples.from_10_0_0_1 (examples.login_alice "Wr0ng!Pass")
         examples.w_users
       = Some (Err s2, w2')
    /\ status.Message s1 = status.Message s2
    /\ status.Message s1 = "invalid email or password"
    /\ status.Code s1 = codes.NotFound
    /\ status.Code s2 = codes.Unauthenticated.
Proof.
  apply (C6_unknown_identity_and_wrong_secret_same_message
           testbed.jwtlib testbed.platform examples.jwtService
           examples.from_10_0_0_1 examples.from_10_0_0_1
           examples.login_carol (examples.login_alice "Wr0ng!Pass")
           examples.w_users examples.w_users).
  - repeat split; discriminate.
  - repeat split; discriminate.
  - intros u [<-|[<-|[]]] [H _]; discriminate H.
  - exists examples.alice. split; [left; reflexivity | split; reflexivity].
  - intros u [<-|[<-|[]]] [H _]; [reflexivity | discriminate H].
Defined.

(** ** Register *)

(** A [Register] call whose input passes validation answers AlreadyExists
    as soon as any stored user has the (sanitized) email. *)
Lemma Register_duplicate P ctx req w u :
  utils.ValidateEmail P (utils.SanitizeString P (pb.RegisterRequest_Email req))
  = None ->
  utils.ValidatePassword P (pb.RegisterRequest_Password req) = None ->
  utils.ValidateName P (utils.SanitizeString P (pb.RegisterRequest_Name req))
    "name" = None ->
  goes_through 0 w ->
  In u (Users (w_db w)) ->
  User_Email u = utils.SanitizeString P (pb.RegisterRequest_Email req) ->
  services.Register P ctx req w
  = Some (Err (status.Errorf codes.AlreadyExists "email already exists"),
          sent (OpFindOne users) w).
Proof.
  intros He Hp Hn H0 Hin Hu.
  unfold services.Register. cbv zeta. rewrite He, Hp, Hn.
  run_head.
  unfold goes_through in H0. rewrite <- hd_nth in H0. rewrite H0.
  destruct (find_In_Some
              (fun u0 => String.eqb (User_Email u0)
                           (utils.SanitizeString P (pb.RegisterRequest_Email req)))
              (Users (w_db w)) u Hin) as [d Hd].
  - rewrite Hu. apply String.eqb_refl.
  - rewrite Hd. reflexivity.
Qed.

(** C10. The duplicate check of [Register] matches users whatever their
    deleted flag: when the (sanitized) email of a valid request is that of a
    stored user marked deleted, [Register] fails with AlreadyExists; and when
    every stored user with that email is marked deleted, a [Login] for the
    same email that gets to the lookup finds nobody and fails with NotFound
    "invalid email or password". *)
Theorem C10_Register_sees_deleted_users_Login_does_not
    (L : jwt.Lib auth.JWTClaims) (P : Platform) (j : auth.JWTService)
    (ctx : Context) (req : pb.RegisterRequest) (w : World) (u : User) :
  let email := utils.SanitizeString P (pb.RegisterRequest_Email req) in
  utils.ValidateEmail P email = None ->
  utils.ValidatePassword P (pb.RegisterRequest_Password req) = None ->
  utils.ValidateName P (utils.SanitizeString P (pb.RegisterRequest_Name req))
    "name" = None ->
  goes_through 0 w ->
  In u (Users (w_db w)) ->
  User_Email u = email ->
  User_IsDeleted u = true ->
  services.Register P ctx req w
  = Some (Err {| status.Code := codes.AlreadyExists;
                 status.Message := "email already exists" |},
          sent (OpFindOne users) w)
  /\ ((forall u', In u' (Users (w_db w)) -> User_Email u' = email ->
                  User_IsDeleted u' = true) ->
      forall ctx' password,
        reaches_lookup P ctx'
          {| pb.LoginRequest_Email := email;
             pb.LoginRequest_Password := password |} w ->
        exists w',
          services.Login L P j ctx'
            {| pb.LoginRequest_Email := email;
               pb.LoginRequest_Password := password |} w
          = Some (Err {| status.Code := codes.NotFound;
                         status.Message := "invalid email or password" |}, w')).
Proof.
  intros email He Hp Hn H0 Hin Hu Hdel. split.
  - now apply (Register_duplicate P ctx req w u).
  - intros Hall ctx' password Hreach.
    rewrite (Login_at_lookup L P j ctx' _ w Hreach). cbv zeta.
    simpl pb.LoginRequest_Email.
    rewrite find_none_live.
    + rewrite RecordLoginAttempt_run. eexists. reflexivity.
    + intros u' Hin' [He' Hd']. rewrite (Hall u' Hin' He') in Hd'.
      discriminate.
Qed.

Lemma C10_Register_sees_deleted_users_Login_does_not_witness :
  services.Register testbed.platform examples.no_metadata
    examples.register_bob examples.w_users
  = Some (Err {| status.Code := codes.AlreadyExists;
                 status.Message := "email already exists" |},
          sent (OpFindOne users) examples.w_users)
  /\ exists w',
       services.Login testbed.jwtlib testbed.platform examples.jwtService
         examples.from_10_0_0_1 examples.login_bob examples.w_users
       = Some (Err {| status.Code := codes.NotFound;
                      status.Message := "invalid email or password" |}, w').
Proof.
  destruct (C10_Register_sees_deleted_users_Login_does_not
              testbed.jwtlib testbed.platform examples.jwtService
              examples.no_metadata examples.register_bob examples.w_users
              examples.bob) as [Hreg Hlogin].
  - reflexivity.
  - reflexivity.
  - reflexivity.
  - reflexivity.
  - right. left. reflexivity.
  - reflexivity.
  - reflexivity.
  - split; [exact Hreg|].
    apply (Hlogin
             ltac:(intros u' [<-|[<-|[]]] H; [discriminate H | reflexivity])
             examples.from_10_0_0_1 "S3cret!Word").
    repeat split; discriminate.
Defined.

(** ** The attempts written by Login *)

Lemma faults_at_record w :
  hd None (w_faults (sent (OpFindOne users)
                       (sent (OpCountDocuments login_attempts) (ticked w))))
  = nth 2 (w_faults w) None.
Proof. simpl. apply hd_tl_tl_nth. Qed.

(** A path of [Login] that ends without touching the attempts. *)
Ltac no_attempt_leaf H :=
  injection H as <- <-;
  repeat split; intros; try discriminate; try (now left);
  repeat match goal with Hx : _ \/ _ |- _ => destruct Hx end;
  discriminate.

(** A path of [Login] that ends by recording an attempt. *)
Ltac attempt_leaf H :=
  rewrite run_bind, RecordLoginAttempt_run in H; cbv beta iota in H;
  injection H as <- <-;
  simpl w_faults; rewrite ?hd_tl_tl_nth;
  match goal with
  | |- context [nth 2 (w_faults ?wx) None] =>
      let F := fresh "F" in
      destruct (nth 2 (w_faults wx) None) eqn:F
  end;
  repeat split; intros;
  repeat match goal with Hx : _ \/ _ |- _ => destruct Hx end;
  try discriminate; try congruence;
  try (now left);
  try (right);
  try (eexists; simpl; repeat split).

(** C8, as the code has it.  A [Login] call writes at most one attempt
    record, of the request's email and origin, flagged with the outcome of
    the call.  It writes exactly one, flagged true, when it returns a token,
    and exactly one, flagged false, when it rejects the credentials (unknown
    identity, failed lookup, wrong secret), provided the insert of the record
    (the third operation sent to the store) goes through.  It writes none
    when the rate limiter denies the call or fails. *)
Theorem C8_Login_attempt_records
    (L : jwt.Lib auth.JWTClaims) (P : Platform) (j : auth.JWTService)
    (ctx : Context) (req : pb.LoginRequest)
    (w : World) (res : result status.Status pb.LoginResponse) (w' : World) :
  services.Login L P j ctx req w = Some (res, w') ->
  let recorded (flag : bool) : Prop :=
    exists a,
      Attempts (w_db w') = (Attempts (w_db w) ++ [a])%list
      /\ LoginAttempt_Email a = pb.LoginRequest_Email req
      /\ LoginAttempt_IPAddress a = services.getClientIP ctx
      /\ LoginAttempt_Success a = flag in
  (Attempts (w_db w') = Attempts (w_db w)
   \/ recorded (match res with Ok _ => true | Err _ => false end))
  /\ (goes_through 2 w -> forall resp, res = Ok resp -> recorded true)
  /\ (goes_through 2 w ->
      res = Err (status.Errorf codes.NotFound "invalid email or password")
      \/ res = Err (status.Errorf codes.Internal "failed to find user")
      \/ res = Err (status.Errorf codes.Unauthenticated
                      "invalid email or password") ->
      recorded false)
  /\ (res = Err (status.Errorf codes.ResourceExhausted
                   "too many login attempts, please try again later")
      \/ res = Err (status.Errorf codes.Internal "failed to check rate limit") ->
      Attempts (w_db w') = Attempts (w_db w)).
Proof.
  intros H recorded. subst recorded. cbv beta. unfold goes_through.
  unfold services.Login in H.
  destruct (utils.ValidateEmail P (pb.LoginRequest_Email req));
    [no_attempt_leaf H|].
  destruct (String.eqb (pb.LoginRequest_Password req) "");
    [no_attempt_leaf H|].
  cbv beta iota in H.
  rewrite run_bind, CheckRateLimit_run in H. cbv beta iota in H.
  destruct (hd None (w_faults w)) as [msg|]; [no_attempt_leaf H|].
  destruct (_ <? 5); cbn [negb] in H; cbv beta iota in H;
    [|no_attempt_leaf H].
  rewrite run_bind in H. unfold Users_FindOne in H.
  rewrite FindOne_run in H. cbv beta iota in H.
  destruct (hd None (w_faults _)) as [msg|] eqn:F1 in H.
  { cbn [mongo.is_ErrNoDocuments] in H. cbv beta iota in H.
    attempt_leaf H. }
  destruct (find _ _) as [user|] in H.
  2:{ cbn [mongo.is_ErrNoDocuments] in H. cbv beta iota in H.
      attempt_leaf H. }
  cbv beta iota in H.
  destruct (negb (utils.CheckPasswordHash P _ _)); [attempt_leaf H|].
  destruct (negb (User_IsActive user)); [no_attempt_leaf H|].
  rewrite run_bind, GenerateToken_run in H. cbv beta iota in H.
  destruct (jwt.SignedString L jwt.HS256 _ _) as [token|e];
    cbv beta iota in H; [|no_attempt_leaf H].
  attempt_leaf H.
Qed.

Lemma C8_Login_attempt_records_witness :
  exists res w' a,
    services.Login testbed.jwtlib testbed.platform examples.jwtService
      examples.from_10_0_0_1 (examples.login_alice "Str0ng!Pass")
      examples.w_users
    = Some (Ok res, w')
    /\ Attempts (w_db w') = [a]
    /\ LoginAttempt_Email a = "alice@example.com"
    /\ LoginAttempt_IPAddress a = "10.0.0.1"
    /\ LoginAttempt_Success a = true.
Proof.
  eassert (E : services.Login testbed.jwtlib testbed.platform
                 examples.jwtService examples.from_10_0_0_1
                 (examples.login_alice "Str0ng!Pass") examples.w_users
               = Some (Ok _, _)).
  { vm_compute. reflexivity. }
  destruct (C8_Login_attempt_records _ _ _ _ _ _ _ _ E) as (_ & Hok & _).
  destruct (Hok eq_refl _ eq_refl) as (a & Ha & He & Hi & Hs).
  do 3 eexists. split; [exact E|].
  split; [exact Ha|]. split; [exact He|]. split; [exact Hi | exact Hs].
Defined.

(** C8 as first stated does not hold: a call that passes validation and
    reaches the rate-limit check, but is denied there, returns with the
    attempt store exactly as it was. *)
Lemma C8_counterexample_denied_call_records_nothing :
  utils.ValidateEmail testbed.platform
    (pb.LoginRequest_Email (examples.login_alice "Str0ng!Pass")) = None
  /\ pb.LoginRequest_Password (examples.login_alice "Str0ng!Pass") <> ""
  /\ exists res w',
       services.Login testbed.jwtlib testbed.platform examples.jwtService
         examples.from_10_0_0_1 (examples.login_alice "Str0ng!Pass")
         examples.w_throttled
       = Some (res, w')
       /\ Attempts (w_db w') = Attempts (w_db examples.w_throttled)
       /\ ~ (exists a,
               Attempts (w_db w')
               = (Attempts (w_db examples.w_throttled) ++ [a])%list).
Proof.
  split; [reflexivity|]. split; [discriminate|].
  eexists. eexists. split; [vm_compute; reflexivity|].
  split; [reflexivity|].
  intros [a Ha]. apply (f_equal (@List.length _)) in Ha.
  rewrite length_app in Ha. simpl in Ha. discriminate Ha.
Qed.

(** ** The test bed honours the contract of the jwt library *)

Module testbed_facts.
Import testbed.

Lemma unframe_frame s rest : unframe (frame s ++ rest) = Some (s, rest).
Proof.
  induction s as [|c s IH]; simpl.
  - reflexivity.
  - rewrite IH. reflexivity.
Qed.













End testbed_facts.

(** ** Issue, then validate *)

Lemma now_ticked w : w_now w <= w_now (ticked w).
Proof. simpl. lia. Qed.





(** ** Revocation records are kept *)

Lemma Keeps_refl w : Keeps w w.
Proof. split; [lia | auto]. Qed.

Lemma Keeps_trans w1 w2 w3 : Keeps w1 w2 -> Keeps w2 w3 -> Keeps w1 w3.
Proof.
  intros [Ht12 Hk12] [Ht23 Hk23]. split; [lia|].
  intros r Hin Hlive. apply Hk23; [|exact Hlive].
  apply Hk12; [exact Hin | lia].
Qed.

(** A world that is no earlier and holds at least the same revocation
    records. *)
Lemma Keeps_grow w w' :
  w_now w <= w_now w' ->
  (forall r, In r (Tokens (w_db w)) -> In r (Tokens (w_db w'))) ->
  Keeps w w'.
Proof. intros Ht Hin. split; [exact Ht | auto]. Qed.

Create HintDb keeps.

Lemma keeps_ret {A} (a : A) : keeps (ret a).
Proof. intros w a' w' H. injection H as _ <-. apply Keeps_refl. Qed.

Lemma keeps_panic {A} : keeps (@panic A).
Proof. intros w a w' H. discriminate H. Qed.

Lemma keeps_bind {A B} (m : M A) (k : A -> M B) :
  keeps m -> (forall a, keeps (k a)) -> keeps (bind m k).
Proof.
  intros Hm Hk w b w' H. rewrite run_bind in H.
  destruct (m w) as [[a w1]|] eqn:E; [|discriminate].
  eapply Keeps_trans; [eapply Hm; exact E | eapply Hk; exact H].
Qed.

Lemma keeps_time_Now : keeps time_Now.
Proof.
  intros w a w' H. injection H as _ <-.
  apply Keeps_grow; [apply now_ticked | auto].
Qed.

Lemma keeps_send op : keeps (send op).
Proof.
  intros w a w' H. injection H as _ <-.
  apply Keeps_grow; simpl; [lia | auto].
Qed.

Lemma keeps_draw_entropy : keeps draw_entropy.
Proof.
  intros w a w' H. injection H as _ <-.
  apply Keeps_grow; simpl; [lia | auto].
Qed.

Lemma keeps_FindOne {D} c (docs : Database -> list D) flt :
  keeps (FindOne c docs flt).
Proof.
  intros w a w' H. rewrite FindOne_run in H. injection H as _ <-.
  apply Keeps_grow; simpl; [lia | auto].
Qed.

Lemma keeps_CountDocuments {D} c (docs : Database -> list D) flt :
  keeps (CountDocuments c docs flt).
Proof.
  intros w a w' H. rewrite CountDocuments_run in H. injection H as _ <-.
  apply Keeps_grow; simpl; [lia | auto].
Qed.

(** An insert keeps the revocation records when the collection it writes
    either is another one or only grows. *)
Lemma keeps_InsertOne {D} c (docs : Database -> list D) with_docs unique
    with_id bson doc :
  (forall l db r, In r (Tokens db) ->
                  In r (Tokens (with_docs (docs db ++ l)%list db))) ->
  keeps (InsertOne c docs with_docs unique with_id bson doc).
Proof.
  intros Hgrow w a w' H. rewrite InsertOne_run in H.
  destruct (hd None (w_faults w)).
  - injection H as _ <-. apply Keeps_grow; simpl; [lia | auto].
  - destruct (existsb (unique doc) (docs (w_db w))).
    + injection H as _ <-. apply Keeps_grow; simpl; [lia | auto].
    + injection H as _ <-. apply Keeps_grow; simpl; [lia|].
      intros r Hr. now apply Hgrow.
Qed.

Lemma keeps_Users_InsertOne doc : keeps (Users_InsertOne doc).
Proof. apply keeps_InsertOne. intros l db r Hr. exact Hr. Qed.

Lemma keeps_Attempts_InsertOne doc : keeps (Attempts_InsertOne doc).
Proof. apply keeps_InsertOne. intros l db r Hr. exact Hr. Qed.

Lemma keeps_Tokens_InsertOne doc : keeps (Tokens_InsertOne doc).
Proof.
  apply keeps_InsertOne. intros l db r Hr. simpl.
  apply in_or_app. now left.
Qed.

#[local] Hint Resolve keeps_ret keeps_panic keeps_time_Now keeps_send
  keeps_draw_entropy keeps_FindOne keeps_CountDocuments
  keeps_Users_InsertOne keeps_Attempts_InsertOne keeps_Tokens_InsertOne
  : keeps.

(** Breaks a computation down to the operations that make it. *)
Ltac keeps_steps :=
  repeat first
    [ solve [auto with keeps]
    | apply keeps_bind; [|intro]
    | match goal with
      | |- keeps (match ?x with _ => _ end) => destruct x
      | |- keeps (if ?b then _ else _) => destruct b
      end ].

Lemma keeps_CheckRateLimit email ipAddress :
  keeps (utils.CheckRateLimit email ipAddress).
Proof.
  unfold utils.CheckRateLimit, Attempts_CountDocuments. keeps_steps.
Qed.

Lemma keeps_RecordLoginAttempt email ipAddress success :
  keeps (utils.RecordLoginAttempt email ipAddress success).
Proof. unfold utils.RecordLoginAttempt. keeps_steps. Qed.

Lemma keeps_HashPassword P password : keeps (utils.HashPassword P password).
Proof. unfold utils.HashPassword. keeps_steps. Qed.

Lemma keeps_GenerateToken L j userID email :
  keeps (auth.GenerateToken L j userID email).
Proof. unfold auth.GenerateToken. keeps_steps. Qed.

Lemma keeps_ValidateToken L j tokenString :
  keeps (auth.ValidateToken L j tokenString).
Proof. unfold auth.ValidateToken, Tokens_FindOne. keeps_steps. Qed.

Lemma keeps_InvalidateToken L P j tokenString userID :
  keeps (auth.InvalidateToken L P j tokenString userID).
Proof. unfold auth.InvalidateToken. keeps_steps. Qed.

Lemma keeps_ExtractUserIDFromToken L j tokenString :
  keeps (auth.ExtractUserIDFromToken L j tokenString).
Proof.
  unfold auth.ExtractUserIDFromToken.
  apply keeps_bind; [apply keeps_ValidateToken|]. intro. keeps_steps.
Qed.

#[local] Hint Resolve keeps_CheckRateLimit keeps_RecordLoginAttempt
  keeps_HashPassword keeps_GenerateToken keeps_ValidateToken
  keeps_InvalidateToken keeps_ExtractUserIDFromToken : keeps.

Lemma keeps_Login L P j ctx req : keeps (services.Login L P j ctx req).
Proof. unfold services.Login, Users_FindOne. keeps_steps. Qed.

Lemma keeps_Logout L P j ctx req : keeps (services.Logout L P j ctx req).
Proof. unfold services.Logout. keeps_steps. Qed.

Lemma keeps_Register P ctx req : keeps (services.Register P ctx req).
Proof. unfold services.Register, Users_FindOne. cbv zeta. keeps_steps. Qed.

#[local] Hint Resolve keeps_Login keeps_Logout keeps_Register : keeps.

Lemma keeps_run_call L P j c : keeps (run_call L P j c).
Proof.
  destruct c; simpl run_call; try solve [keeps_steps].
  - (* a profile handler writes db.Users *)
    intros w a w' H. injection H as _ <-.
    apply Keeps_grow; simpl; [lia | auto].
  - (* the TTL monitor drops what has expired *)
    intros w a w' H. injection H as _ <-. split; simpl; [lia|].
    intros r Hin Hlive. apply filter_In. split; [exact Hin|].
    unfold token_live, time.Add, tokenIndexes_expireAfter.
    apply Z.ltb_lt. lia.
Qed.

Lemma keeps_run_calls L P j cs : keeps (run_calls L P j cs).
Proof.
  induction cs as [|c cs IH]; simpl run_calls.
  - apply keeps_ret.
  - apply keeps_bind; [apply keeps_run_call | intro; exact IH].
Qed.

(** ** Invalidate, then validate *)

(** The record a successful [InvalidateToken] leaves: of this token, and
    expiring, to the millisecond, with the parsed claims or else at the
    fallback. *)
Lemma InvalidateToken_record L P j tokenString userID w w1 :
  auth.InvalidateToken L P j tokenString userID w = Some (None, w1) ->
  exists r expiry,
    In r (Tokens (w_db w1))
    /\ InvalidatedToken_Token r = tokenString
    /\ InvalidatedToken_ExpiresAt r = mongo.DateTime expiry
    /\ ((exists token,
            jwt.ParseWithClaims L tokenString (auth.InvalidateToken_keyfunc j)
              (w_now w) = Ok token
            /\ jwt.ExpiresAt (auth.RegisteredClaims (jwt.Claims token))
               = Some expiry)
        \/ (exists perr,
               jwt.ParseWithClaims L tokenString
                 (auth.InvalidateToken_keyfunc j) (w_now w) = Err perr
               /\ expiry = time.Add (w_now (ticked w)) (auth.tokenTTL j))).
Proof.
  intros H. rewrite InvalidateToken_run in H.
  assert (Hfin : forall expiry w2,
             match primitive_ObjectIDFromHex P userID with
             | Err err =>
                 Some (Some (fmt_Errorf ("invalid user ID: " ++ err)), w2)
             | Ok userObjectID =>
                 match Tokens_InsertOne
                         {| InvalidatedToken_ID := mongo.NilObjectID;
                            InvalidatedToken_Token := tokenString;
                            InvalidatedToken_UserID := userObjectID;
                            InvalidatedToken_ExpiresAt := expiry;
                            InvalidatedToken_CreatedAt := w_now w2 |}
                         (ticked w2) with
                 | Some (Ok _, w4) => Some (None, w4)
                 | Some (Err err, w4) =>
                     Some (Some (fmt_Errorf ("failed to invalidate token: "
                                             ++ mongo.Error_string err)), w4)
                 | None => None
                 end
             end = Some (None, w1) ->
             exists r, In r (Tokens (w_db w1))
                       /\ InvalidatedToken_Token r = tokenString
                       /\ InvalidatedToken_ExpiresAt r = mongo.DateTime expiry).
  { clear H. intros expiry w2 H.
    destruct (primitive_ObjectIDFromHex P userID) as [oid|err];
      [|discriminate].
    unfold Tokens_InsertOne in H. rewrite InsertOne_run in H.
    destruct (hd None (w_faults (ticked w2))); [discriminate|].
    destruct (existsb _ _); [discriminate|].
    injection H as <-. eexists. split; [|split].
    - simpl. apply in_or_app. right. left. reflexivity.
    - reflexivity.
    - reflexivity. }
  destruct (jwt.ParseWithClaims L tokenString _ (w_now w)) as [token|perr].
  - destruct (jwt.ExpiresAt _) as [t|] eqn:Et; [|discriminate].
    destruct (Hfin _ _ H) as (r & Hin & Htok & Hexp).
    exists r, t. repeat split; try assumption.
    left. exists token. split; [reflexivity | exact Et].
  - destruct (Hfin _ _ H) as (r & Hin & Htok & Hexp).
    exists r, (time.Add (w_now (ticked w)) (auth.tokenTTL j)).
    repeat split; try assumption.
    right. exists perr. split; reflexivity.
Qed.

(** C1, as the code has it.  Once [InvalidateToken] has succeeded for a
    token, [ValidateToken] answers [ErrTokenBlacklisted] for it after any
    sequence of calls of the service, writes of the profile handlers and
    passes of the TTL monitor of the store, until the expiry written in the
    revocation record: to the millisecond, the token's own [exp] when the
    token parsed at the invalidation, and the instant then read from the
    clock plus the TTL when it did not (the lookup in the store going
    through).  Until then, what the jwt library makes of the token plays no
    part. *)
Theorem C1_revoked_token_stays_blacklisted
    (L : jwt.Lib auth.JWTClaims) (P : Platform) (j : auth.JWTService)
    (tokenString userID : string) (w w1 : World) (calls : list Call)
    (w2 : World) :
  auth.InvalidateToken L P j tokenString userID w = Some (None, w1) ->
  run_calls L P j calls w1 = Some (tt, w2) ->
  goes_through 0 w2 ->
  exists expiry,
    ((exists token,
         jwt.ParseWithClaims L tokenString (auth.InvalidateToken_keyfunc j)
           (w_now w) = Ok token
         /\ jwt.ExpiresAt (auth.RegisteredClaims (jwt.Claims token))
            = Some expiry)
     \/ (exists perr,
            jwt.ParseWithClaims L tokenString
              (auth.InvalidateToken_keyfunc j) (w_now w) = Err perr
            /\ expiry = time.Add (w_now (ticked w)) (auth.tokenTTL j)))
    /\ (w_now w2 < mongo.DateTime expiry ->
        auth.ValidateToken L j tokenString w2
        = Some (Err auth.ErrTokenBlacklisted,
                sent (OpFindOne invalidated_tokens) w2)).
Proof.
  intros Hinv Hrun Hstore.
  destruct (InvalidateToken_record _ _ _ _ _ _ _ Hinv)
    as (r & expiry & Hin & Htok & Hexp & Hwhich).
  exists expiry. split; [exact Hwhich|]. intros Hlive.
  destruct (keeps_run_calls L P j calls w1 tt w2 Hrun) as [_ Hkeep].
  apply (ValidateToken_blacklisted L j tokenString w2 r).
  - apply Hkeep; [exact Hin | now rewrite Hexp].
  - exact Htok.
  - unfold goes_through in Hstore. now rewrite hd_nth.
Qed.

Lemma C1_revoked_token_stays_blacklisted_witness :
  auth.ValidateToken testbed.jwtlib examples.jwtService
    examples.alice_token examples.w_afterwards
  = Some (Err auth.ErrTokenBlacklisted,
          sent (OpFindOne invalidated_tokens) examples.w_afterwards).
Proof.
  destruct (C1_revoked_token_stays_blacklisted
              testbed.jwtlib testbed.platform examples.jwtService
              examples.alice_token examples.alice_id
              (examples.quiet examples.one_o_clock examples.empty_db)
              examples.w_logged_out examples.afterwards examples.w_afterwards)
    as (expiry & Hwhich & Hlisted).
  - vm_compute. reflexivity.
  - vm_compute. reflexivity.
  - reflexivity.
  - apply Hlisted.
    assert (Hexp : expiry = examples.noon + 24 * time.Hour).
    { destruct Hwhich as [(token & Hp & He)|(perr & Hp & _)].
      - vm_compute in Hp. injection Hp as <-. vm_compute in He.
        injection He as <-. vm_compute. reflexivity.
      - vm_compute in Hp. discriminate Hp. }
    rewrite Hexp. vm_compute. reflexivity.
Defined.

(** C1 as first stated does not hold.  The record of an invalidation
    expires, and the TTL monitor then drops it.  For a token the service
    issued, invalidated at one o'clock, [ValidateToken] answers
    [ErrTokenExpired] a day later, not [ErrTokenBlacklisted].  And a token
    signed with the service's key for use from two o'clock on does not
    parse at one o'clock, so the record of its invalidation expires a TTL
    later, a day before the token does; once the record is dropped,
    [ValidateToken] returns the claims of the invalidated token. *)
Lemma C1_counterexample_record_expires_before_token :
  (auth.InvalidateToken testbed.jwtlib testbed.platform examples.jwtService
     examples.alice_token examples.alice_id examples.w_early
   = Some (None, examples.w_late_revoked)
   /\ run_calls testbed.jwtlib testbed.platform examples.jwtService
        examples.a_day_later examples.w_late_revoked
      = Some (tt, examples.w_late_purged)
   /\ option_map fst
        (auth.ValidateToken testbed.jwtlib examples.jwtService
           examples.alice_token examples.w_late_purged)
      = Some (Err auth.ErrTokenExpired)
   /\ auth.ErrTokenExpired <> auth.ErrTokenBlacklisted)
  /\ auth.InvalidateToken testbed.jwtlib testbed.platform examples.jwtService
    examples.early_token examples.alice_id examples.w_early
  = Some (None, examples.w_early_revoked)
  /\ (exists r, Tokens (w_db examples.w_early_revoked) = [r]
                /\ InvalidatedToken_Token r = examples.early_token)
  /\ run_calls testbed.jwtlib testbed.platform examples.jwtService
       examples.a_day_later examples.w_early_revoked
     = Some (tt, examples.w_early_purged)
  /\ exists claims w3,
       auth.ValidateToken testbed.jwtlib examples.jwtService
         examples.early_token examples.w_early_purged
       = Some (Ok claims, w3)
       /\ jwt.ExpiresAt (auth.RegisteredClaims claims)
          = Some (examples.noon + 48 * time.Hour)
       /\ w_now w3 < examples.noon + 48 * time.Hour.
Proof.
  split.
  { split; [vm_compute; reflexivity|].
    split; [vm_compute; reflexivity|].
    split; [vm_compute; reflexivity | discriminate]. }
  split; [vm_compute; reflexivity|].
  split; [eexists; split; vm_compute; reflexivity|].
  split; [vm_compute; reflexivity|].
  do 2 eexists. split; [vm_compute; reflexivity|].
  split; vm_compute; reflexivity.
Defined.

(** ** Runs from end to end *)

(** After five logins with a wrong secret, the sixth is refused whatever
    the secret. *)
Example sixth_login_is_throttled :
  match run_calls testbed.jwtlib testbed.platform examples.jwtService
          examples.five_wrong_logins examples.w_long_day with
  | Some (_, w) =>
      option_map fst
        (services.Login testbed.jwtlib testbed.platform examples.jwtService
           examples.from_10_0_0_1 (examples.login_alice "Str0ng!Pass") w)
  | None => None
  end
  = Some (Err {| status.Code := codes.ResourceExhausted;
                 status.Message :=
                   "too many login attempts, please try again later" |}).
Proof. vm_compute. reflexivity. Qed.

(** Login, logout, and the token no longer validates; a second login
    succeeds. *)
Example logout_revokes_the_token :
  match services.Login testbed.jwtlib testbed.platform examples.jwtService
          examples.from_10_0_0_1 (examples.login_alice "Str0ng!Pass")
          examples.w_long_day with
  | Some (Ok resp, w1) =>
      match services.Logout testbed.jwtlib testbed.platform
              examples.jwtService examples.no_metadata
              {| pb.LogoutRequest_Token := pb.LoginResponse_Token resp |} w1 with
      | Some (Ok _, w2) =>
          match auth.ValidateToken testbed.jwtlib examples.jwtService
                  (pb.LoginResponse_Token resp) w2,
                services.Login testbed.jwtlib testbed.platform
                  examples.jwtService examples.from_10_0_0_1
                  (examples.login_alice "Str0ng!Pass") w2 with
          | Some (Err e, _), Some (Ok _, _) => Some e
          | _, _ => None
          end
      | _ => None
      end
  | _ => None
  end
  = Some auth.ErrTokenBlacklisted.
Proof. vm_compute. reflexivity. Qed.

(* ================================================================== *)
(** * Further properties *)

(** ** Every way out of Login *)

Lemma Login_outcome L P j ctx req w res w' :
  services.Login L P j ctx req w = Some (res, w') ->
  LoginOutcome L P j ctx req w res w'.
Proof.
  intros H. unfold services.Login in H.
  destruct (utils.ValidateEmail P (pb.LoginRequest_Email req)) as [err|] eqn:Ee.
  { injection H as <- <-. now apply Login_invalid_email. }
  destruct (String.eqb_spec (pb.LoginRequest_Password req) "") as [Ep|Ep].
  { injection H as <- <-. now apply Login_no_password. }
  cbv beta iota in H.
  rewrite run_bind, CheckRateLimit_run in H. cbv beta iota in H.
  destruct (hd None (w_faults w)) as [msg|] eqn:F0.
  { injection H as <- <-. eapply Login_limiter_failed; eauto. }
  rewrite rate_filter_window in H.
  assert (G0 : goes_through 0 w) by (unfold goes_through; now rewrite <- hd_nth).
  destruct (Z.ltb_spec
              (failures_in_window (pb.LoginRequest_Email req)
                 (services.getClientIP ctx) (w_now w) (Attempts (w_db w))) 5)
    as [Hlt|Hge]; cbn [negb] in H; cbv beta iota in H.
  2:{ injection H as <- <-. now apply Login_denied. }
  rewrite run_bind in H. unfold Users_FindOne in H.
  rewrite FindOne_run in H. cbv beta iota in H.
  replace (hd None (w_faults (sent (OpCountDocuments login_attempts) (ticked w))))
    with (nth 1 (w_faults w) None) in H
    by (simpl; symmetry; apply hd_tl_nth).
  replace (w_db (sent (OpCountDocuments login_attempts) (ticked w)))
    with (w_db w) in H by reflexivity.
  destruct (nth 1 (w_faults w) None) as [msg|] eqn:F1.
  { cbn [mongo.is_ErrNoDocuments] in H. cbv beta iota in H.
    rewrite run_bind in H.
    destruct (utils.RecordLoginAttempt _ _ false _) as [[r w3]|] eqn:ER;
      [|discriminate].
    injection H as <- <-. eapply Login_lookup_failed; eauto. }
  destruct (find _ (Users (w_db w))) as [user|] eqn:Ef.
  2:{ cbn [mongo.is_ErrNoDocuments] in H. cbv beta iota in H.
      rewrite run_bind in H.
      destruct (utils.RecordLoginAttempt _ _ false _) as [[r w3]|] eqn:ER;
        [|discriminate].
      injection H as <- <-. eapply Login_unknown; eauto. }
  cbv beta iota in H.
  destruct (utils.CheckPasswordHash P _ _) eqn:Ec; cbn [negb] in H;
    cbv beta iota in H.
  2:{ rewrite run_bind in H.
      destruct (utils.RecordLoginAttempt _ _ false _) as [[r w3]|] eqn:ER;
        [|discriminate].
      injection H as <- <-. eapply Login_wrong_secret; eauto. }
  destruct (User_IsActive user) eqn:Ea; cbn [negb] in H; cbv beta iota in H.
  2:{ injection H as <- <-. eapply Login_inactive; eauto. }
  rewrite run_bind in H.
  destruct (auth.GenerateToken L j _ _ _) as [[[token|e] w3]|] eqn:Eg;
    [| |discriminate]; cbv beta iota in H.
  2:{ injection H as <- <-. eapply Login_signing_failed; eauto. }
  rewrite run_bind in H.
  destruct (utils.RecordLoginAttempt _ _ true _) as [[r w4]|] eqn:ER;
    [|discriminate].
  injection H as <- <-. eapply Login_success; eauto.
Qed.

(** ** Input validation comes first *)

(** X1. [Login], [Logout] and [Register] answer InvalidArgument to a
    malformed request before anything else happens: the clock is not read,
    nothing is sent to the store, the world is left as it was. *)
Theorem X1_malformed_requests_leave_no_trace
    (L : jwt.Lib auth.JWTClaims) (P : Platform) (j : auth.JWTService)
    (ctx : Context) (w : World) :
  (forall req,
      utils.ValidateEmail P (pb.LoginRequest_Email req) <> None
      \/ pb.LoginRequest_Password req = "" ->
      exists s, services.Login L P j ctx req w = Some (Err s, w)
                /\ status.Code s = codes.InvalidArgument)
  /\ (forall req,
         pb.LogoutRequest_Token req = "" ->
         services.Logout L P j ctx req w
         = Some (Err (status.Errorf codes.InvalidArgument "token is required"), w))
  /\ (forall req,
         utils.ValidateEmail P
           (utils.SanitizeString P (pb.RegisterRequest_Email req)) <> None
         \/ utils.ValidatePassword P (pb.RegisterRequest_Password req) <> None
         \/ utils.ValidateName P
              (utils.SanitizeString P (pb.RegisterRequest_Name req)) "name"
            <> None ->
         exists s, services.Register P ctx req w = Some (Err s, w)
                   /\ status.Code s = codes.InvalidArgument).
Proof.
  split; [|split].
  - intros req Hbad. unfold services.Login.
    destruct (utils.ValidateEmail P (pb.LoginRequest_Email req)) as [err|].
    + eexists. split; reflexivity.
    + destruct Hbad as [Hbad|Hbad]; [congruence|].
      rewrite Hbad. eexists. split; reflexivity.
  - intros req Hbad. unfold services.Logout. rewrite Hbad. reflexivity.
  - intros req Hbad. unfold services.Register. cbv zeta.
    destruct (utils.ValidateEmail P _) as [err|].
    { eexists. split; reflexivity. }
    destruct (utils.ValidatePassword P _) as [err|].
    { eexists. split; reflexivity. }
    destruct (utils.ValidateName P _ _) as [err|].
    { eexists. split; reflexivity. }
    destruct Hbad as [Hbad|[Hbad|Hbad]]; congruence.
Qed.

(** ** Who gets a token *)

Lemma lookup_live email us user :
  find (fun u => String.eqb (User_Email u) email
                 && Bool.eqb (User_IsDeleted u) false) us = Some user ->
  In user us /\ User_Email user = email /\ User_IsDeleted user = false.
Proof.
  intros Hf. apply find_some in Hf. destruct Hf as [Hin Hu].
  apply login_filter_live in Hu. destruct Hu. auto.
Qed.

(** X2. [Login] returns a token only for a user that is stored under the
    email of the request, is not deleted, is active, and whose stored hash
    verifies the password of the request; the token is what the jwt library
    signed, with HS256 and the service's key, for claims that carry the hex
    id of that user as user id and subject and the stored email; the summary
    returned is that of this user. *)
Theorem X2_Login_token_only_for_verified_active_user
    (L : jwt.Lib auth.JWTClaims) (P : Platform) (j : auth.JWTService)
    (ctx : Context) (req : pb.LoginRequest) (w : World)
    (resp : pb.LoginResponse) (w' : World) :
  services.Login L P j ctx req w = Some (Ok resp, w') ->
  exists user claims,
    In user (Users (w_db w))
    /\ User_Email user = pb.LoginRequest_Email req
    /\ User_IsDeleted user = false
    /\ User_IsActive user = true
    /\ utils.CheckPasswordHash P (pb.LoginRequest_Password req)
         (User_Password user) = true
    /\ pb.LoginResponse_User resp = services.pbUser_of P user
    /\ jwt.SignedString L jwt.HS256 claims (auth.secretKey j)
       = Ok (pb.LoginResponse_Token resp)
    /\ auth.UserID claims = ObjectID_Hex P (User_ID user)
    /\ jwt.Subject (auth.RegisteredClaims claims) = ObjectID_Hex P (User_ID user)
    /\ auth.Email claims = User_Email user.
Proof.
  intros H. apply Login_outcome in H.
  inversion H as [ | | | | | | | | |user token w3 r w4 _ _ _ Hf Hc Ha Hg _ ];
    subst.
  destruct (lookup_live _ _ _ Hf) as (Hin & He & Hd).
  rewrite GenerateToken_run in Hg. injection Hg as Hs _.
  destruct (jwt.SignedString L jwt.HS256 _ (auth.secretKey j)) as [s|e] eqn:Es;
    [|discriminate].
  injection Hs as ->.
  eexists user, _. repeat split; try eassumption; reflexivity.
Qed.

Lemma X1_malformed_requests_leave_no_trace_witness :
  (exists s,
      services.Login testbed.jwtlib testbed.platform examples.jwtService
        examples.from_10_0_0_1
        {| pb.LoginRequest_Email := "no-at-sign";
           pb.LoginRequest_Password := "Str0ng!Pass" |} examples.w_users
      = Some (Err s, examples.w_users)
      /\ status.Code s = codes.InvalidArgument)
  /\ (exists s,
         services.Register testbed.platform examples.no_metadata
           {| pb.RegisterRequest_Email := "eve@example.com";
              pb.RegisterRequest_Password := "short";
              pb.RegisterRequest_Name := "Eve" |} examples.w_users
         = Some (Err s, examples.w_users)
         /\ status.Code s = codes.InvalidArgument).
Proof.
  destruct (X1_malformed_requests_leave_no_trace
              testbed.jwtlib testbed.platform examples.jwtService
              examples.from_10_0_0_1 examples.w_users) as (Hlogin & _ & _).
  destruct (X1_malformed_requests_leave_no_trace
              testbed.jwtlib testbed.platform examples.jwtService
              examples.no_metadata examples.w_users) as (_ & _ & Hreg).
  split.
  - apply Hlogin. left. discriminate.
  - apply Hreg. right. left. discriminate.
Defined.

Lemma X2_Login_token_only_for_verified_active_user_witness :
  exists user claims,
    In user (Users (w_db examples.w_users))
    /\ User_Email user = "alice@example.com"
    /\ User_IsDeleted user = false
    /\ User_IsActive user = true
    /\ utils.CheckPasswordHash testbed.platform "Str0ng!Pass"
         (User_Password user) = true
    /\ pb.LoginResponse_User scenarios.alice_resp
       = services.pbUser_of testbed.platform user
    /\ jwt.SignedString testbed.jwtlib jwt.HS256 claims
         (auth.secretKey examples.jwtService)
       = Ok (pb.LoginResponse_Token scenarios.alice_resp)
    /\ auth.UserID claims = ObjectID_Hex testbed.platform (User_ID user)
    /\ jwt.Subject (auth.RegisteredClaims claims)
       = ObjectID_Hex testbed.platform (User_ID user)
    /\ auth.Email claims = User_Email user.
Proof.
  apply (X2_Login_token_only_for_verified_active_user
           testbed.jwtlib testbed.platform examples.jwtService
           examples.from_10_0_0_1 (examples.login_alice "Str0ng!Pass")
           examples.w_users scenarios.alice_resp scenarios.w_alice_in).
  vm_compute. reflexivity.
Defined.

(** X3. [Login] answers PermissionDenied only once the password has
    verified: when it does, a user stored under the email of the request,
    not deleted and not active, has a hash that verifies the password of
    the request, and the call has written nothing. *)
Theorem X3_PermissionDenied_only_after_password_verified
    (L : jwt.Lib auth.JWTClaims) (P : Platform) (j : auth.JWTService)
    (ctx : Context) (req : pb.LoginRequest) (w : World)
    (s : status.Status) (w' : World) :
  services.Login L P j ctx req w = Some (Err s, w') ->
  status.Code s = codes.PermissionDenied ->
  w_db w' = w_db w
  /\ exists user,
       In user (Users (w_db w))
       /\ User_Email user = pb.LoginRequest_Email req
       /\ User_IsDeleted user = false
       /\ User_IsActive user = false
       /\ utils.CheckPasswordHash P (pb.LoginRequest_Password req)
            (User_Password user) = true.
Proof.
  intros H Hcode. apply Login_outcome in H.
  inversion H; subst; try discriminate Hcode.
  match goal with Hf : find _ _ = Some ?u |- _ =>
    destruct (lookup_live _ _ _ Hf) as (Hin & He & Hd); split;
    [reflexivity | exists u; auto]
  end.
Qed.

Lemma X3_PermissionDenied_only_after_password_verified_witness :
  exists user,
    In user (Users (w_db scenarios.w_dave))
    /\ User_Email user = "dave@example.com"
    /\ User_IsDeleted user = false
    /\ User_IsActive user = false
    /\ utils.CheckPasswordHash testbed.platform "Str0ng!Pass"
         (User_Password user) = true.
Proof.
  apply (X3_PermissionDenied_only_after_password_verified
           testbed.jwtlib testbed.platform examples.jwtService
           examples.from_10_0_0_1 scenarios.login_dave scenarios.w_dave
           (status.Errorf codes.PermissionDenied "account is deactivated/deleted")
           (sent (OpFindOne users)
              (sent (OpCountDocuments login_attempts) (ticked scenarios.w_dave)))).
  - vm_compute. reflexivity.
  - reflexivity.
Defined.

(** ** Tokens that were issued *)

Lemma GenerateToken_signs L j userID email w tokenString w' :
  auth.GenerateToken L j userID email w = Some (Ok tokenString, w') ->
  jwt.SignedString L jwt.HS256 (claims_issued j userID email w)
    (auth.secretKey j) = Ok tokenString
  /\ w' = ticked (ticked (ticked w)).
Proof.
  intros H. rewrite GenerateToken_run in H. injection H as Hs Hw.
  fold (expiry_issued j w) in Hs. fold (claims_issued j userID email w) in Hs.
  destruct (jwt.SignedString L jwt.HS256 _ (auth.secretKey j)) as [s|e];
    [|discriminate].
  injection Hs as ->. auto.
Qed.





(** ** The rate limiter at work *)

Lemma GenerateToken_frame L j userID email w r w' :
  auth.GenerateToken L j userID email w = Some (r, w') -> w_db w' = w_db w.
Proof. intros H. rewrite GenerateToken_run in H. now injection H as _ <-. Qed.

Lemma failures_in_window_app identity origin now l a :
  failures_in_window identity origin now (l ++ [a])
  = failures_in_window identity origin now l
    + (if counts_toward_limit_dec identity origin now a then 1 else 0).
Proof.
  unfold failures_in_window. rewrite filter_app, length_app. simpl.
  destruct (counts_toward_limit_dec identity origin now a); simpl; lia.
Qed.

Lemma failures_in_window_none identity origin now l :
  (forall a, In a l -> ~ counts_toward_limit identity origin now a) ->
  failures_in_window identity origin now l = 0.
Proof.
  intros Hnone. unfold failures_in_window.
  induction l as [|a l IH]; [reflexivity|]. simpl.
  destruct (counts_toward_limit_dec identity origin now a) as [Hc|_].
  - destruct (Hnone a (or_introl eq_refl) Hc).
  - apply IH. intros b Hb. apply Hnone. now right.
Qed.

(** X5. The limit is per origin as the request announces it: a [Login]
    whose origin ([x-real-ip], else [x-forwarded-for], else "unknown") is
    that of no stored attempt for the email is never answered
    ResourceExhausted, however many failures are stored for the email under
    other origins. *)
Theorem X5_Login_not_throttled_under_a_fresh_origin
    (L : jwt.Lib auth.JWTClaims) (P : Platform) (j : auth.JWTService)
    (ctx : Context) (req : pb.LoginRequest) (w : World)
    (res : result status.Status pb.LoginResponse) (w' : World) :
  (forall a, In a (Attempts (w_db w)) ->
             LoginAttempt_Email a = pb.LoginRequest_Email req ->
             LoginAttempt_IPAddress a <> services.getClientIP ctx) ->
  services.Login L P j ctx req w = Some (res, w') ->
  forall s, res = Err s -> status.Code s <> codes.ResourceExhausted.
Proof.
  intros Hfresh H s -> Hcode. apply Login_outcome in H.
  inversion H; subst; try discriminate Hcode.
  rewrite failures_in_window_none in *; [lia|].
  intros a Hin (He & Hi & _). exact (Hfresh a Hin He Hi).
Qed.

Lemma X5_Login_not_throttled_under_a_fresh_origin_witness :
  (exists w',
      services.Login testbed.jwtlib testbed.platform examples.jwtService
        examples.from_10_0_0_1 (examples.login_alice "Wr0ng!Pass")
        examples.w_throttled
      = Some (Err (status.Errorf codes.ResourceExhausted
                     "too many login attempts, please try again later"), w'))
  /\ forall res w',
       services.Login testbed.jwtlib testbed.platform examples.jwtService
         scenarios.from_10_9_9_9 (examples.login_alice "Wr0ng!Pass")
         examples.w_throttled
       = Some (res, w') ->
       forall s, res = Err s -> status.Code s <> codes.ResourceExhausted.
Proof.
  split.
  - eexists. vm_compute. reflexivity.
  - intros res w'.
    apply (X5_Login_not_throttled_under_a_fresh_origin
             testbed.jwtlib testbed.platform examples.jwtService
             scenarios.from_10_9_9_9 (examples.login_alice "Wr0ng!Pass")
             examples.w_throttled res w').
    intros a Hin _. simpl in Hin.
    repeat (destruct Hin as [<-|Hin]; [discriminate|]). destruct Hin.
Defined.

(** What [RecordLoginAttempt] leaves when its insert goes through. *)
Lemma RecordLoginAttempt_appends email ipAddress success w r w' :
  utils.RecordLoginAttempt email ipAddress success w = Some (r, w') ->
  hd None (w_faults w) = None ->
  Attempts (w_db w')
  = (Attempts (w_db w)
     ++ [{| LoginAttempt_ID := hd mongo.NilObjectID (w_ids w);
            LoginAttempt_Email := email;
            LoginAttempt_IPAddress := ipAddress;
            LoginAttempt_Timestamp := mongo.DateTime (w_now w);
            LoginAttempt_Success := success |}])%list.
Proof.
  intros H Hf. rewrite RecordLoginAttempt_run, Hf in H.
  injection H as _ <-. reflexivity.
Qed.

(** Whatever [RecordLoginAttempt] stores is of the pair it was given. *)
Lemma RecordLoginAttempt_own email ipAddress success w r w' :
  utils.RecordLoginAttempt email ipAddress success w = Some (r, w') ->
  Attempts (w_db w') = Attempts (w_db w)
  \/ exists a,
       Attempts (w_db w') = (Attempts (w_db w) ++ [a])%list
       /\ LoginAttempt_Email a = email
       /\ LoginAttempt_IPAddress a = ipAddress.
Proof.
  intros H. rewrite RecordLoginAttempt_run in H. injection H as _ <-.
  destruct (hd None (w_faults w)); [now left|].
  right. eexists. repeat split.
Qed.

(** X6. A [Login] that returns a token leaves the count of recent failures
    of every pair, at every instant, as it was: a success does not reset
    the limiter.  A [Login] that rejects the credentials (NotFound or
    Unauthenticated), its record being inserted, raises by exactly one the
    count of its own pair, at every instant up to a minute after the call
    began.  And no [Login], whatever it answers, changes the count of any
    other pair, at any instant. *)
Theorem X6_Login_moves_the_failure_count
    (L : jwt.Lib auth.JWTClaims) (P : Platform) (j : auth.JWTService)
    (ctx : Context) (req : pb.LoginRequest) (w : World)
    (res : result status.Status pb.LoginResponse) (w' : World) :
  services.Login L P j ctx req w = Some (res, w') ->
  (forall resp, res = Ok resp ->
     forall identity origin now,
       failures_in_window identity origin now (Attempts (w_db w'))
       = failures_in_window identity origin now (Attempts (w_db w)))
  /\ (goes_through 2 w ->
      res = Err (status.Errorf codes.NotFound "invalid email or password")
      \/ res = Err (status.Errorf codes.Unauthenticated
                      "invalid email or password") ->
      forall now,
        now - 60 * time.Second <= w_now w ->
        failures_in_window (pb.LoginRequest_Email req)
          (services.getClientIP ctx) now (Attempts (w_db w'))
        = failures_in_window (pb.LoginRequest_Email req)
            (services.getClientIP ctx) now (Attempts (w_db w)) + 1)
  /\ (forall identity origin now,
        identity <> pb.LoginRequest_Email req
        \/ origin <> services.getClientIP ctx ->
        failures_in_window identity origin now (Attempts (w_db w'))
        = failures_in_window identity origin now (Attempts (w_db w))).
Proof.
  intros H. apply Login_outcome in H. split; [|split].
  3:{ intros identity origin now Hother.
      assert (Hown : forall success wa r wb,
                 utils.RecordLoginAttempt (pb.LoginRequest_Email req)
                   (services.getClientIP ctx) success wa = Some (r, wb) ->
                 Attempts (w_db wa) = Attempts (w_db w) ->
                 failures_in_window identity origin now (Attempts (w_db wb))
                 = failures_in_window identity origin now (Attempts (w_db w))).
      { intros success wa r wb Hr Hsame.
        destruct (RecordLoginAttempt_own _ _ _ _ _ _ Hr)
          as [->|(a & -> & He & Hi)]; rewrite Hsame; [reflexivity|].
        rewrite failures_in_window_app.
        destruct (counts_toward_limit_dec identity origin now a)
          as [(He' & Hi' & _)|_]; [|lia].
        exfalso. destruct Hother as [Ho|Ho]; apply Ho; congruence. }
      inversion H; subst; try reflexivity;
        try (eapply Hown; [eassumption | reflexivity]).
      - match goal with
        | Hg : auth.GenerateToken _ _ _ _ _ = Some (Err _, _) |- _ =>
            apply GenerateToken_frame in Hg; now rewrite Hg
        end.
      - match goal with
        | Hg : auth.GenerateToken _ _ _ _ _ = Some (Ok _, _) |- _ =>
            apply GenerateToken_frame in Hg
        end.
        match goal with
        | Hg : w_db _ = w_db _ |- _ =>
            eapply Hown; [eassumption | now rewrite Hg]
        end. }
  - intros resp ->.
    inversion H as [ | | | | | | | | |user token w3 r w4 _ _ _ Hf Hc Ha Hg Hr ];
      subst.
    intros identity origin now.
    rewrite RecordLoginAttempt_run in Hr. injection Hr as _ <-.
    destruct (GenerateToken_signs _ _ _ _ _ _ _ Hg) as [_ ->].
    destruct (hd None _); simpl; [reflexivity|].
    rewrite failures_in_window_app.
    destruct (counts_toward_limit_dec _ _ _ _) as [(_ & _ & Hs & _)|_];
      [discriminate Hs | lia].
  - intros G2 Hres now Hnow. unfold goes_through in G2.
    rewrite <- faults_at_record in G2.
    inversion H; subst; destruct Hres as [Hres|Hres]; try discriminate Hres;
      match goal with
      | Hr : utils.RecordLoginAttempt _ _ _ _ = Some _ |- _ =>
          rewrite (RecordLoginAttempt_appends _ _ _ _ _ _ Hr G2)
      end;
      rewrite failures_in_window_app;
      (destruct (counts_toward_limit_dec _ _ _ _) as [_|Hn]; [reflexivity|]);
      exfalso; apply Hn; unfold counts_toward_limit;
      cbn [LoginAttempt_Email LoginAttempt_IPAddress LoginAttempt_Success
           LoginAttempt_Timestamp];
      repeat split; apply DateTime_mono;
      pose proof (now_ticked w); simpl w_now; simpl w_now in *; lia.
Qed.

Lemma X6_Login_moves_the_failure_count_witness :
  exists w',
    services.Login testbed.jwtlib testbed.platform examples.jwtService
      examples.from_10_0_0_1 (examples.login_alice "Wr0ng!Pass")
      examples.w_users
    = Some (Err (status.Errorf codes.Unauthenticated
                   "invalid email or password"), w')
    /\ failures_in_window "alice@example.com" "10.0.0.1"
         (examples.noon + 30 * time.Second) (Attempts (w_db w'))
       = 0 + 1
    /\ failures_in_window "alice@example.com" "10.9.9.9"
         (examples.noon + 30 * time.Second) (Attempts (w_db w'))
       = 0.
Proof.
  eassert (E : services.Login testbed.jwtlib testbed.platform
                 examples.jwtService examples.from_10_0_0_1
                 (examples.login_alice "Wr0ng!Pass") examples.w_users
               = Some (_, _)).
  { vm_compute. reflexivity. }
  eexists. split; [exact E|].
  destruct (X6_Login_moves_the_failure_count _ _ _ _ _ _ _ _ E)
    as (_ & Hfail & Hother).
  split.
  - apply (Hfail eq_refl (or_intror eq_refl)
             (examples.noon + 30 * time.Second)).
    vm_compute. discriminate.
  - rewrite Hother; [reflexivity|]. right. vm_compute. discriminate.
Defined.

(** ** The TTL indexes *)




(** ** Revocation, for good *)


Module testbed_facts_more.
Import testbed.



Lemma jwtlib_signs_with_HS256 : signs_with_HS256 jwtlib.
Proof. intros claims key. eexists. reflexivity. Qed.

Lemma platform_bcrypt_verifies : bcrypt_verifies platform.
Proof.
  intros password salt hashed H.
  change (bcrypt_GenerateFromPassword platform) with hash in H.
  change (bcrypt_CompareHashAndPassword platform) with compare.
  unfold hash in H. destruct (_ >? 72); [discriminate|].
  injection H as <-. unfold compare.
  rewrite testbed_facts.unframe_frame. apply String.eqb_refl.
Qed.
End testbed_facts_more.




(** ** What ValidateToken depends on *)

(** X10. [ValidateToken] never writes: it sends one [FindOne] to the
    revocation collection and leaves the collections as they are.  Its
    error, when it returns one, is [ErrTokenBlacklisted], [ErrTokenExpired],
    [ErrInvalidToken] or the wrapped failure of the lookup.  Its answer
    depends on the revocation collection alone: it is the same whatever
    users and attempts are stored, so deleting or deactivating an account
    does not invalidate the tokens issued to it. *)
Theorem X10_ValidateToken_reads_revocations_only
    (L : jwt.Lib auth.JWTClaims) (j : auth.JWTService)
    (tokenString : string) (w : World) :
  exists res w',
    auth.ValidateToken L j tokenString w = Some (res, w')
    /\ w_db w' = w_db w
    /\ w_trace w' = (w_trace w ++ [OpFindOne invalidated_tokens])%list
    /\ (forall e, res = Err e ->
          e = auth.ErrTokenBlacklisted \/ e = auth.ErrTokenExpired
          \/ e = auth.ErrInvalidToken
          \/ exists msg,
               e = fmt_Errorf ("error checking token blacklist: " ++ msg))
    /\ (forall us ats,
          option_map fst
            (auth.ValidateToken L j tokenString
               (with_db {| Users := us; Tokens := Tokens (w_db w);
                           Attempts := ats |} w))
          = Some res).
Proof.
  assert (Hrun := ValidateToken_run L j tokenString w). cbv zeta in Hrun.
  destruct (hd None (w_faults w)) as [msg|] eqn:Hf.
  { do 2 eexists. split; [exact Hrun|]. repeat split.
    - intros e He. injection He as <-. right. right. right. now exists msg.
    - intros us ats. rewrite ValidateToken_run. simpl. now rewrite Hf. }
  destruct (find _ (Tokens (w_db w))) as [d|] eqn:Efind.
  { do 2 eexists. split; [exact Hrun|]. repeat split.
    - intros e He. injection He as <-. now left.
    - intros us ats. rewrite ValidateToken_run. simpl.
      now rewrite Hf, Efind. }
  do 2 eexists. split; [exact Hrun|]. repeat split.
  - intros e He.
    destruct (jwt.ParseWithClaims L tokenString _ (w_now w)) as [token|perr].
    + destruct (jwt.Valid token); [discriminate|].
      injection He as <-. auto.
    + destruct (jwt.errors_Is perr jwt.ErrTokenExpired);
        injection He as <-; auto.
  - intros us ats. rewrite ValidateToken_run. simpl.
    now rewrite Hf, Efind.
Qed.

Lemma X10_ValidateToken_reads_revocations_only_witness :
  option_map fst
    (auth.ValidateToken testbed.jwtlib examples.jwtService
       (pb.LoginResponse_Token scenarios.alice_resp)
       (with_db {| Users := []; Tokens := []; Attempts := [] |}
          scenarios.w_alice_in))
  = option_map fst
      (auth.ValidateToken testbed.jwtlib examples.jwtService
         (pb.LoginResponse_Token scenarios.alice_resp) scenarios.w_alice_in).
Proof.
  destruct (X10_ValidateToken_reads_revocations_only
              testbed.jwtlib examples.jwtService
              (pb.LoginResponse_Token scenarios.alice_resp)
              scenarios.w_alice_in) as (res & w' & Hrun & _ & _ & _ & Hsame).
  rewrite Hrun. exact (Hsame [] []).
Defined.

(** ** Logout *)

(** A [Logout] that succeeds went through [ValidateToken] and
    [InvalidateToken]. *)
Lemma Logout_success L P j ctx req w resp w1 :
  services.Logout L P j ctx req w = Some (Ok resp, w1) ->
  pb.LogoutRequest_Token req <> ""
  /\ exists claims wa,
       auth.ValidateToken L j (pb.LogoutRequest_Token req) w
       = Some (Ok claims, wa)
       /\ auth.InvalidateToken L P j (pb.LogoutRequest_Token req)
            (auth.UserID claims) wa = Some (None, w1).
Proof.
  intros H. unfold services.Logout in H.
  destruct (String.eqb_spec (pb.LogoutRequest_Token req) "") as [E|E];
    [discriminate|].
  split; [exact E|].
  rewrite run_bind, ExtractUserIDFromToken_run in H.
  destruct (auth.ValidateToken L j _ w) as [[[claims|err] wa]|];
    try discriminate.
  cbv beta iota in H. rewrite run_bind in H.
  destruct (auth.InvalidateToken L P j _ _ wa) as [[[e|] w1']|] eqn:Ei;
    cbv beta iota in H; try discriminate.
  injection H as _ <-. exists claims, wa. split; [reflexivity | exact Ei].
Qed.

(** X11. [Logout] cannot be repeated: once it has succeeded for a token, a
    second [Logout] of the same token, its lookup going through, is
    answered Unauthenticated "invalid token", and writes nothing. *)
Theorem X11_second_Logout_is_refused
    (L : jwt.Lib auth.JWTClaims) (P : Platform) (j : auth.JWTService)
    (ctx ctx' : Context) (req : pb.LogoutRequest) (w : World)
    (resp : pb.LogoutResponse) (w1 : World) :
  services.Logout L P j ctx req w = Some (Ok resp, w1) ->
  goes_through 0 w1 ->
  services.Logout L P j ctx' req w1
  = Some (Err (status.Errorf codes.Unauthenticated "invalid token"),
          sent (OpFindOne invalidated_tokens) w1)
  /\ w_db (sent (OpFindOne invalidated_tokens) w1) = w_db w1.
Proof.
  intros H Hstore.
  destruct (Logout_success _ _ _ _ _ _ _ _ H)
    as (Hne & claims & wa & _ & Hinv).
  destruct (InvalidateToken_record _ _ _ _ _ _ _ Hinv)
    as (r & expiry & Hin & Htok & _).
  split; [|reflexivity].
  apply Logout_invalid with (err := auth.ErrTokenBlacklisted); [exact Hne|].
  apply ValidateToken_blacklisted with (r := r); try assumption.
  unfold goes_through in Hstore. now rewrite hd_nth.
Qed.



Lemma X11_second_Logout_is_refused_witness :
  services.Logout testbed.jwtlib testbed.platform examples.jwtService
    examples.from_10_0_0_1 scenarios.logout_alice scenarios.w_alice_out
  = Some (Err (status.Errorf codes.Unauthenticated "invalid token"),
          sent (OpFindOne invalidated_tokens) scenarios.w_alice_out).
Proof.
  apply (X11_second_Logout_is_refused
           testbed.jwtlib testbed.platform examples.jwtService
           examples.no_metadata examples.from_10_0_0_1 scenarios.logout_alice
           (examples.quiet examples.one_o_clock examples.empty_db)
           {| pb.LogoutResponse_Message := "Logout successful" |}
           scenarios.w_alice_out).
  - vm_compute. reflexivity.
  - reflexivity.
Defined.


(** ** Register *)

Lemma ValidatePassword_nonempty P password :
  utils.ValidatePassword P password = None -> password <> "".
Proof. intros H ->. discriminate H. Qed.

Lemma existsb_no_email email us :
  find (fun u => String.eqb (User_Email u) email) us = None ->
  forall u, In u us -> User_Email u <> email.
Proof.
  intros Hf u Hin He.
  pose proof (find_none _ _ Hf u Hin) as Hu. cbv beta in Hu.
  rewrite He, String.eqb_refl in Hu. discriminate.
Qed.

(** Every [Register] call either fails and leaves the collections alone, or
    stores one new user, as encoded, and returns the summary of the user as
    it was handed to the store. *)
Lemma Register_outcome P ctx req w res w' :
  services.Register P ctx req w = Some (res, w') ->
  let email := utils.SanitizeString P (pb.RegisterRequest_Email req) in
  let name := utils.SanitizeString P (pb.RegisterRequest_Name req) in
  let password := pb.RegisterRequest_Password req in
  ((exists s, res = Err s) /\ w_db w' = w_db w)
  \/ (exists hashed,
        let user :=
          {| User_ID := hd mongo.NilObjectID (w_ids w);
             User_Email := email;
             User_Password := hashed;
             User_Name := name;
             User_CreatedAt := w_now w;
             User_UpdatedAt := w_now w;
             User_IsActive := true;
             User_IsDeleted := false |} in
        utils.ValidateEmail P email = None
        /\ utils.ValidatePassword P password = None
        /\ utils.ValidateName P name "name" = None
        /\ (forall u, In u (Users (w_db w)) -> User_Email u <> email)
        /\ bcrypt_GenerateFromPassword P password (hd "" (w_entropy w))
           = Ok hashed
        /\ res = Ok {| pb.RegisterResponse_User := services.pbUser_of P user;
                       pb.RegisterResponse_Message := "Registration successful" |}
        /\ Users (w_db w') = (Users (w_db w) ++ [User_bson user])%list
        /\ Tokens (w_db w') = Tokens (w_db w)
        /\ Attempts (w_db w') = Attempts (w_db w)
        /\ w_now w <= w_now w').
Proof.
  intros H. cbv zeta. unfold services.Register in H. cbv zeta in H.
  destruct (utils.ValidateEmail P _) as [err|] eqn:Ee.
  { injection H as <- <-. left. eauto. }
  destruct (utils.ValidatePassword P _) as [err|] eqn:Ep.
  { injection H as <- <-. left. eauto. }
  destruct (utils.ValidateName P _ _) as [err|] eqn:En.
  { injection H as <- <-. left. eauto. }
  rewrite run_bind in H. unfold Users_FindOne in H.
  rewrite FindOne_run in H. cbv beta iota in H.
  destruct (hd None (w_faults w)) as [msg|].
  { injection H as <- <-. left. eauto. }
  destruct (find _ (Users (w_db w))) as [u|] eqn:Ef.
  { injection H as <- <-. left. eauto. }
  cbn [mongo.is_ErrNoDocuments negb] in H. cbv beta iota in H.
  rewrite run_bind in H. unfold utils.HashPassword in H.
  rewrite run_bind in H. unfold draw_entropy at 1 in H.
  cbv beta iota in H. unfold ret at 1 in H. cbv beta iota in H.
  replace (w_entropy (sent (OpFindOne users) w)) with (w_entropy w) in H
    by reflexivity.
  destruct (bcrypt_GenerateFromPassword P _ _) as [hashed|herr] eqn:Eh.
  2:{ injection H as <- <-. left. eauto. }
  rewrite run_bind in H. unfold time_Now at 1 in H. cbv beta iota in H.
  rewrite run_bind in H. unfold Users_InsertOne in H.
  rewrite InsertOne_run in H.
  destruct (hd None (w_faults _)) as [msg|].
  { injection H as <- <-. left. eauto. }
  destruct (existsb _ _).
  { injection H as <- <-. left. eauto. }
  injection H as <- <-. right. exists hashed.
  repeat split; try assumption.
  - now apply existsb_no_email.
  - simpl. lia.
Qed.

(** X13. A [Register] that succeeds has stored exactly one new user, last
    in the collection: under the trimmed email and name, with the hash the
    hasher returned for the password as given, active and not deleted,
    created and updated at the instant read from the clock, rounded down to
    the millisecond; no user had that email before.  The summary returned
    has the id, email, name and flags of the stored user, and for dates the
    instant read from the clock as it is, not rounded.  Revocations and
    attempts are untouched. *)
Theorem X13_Register_stores_one_active_user
    (P : Platform) (ctx : Context) (req : pb.RegisterRequest) (w : World)
    (resp : pb.RegisterResponse) (w' : World) :
  services.Register P ctx req w = Some (Ok resp, w') ->
  exists user,
    Users (w_db w') = (Users (w_db w) ++ [user])%list
    /\ User_Email user = utils.SanitizeString P (pb.RegisterRequest_Email req)
    /\ User_Name user = utils.SanitizeString P (pb.RegisterRequest_Name req)
    /\ bcrypt_GenerateFromPassword P (pb.RegisterRequest_Password req)
         (hd "" (w_entropy w)) = Ok (User_Password user)
    /\ User_IsActive user = true
    /\ User_IsDeleted user = false
    /\ User_CreatedAt user = mongo.DateTime (w_now w)
    /\ User_UpdatedAt user = mongo.DateTime (w_now w)
    /\ (forall u, In u (Users (w_db w)) -> User_Email u <> User_Email user)
    /\ pb.RegisterResponse_User resp
       = {| pb.User_Id := ObjectID_Hex P (User_ID user);
            pb.User_Email := User_Email user;
            pb.User_Name := User_Name user;
            pb.User_CreatedAt := w_now w;
            pb.User_UpdatedAt := w_now w;
            pb.User_IsActive := User_IsActive user;
            pb.User_IsDeleted := User_IsDeleted user |}
    /\ Tokens (w_db w') = Tokens (w_db w)
    /\ Attempts (w_db w') = Attempts (w_db w).
Proof.
  intros H. destruct (Register_outcome _ _ _ _ _ _ H) as [[[s Hs] _]|Hok].
  { discriminate Hs. }
  cbv zeta in Hok.
  destruct Hok as (hashed & _ & _ & _ & Hnew & Hh & Hres & Hus & Hts & Has & _).
  injection Hres as ->.
  eexists. split; [exact Hus|].
  cbn [User_bson User_ID User_Email User_Password User_Name User_CreatedAt
       User_UpdatedAt User_IsActive User_IsDeleted pb.RegisterResponse_User].
  repeat split; assumption.
Qed.

Lemma find_app_last {D} (f : D -> bool) (l : list D) (x : D) :
  (forall y, In y l -> f y = false) -> f x = true ->
  find f (l ++ [x]) = Some x.
Proof.
  intros Hl Hx. induction l as [|y l IH]; simpl.
  - now rewrite Hx.
  - rewrite (Hl y (or_introl eq_refl)). apply IH.
    intros z Hz. apply Hl. now right.
Qed.

(** X14. Who has registered can log in: after a [Register] that succeeded,
    a [Login] with the trimmed email and the same password, in a world
    holding the users [Register] left, that gets to the lookup of the user,
    returns a token and the summary [Register] returned, but for its two
    dates, which come back from the store rounded down to the millisecond.
    (The hasher is assumed to verify the hashes it makes, and HS256 signing
    not to fail.) *)
Theorem X14_registered_user_can_log_in
    (L : jwt.Lib auth.JWTClaims) (P : Platform) (j : auth.JWTService)
    (ctx ctx' : Context) (req : pb.RegisterRequest) (w : World)
    (resp : pb.RegisterResponse) (w1 w2 : World) :
  bcrypt_verifies P ->
  signs_with_HS256 L ->
  services.Register P ctx req w = Some (Ok resp, w1) ->
  Users (w_db w2) = Users (w_db w1) ->
  let login :=
    {| pb.LoginRequest_Email :=
         utils.SanitizeString P (pb.RegisterRequest_Email req);
       pb.LoginRequest_Password := pb.RegisterRequest_Password req |} in
  goes_through 0 w2 ->
  failures_in_window (pb.LoginRequest_Email login)
    (services.getClientIP ctx') (w_now w2) (Attempts (w_db w2)) < 5 ->
  goes_through 1 w2 ->
  exists token w3,
    services.Login L P j ctx' login w2
    = Some (Ok {| pb.LoginResponse_Token := token;
                  pb.LoginResponse_User :=
                    let registered := pb.RegisterResponse_User resp in
                    {| pb.User_Id := pb.User_Id registered;
                       pb.User_Email := pb.User_Email registered;
                       pb.User_Name := pb.User_Name registered;
                       pb.User_CreatedAt :=
                         mongo.DateTime (pb.User_CreatedAt registered);
                       pb.User_UpdatedAt :=
                         mongo.DateTime (pb.User_UpdatedAt registered);
                       pb.User_IsActive := pb.User_IsActive registered;
                       pb.User_IsDeleted := pb.User_IsDeleted registered |};
                  pb.LoginResponse_Message := "Login success" |}, w3).
Proof.
  intros Hbcrypt Hsigns H Husers login G0 Hwin G1.
  destruct (Register_outcome _ _ _ _ _ _ H) as [[[s Hs] _]|Hok].
  { discriminate Hs. }
  cbv zeta in Hok.
  destruct Hok as (hashed & He & Hp & _ & Hnew & Hh & Hres & Hus & _).
  injection Hres as ->.
  rewrite (Login_reaches_lookup L P j ctx' login w2 He
             (ValidatePassword_nonempty _ _ Hp) G0 Hwin G1).
  rewrite Husers, Hus.
  rewrite find_app_last.
  - cbn [User_bson User_Password User_IsActive pb.LoginRequest_Password
         login].
    unfold utils.CheckPasswordHash. rewrite (Hbcrypt _ _ _ Hh).
    cbn [negb]. cbv iota.
    rewrite GenerateToken_run.
    match goal with
    | |- context [jwt.SignedString L jwt.HS256 ?c ?k] =>
        destruct (Hsigns c k) as [token Htoken]; rewrite Htoken
    end.
    rewrite RecordLoginAttempt_run. do 2 eexists. reflexivity.
  - intros u Hu. cbn [pb.LoginRequest_Email login].
    destruct (String.eqb_spec (User_Email u)
                (utils.SanitizeString P (pb.RegisterRequest_Email req)))
      as [E|_]; [destruct (Hnew u Hu E) | reflexivity].
  - cbn [User_bson User_Email User_IsDeleted pb.LoginRequest_Email login].
    rewrite String.eqb_refl. reflexivity.
Qed.

Lemma X13_Register_stores_one_active_user_witness :
  exists user,
    Users (w_db scenarios.w_eve) = [examples.alice; examples.bob; user]
    /\ User_Email user = "eve@example.com"
    /\ User_Name user = "Eve"
    /\ User_IsActive user = true
    /\ User_IsDeleted user = false
    /\ User_CreatedAt user = examples.noon
    /\ pb.User_CreatedAt (pb.RegisterResponse_User scenarios.eve_resp)
       = examples.noon + 123456.
Proof.
  destruct (X13_Register_stores_one_active_user
              testbed.platform examples.no_metadata scenarios.register_eve
              scenarios.w_users_late scenarios.eve_resp scenarios.w_eve)
    as (user & Hus & He & Hn & _ & Ha & Hd & Hc & _ & _ & Hresp & _).
  - vm_compute. reflexivity.
  - exists user. repeat split; first [assumption | rewrite Hresp; reflexivity].
Defined.

Lemma X14_registered_user_can_log_in_witness :
  exists token w3,
    services.Login testbed.jwtlib testbed.platform examples.jwtService
      examples.from_10_0_0_1
      {| pb.LoginRequest_Email := "eve@example.com";
         pb.LoginRequest_Password := "N3w!Passw0rd" |}
      (examples.quiet examples.one_o_clock (w_db scenarios.w_eve))
    = Some (Ok {| pb.LoginResponse_Token := token;
                  pb.LoginResponse_User :=
                    {| pb.User_Id := "65a000000000000000000001";
                       pb.User_Email := "eve@example.com";
                       pb.User_Name := "Eve";
                       pb.User_CreatedAt := examples.noon;
                       pb.User_UpdatedAt := examples.noon;
                       pb.User_IsActive := true;
                       pb.User_IsDeleted := false |};
                  pb.LoginResponse_Message := "Login success" |}, w3).
Proof.
  apply (X14_registered_user_can_log_in
           testbed.jwtlib testbed.platform examples.jwtService
           examples.no_metadata examples.from_10_0_0_1
           scenarios.register_eve scenarios.w_users_late scenarios.eve_resp
           scenarios.w_eve
           (examples.quiet examples.one_o_clock (w_db scenarios.w_eve))).
  - exact testbed_facts_more.platform_bcrypt_verifies.
  - exact testbed_facts_more.jwtlib_signs_with_HS256.
  - vm_compute. reflexivity.
  - reflexivity.
  - reflexivity.
  - vm_compute. reflexivity.
  - reflexivity.
Defined.

(** ** Emails stay unique *)

(** X15. [Register] keeps the emails of the stored users pairwise
    distinct, whatever its outcome, deleted users included: a new user is
    stored only under an email that no stored user has. *)
Theorem X15_Register_keeps_emails_distinct
    (P : Platform) (ctx : Context) (req : pb.RegisterRequest) (w : World)
    (res : result status.Status pb.RegisterResponse) (w' : World) :
  NoDup (map User_Email (Users (w_db w))) ->
  services.Register P ctx req w = Some (res, w') ->
  NoDup (map User_Email (Users (w_db w'))).
Proof.
  intros Hnd H.
  destruct (Register_outcome _ _ _ _ _ _ H) as [[_ Hdb]|Hok].
  { now rewrite Hdb. }
  cbv zeta in Hok.
  destruct Hok as (hashed & _ & _ & _ & Hnew & _ & _ & Hus & _).
  rewrite Hus, map_app. simpl.
  apply NoDup_app; [exact Hnd | repeat constructor; intros [] |].
  intros e He Hin. destruct Hin as [<-|[]].
  apply in_map_iff in He. destruct He as (u & Hu & Hin).
  exact (Hnew u Hin Hu).
Qed.

Lemma X15_Register_keeps_emails_distinct_witness :
  NoDup (map User_Email (Users (w_db scenarios.w_eve))).
Proof.
  apply (X15_Register_keeps_emails_distinct
           testbed.platform examples.no_metadata scenarios.register_eve
           scenarios.w_users_late (Ok scenarios.eve_resp) scenarios.w_eve).
  - simpl. repeat constructor; simpl; intuition discriminate.
  - vm_compute. reflexivity.
Defined.

(** ** Which collection each handler writes *)

Lemma ValidateToken_returns L j tokenString w :
  exists res w',
    auth.ValidateToken L j tokenString w = Some (res, w')
    /\ w_db w' = w_db w.
Proof.
  rewrite ValidateToken_run. cbv zeta.
  destruct (hd None (w_faults w)); [eauto|].
  destruct (find _ _); eauto.
Qed.

Lemma RecordLoginAttempt_frame email ipAddress success w r w' :
  utils.RecordLoginAttempt email ipAddress success w = Some (r, w') ->
  Users (w_db w') = Users (w_db w) /\ Tokens (w_db w') = Tokens (w_db w).
Proof.
  intros H. rewrite RecordLoginAttempt_run in H. injection H as _ <-.
  destruct (hd None (w_faults w)); split; reflexivity.
Qed.

Lemma InvalidateToken_frame L P j tokenString userID w r w' :
  auth.InvalidateToken L P j tokenString userID w = Some (r, w') ->
  Users (w_db w') = Users (w_db w)
  /\ Attempts (w_db w') = Attempts (w_db w)
  /\ (r <> None -> w_db w' = w_db w).
Proof.
  intros H. rewrite InvalidateToken_run in H.
  assert (Hfin : forall expiry w2,
             w_db w2 = w_db w ->
             match primitive_ObjectIDFromHex P userID with
             | Err err =>
                 Some (Some (fmt_Errorf ("invalid user ID: " ++ err)), w2)
             | Ok userObjectID =>
                 match Tokens_InsertOne
                         {| InvalidatedToken_ID := mongo.NilObjectID;
                            InvalidatedToken_Token := tokenString;
                            InvalidatedToken_UserID := userObjectID;
                            InvalidatedToken_ExpiresAt := expiry;
                            InvalidatedToken_CreatedAt := w_now w2 |}
                         (ticked w2) with
                 | Some (Ok _, w4) => Some (None, w4)
                 | Some (Err err, w4) =>
                     Some (Some (fmt_Errorf ("failed to invalidate token: "
                                             ++ mongo.Error_string err)), w4)
                 | None => None
                 end
             end = Some (r, w') ->
             Users (w_db w') = Users (w_db w)
             /\ Attempts (w_db w') = Attempts (w_db w)
             /\ (r <> None -> w_db w' = w_db w)).
  { clear H. intros expiry w2 Hdb H.
    destruct (primitive_ObjectIDFromHex P userID) as [oid|err].
    2:{ injection H as <- <-. rewrite Hdb. auto. }
    unfold Tokens_InsertOne in H. rewrite InsertOne_run in H.
    destruct (hd None (w_faults (ticked w2))).
    { injection H as <- <-. simpl. rewrite Hdb. auto. }
    destruct (existsb _ _).
    { injection H as <- <-. simpl. rewrite Hdb. auto. }
    injection H as <- <-. simpl. rewrite Hdb.
    repeat split. intros Hr. now destruct Hr. }
  destruct (jwt.ParseWithClaims L tokenString _ (w_now w)) as [token|perr].
  - destruct (jwt.ExpiresAt _) as [t|]; [|discriminate].
    exact (Hfin t (ticked w) eq_refl H).
  - exact (Hfin _ (ticked (ticked w)) eq_refl H).
Qed.

(** X16. Each handler writes its own collection and no other.  [Login]
    leaves users and revocations as they are; [Logout] leaves users and
    attempts as they are, and everything when it fails; [Register] leaves
    revocations and attempts as they are, and everything when it fails. *)
Theorem X16_handlers_write_their_own_collection_only
    (L : jwt.Lib auth.JWTClaims) (P : Platform) (j : auth.JWTService)
    (ctx : Context) (w : World) :
  (forall req res w',
      services.Login L P j ctx req w = Some (res, w') ->
      Users (w_db w') = Users (w_db w) /\ Tokens (w_db w') = Tokens (w_db w))
  /\ (forall req res w',
         services.Logout L P j ctx req w = Some (res, w') ->
         Users (w_db w') = Users (w_db w)
         /\ Attempts (w_db w') = Attempts (w_db w)
         /\ (forall s, res = Err s -> w_db w' = w_db w))
  /\ (forall req res w',
         services.Register P ctx req w = Some (res, w') ->
         Tokens (w_db w') = Tokens (w_db w)
         /\ Attempts (w_db w') = Attempts (w_db w)
         /\ (forall s, res = Err s -> w_db w' = w_db w)).
Proof.
  split; [|split].
  - intros req res w' H. apply Login_outcome in H.
    inversion H; subst; try (split; reflexivity);
      repeat match goal with
        | Hr : utils.RecordLoginAttempt _ _ _ _ = Some _ |- _ =>
            apply RecordLoginAttempt_frame in Hr; destruct Hr as [-> ->]
        | Hg : auth.GenerateToken _ _ _ _ _ = Some _ |- _ =>
            apply GenerateToken_frame in Hg; rewrite Hg
        end;
      split; reflexivity.
  - intros req res w' H. unfold services.Logout in H.
    destruct (String.eqb (pb.LogoutRequest_Token req) "").
    { injection H as <- <-. repeat split. }
    rewrite run_bind, ExtractUserIDFromToken_run in H.
    destruct (ValidateToken_returns L j (pb.LogoutRequest_Token req) w)
      as (vres & wa & Hv & Hdb).
    rewrite Hv in H. destruct vres as [claims|err]; cbv beta iota in H.
    2:{ injection H as <- <-. rewrite Hdb. repeat split. }
    rewrite run_bind in H.
    destruct (auth.InvalidateToken L P j _ _ wa) as [[r w1]|] eqn:Ei;
      [|discriminate].
    destruct (InvalidateToken_frame _ _ _ _ _ _ _ _ Ei) as (Hu & Ha & Hr).
    rewrite Hdb in Hu, Ha, Hr.
    destruct r as [e|]; injection H as <- <-.
    + repeat split; try assumption. intros s _. apply Hr. discriminate.
    + repeat split; try assumption. intros s Hs. discriminate Hs.
  - intros req res w' H.
    destruct (Register_outcome _ _ _ _ _ _ H) as [[[s Hs] Hdb]|Hok].
    + rewrite Hdb. repeat split.
    + cbv zeta in Hok.
      destruct Hok as (hashed & _ & _ & _ & _ & _ & Hres & _ & Ht & Ha & _).
      repeat split; try assumption. intros s Hs. congruence.
Qed.

Lemma X16_handlers_write_their_own_collection_only_witness :
  Users (w_db scenarios.w_alice_in) = [examples.alice; examples.bob]
  /\ Tokens (w_db scenarios.w_alice_in) = [].
Proof.
  destruct (X16_handlers_write_their_own_collection_only
              testbed.jwtlib testbed.platform examples.jwtService
              examples.from_10_0_0_1 examples.w_users) as [H _].
  apply (H (examples.login_alice "Str0ng!Pass") (Ok scenarios.alice_resp)).
  vm_compute. reflexivity.
Defined.

(** ** The validators *)









(** ** The profile handlers *)

Lemma split_first_spec {D} (flt : D -> bool) (l : list D) :
  match split_first flt l with
  | Some (pre, u, post) =>
      l = (pre ++ u :: post)%list /\ flt u = true
      /\ (forall x, In x pre -> flt x = false)
  | None => forall x, In x l -> flt x = false
  end.
Proof.
  induction l as [|d l IH]; simpl.
  - intros x [].
  - destruct (flt d) eqn:Ed.
    + repeat split; auto. intros x [].
    + destruct (split_first flt l) as [[[pre u] post]|].
      * destruct IH as (-> & Hu & Hpre). repeat split; auto.
        intros x [<-|Hx]; auto.
      * intros x [<-|Hx]; auto.
Qed.

Lemma split_first_none {D} (flt : D -> bool) (l : list D) :
  (forall x, In x l -> flt x = false) -> split_first flt l = None.
Proof.
  intros Hl. pose proof (split_first_spec flt l) as Hs.
  destruct (split_first flt l) as [[[pre u] post]|]; [|reflexivity].
  destruct Hs as (-> & Hu & _).
  rewrite (Hl u) in Hu; [discriminate|]. apply in_or_app. right. now left.
Qed.

(** What [UpdateOne] answers, and the world it leaves. *)
Lemma Users_UpdateOne_run flt update w :
  Users_UpdateOne flt update w =
  Some (match hd None (w_faults w) with
        | Some msg => (Err (mongo.CommandError msg), contacted w)
        | None =>
            match split_first flt (Users (w_db w)) with
            | None => (Ok 0, contacted w)
            | Some (pre, u, post) =>
                if negb (userIndexes_unique
                           (apply_set (SetDoc_bson update) u) u)
                   && existsb (userIndexes_unique
                                 (apply_set (SetDoc_bson update) u))
                              (pre ++ post)
                then (Err mongo.DuplicateKey, contacted w)
                else (Ok 1,
                      with_db (with_Users
                                 (pre ++ apply_set (SetDoc_bson update) u
                                      :: post) (w_db w))
                              (contacted w))
            end
        end).
Proof.
  unfold Users_UpdateOne, bind, contact, get_db, ret, put_db.
  destruct (hd None (w_faults w)); [reflexivity|].
  cbv beta iota zeta.
  change (w_db (contacted w)) with (w_db w).
  destruct (split_first flt (Users (w_db w))) as [[[pre u] post]|];
    [|reflexivity].
  destruct (negb _ && _); reflexivity.
Qed.

(** The update of [DeleteProfile], as the store applies it. *)
Lemma delete_set now u :
  apply_set
    (SetDoc_bson {| set_name := None; set_email := None;
                    set_is_active := Some false;
                    set_is_deleted := Some true;
                    set_updated_at := Some now |}) u
  = mark_deleted (mongo.DateTime now) u.
Proof. reflexivity. Qed.

Lemma live_with_id_spec id u :
  userservice.live_with_id id u = true <->
  User_ID u = id /\ User_IsDeleted u = false.
Proof.
  unfold userservice.live_with_id. rewrite andb_true_iff.
  rewrite String.eqb_eq. destruct (User_IsDeleted u); simpl; intuition congruence.
Qed.

(** Every [DeleteProfile] call either fails and leaves the collections
    alone, or marks the first live user of the given id. *)
Lemma DeleteProfile_outcome P ctx req w res w' :
  userservice.DeleteProfile P ctx req w = Some (res, w') ->
  ((exists s, res = Err s) /\ w_db w' = w_db w)
  \/ (exists oid pre u post,
        pbu.DeleteProfileRequest_UserId req <> ""
        /\ primitive_ObjectIDFromHex P (pbu.DeleteProfileRequest_UserId req)
           = Ok oid
        /\ goes_through 0 w
        /\ Users (w_db w) = (pre ++ u :: post)%list
        /\ userservice.live_with_id oid u = true
        /\ (forall x, In x pre -> userservice.live_with_id oid x = false)
        /\ res = Ok {| pbu.DeleteProfileResponse_Message :=
                         "Profile deleted successfully" |}
        /\ w_db w'
           = with_Users
               (pre ++ mark_deleted (mongo.DateTime (w_now w)) u :: post)
               (w_db w)).
Proof.
  intros H. unfold userservice.DeleteProfile in H.
  destruct (String.eqb_spec (pbu.DeleteProfileRequest_UserId req) "")
    as [E|E].
  { injection H as <- <-. left. eauto. }
  destruct (primitive_ObjectIDFromHex P _) as [oid|e] eqn:Eo.
  2:{ injection H as <- <-. left. eauto. }
  rewrite run_bind in H. unfold time_Now at 1 in H. cbv beta iota in H.
  rewrite run_bind, Users_UpdateOne_run in H.
  replace (w_faults (ticked w)) with (w_faults w) in H by reflexivity.
  replace (w_db (ticked w)) with (w_db w) in H by reflexivity.
  destruct (hd None (w_faults w)) as [msg|] eqn:F0.
  { injection H as <- <-. left. eauto. }
  pose proof (split_first_spec (userservice.live_with_id oid)
                (Users (w_db w))) as Hs.
  destruct (split_first _ _) as [[[pre u] post]|].
  2:{ injection H as <- <-. left. eauto. }
  destruct Hs as (Hus & Hu & Hpre).
  rewrite delete_set in H.
  unfold userIndexes_unique at 1 in H.
  cbn [mark_deleted User_Email] in H.
  rewrite String.eqb_refl in H. cbn [negb andb] in H.
  injection H as <- <-. right. exists oid, pre, u, post.
  repeat split; try assumption.
  unfold goes_through. now rewrite <- hd_nth.
Qed.

(** X18. [DeleteProfile] is a soft delete.  When it succeeds, one user has
    changed: the first one stored under the id of the request that was not
    deleted yet is now deleted and inactive, updated at the instant read
    from the clock, rounded down to the millisecond; its id, email,
    password hash, name and creation date are kept, every other user, the
    revocations and the attempts are as they were.  When it fails, the
    collections are unchanged. *)
Theorem X18_DeleteProfile_is_a_soft_delete
    (P : Platform) (ctx : Context) (req : pbu.DeleteProfileRequest)
    (w : World) (res : result status.Status pbu.DeleteProfileResponse)
    (w' : World) :
  userservice.DeleteProfile P ctx req w = Some (res, w') ->
  match res with
  | Err _ => w_db w' = w_db w
  | Ok _ =>
      exists pre u u' post,
        Users (w_db w) = (pre ++ u :: post)%list
        /\ Users (w_db w') = (pre ++ u' :: post)%list
        /\ primitive_ObjectIDFromHex P (pbu.DeleteProfileRequest_UserId req)
           = Ok (User_ID u)
        /\ User_IsDeleted u = false
        /\ (forall x, In x pre ->
              User_ID x = User_ID u -> User_IsDeleted x = true)
        /\ User_IsDeleted u' = true
        /\ User_IsActive u' = false
        /\ User_UpdatedAt u' = mongo.DateTime (w_now w)
        /\ User_ID u' = User_ID u
        /\ User_Email u' = User_Email u
        /\ User_Password u' = User_Password u
        /\ User_Name u' = User_Name u
        /\ User_CreatedAt u' = User_CreatedAt u
        /\ Tokens (w_db w') = Tokens (w_db w)
        /\ Attempts (w_db w') = Attempts (w_db w)
  end.
Proof.
  intros H.
  destruct (DeleteProfile_outcome _ _ _ _ _ _ H) as [[[s ->] Hdb]|Hok].
  { exact Hdb. }
  destruct Hok as (oid & pre & u & post & _ & Ho & _ & Hus & Hu & Hpre
                   & -> & Hdb).
  apply live_with_id_spec in Hu. destruct Hu as [<- Hd].
  exists pre, u, (mark_deleted (mongo.DateTime (w_now w)) u), post.
  rewrite Hdb. repeat split; try assumption; try reflexivity.
  intros x Hx Hid. pose proof (Hpre x Hx) as Hf.
  destruct (User_IsDeleted x) eqn:Ed; [reflexivity|].
  assert (userservice.live_with_id (User_ID u) x = true)
    by (apply live_with_id_spec; auto).
  congruence.
Qed.

Lemma X18_DeleteProfile_is_a_soft_delete_witness :
  exists pre u u' post,
    [examples.alice; examples.bob] = (pre ++ u :: post)%list
    /\ Users (w_db scenarios.w_alice_deleted) = (pre ++ u' :: post)%list
    /\ User_ID u = examples.alice_id
    /\ User_IsDeleted u' = true
    /\ User_IsActive u' = false
    /\ User_UpdatedAt u' = examples.noon
    /\ User_Password u' = User_Password u.
Proof.
  pose proof (X18_DeleteProfile_is_a_soft_delete
                testbed.platform examples.no_metadata scenarios.delete_alice
                scenarios.w_users_late (Ok scenarios.deleted_resp)
                scenarios.w_alice_deleted) as H.
  cbv beta iota in H.
  destruct H as (pre & u & u' & post & Hus & Hus' & Ho & _ & _ & Hd & Ha
                 & Hat & _ & _ & Hp & _).
  - vm_compute. reflexivity.
  - exists pre, u, u', post. repeat split; try assumption.
    assert (E : primitive_ObjectIDFromHex testbed.platform
                  (pbu.DeleteProfileRequest_UserId scenarios.delete_alice)
                = Ok examples.alice_id) by (vm_compute; reflexivity).
    congruence.
Defined.

(** What [UpdateProfile] does once the request has been checked: the
    update, then the retrieval of the updated user. *)
Lemma UpdateProfile_tail P oid upd w1 res w' :
  (r <- Users_UpdateOne (userservice.live_with_id oid) upd ;;
   match r with
   | Ok matchedCount =>
       if matchedCount =? 0
       then ret (Err (status.Errorf codes.NotFound "user not found"))
       else
         r0 <- Users_FindOne (fun u : User => String.eqb (User_ID u) oid) ;;
         match r0 with
         | Ok updatedUser =>
             ret (Ok {| pbu.UpdateProfileResponse_User :=
                          services.pbUser_of P updatedUser;
                        pbu.UpdateProfileResponse_Message :=
                          "Profile updated successfully" |})
         | Err _ =>
             ret (Err (status.Errorf codes.Internal
                         "failed to retrieve updated user"))
         end
   | Err _ => ret (Err (status.Errorf codes.Internal "failed to update user"))
   end)%go w1 = Some (res, w') ->
  ((exists s, res = Err s
      /\ s <> status.Errorf codes.Internal "failed to retrieve updated user")
   /\ w_db w' = w_db w1)
  \/ (exists pre u post,
        Users (w_db w1) = (pre ++ u :: post)%list
        /\ userservice.live_with_id oid u = true
        /\ (forall x, In x pre -> userservice.live_with_id oid x = false)
        /\ (User_Email (apply_set (SetDoc_bson upd) u) = User_Email u
            \/ forall x, In x (pre ++ post) ->
                 User_Email x <> User_Email (apply_set (SetDoc_bson upd) u))
        /\ w_db w'
           = with_Users (pre ++ apply_set (SetDoc_bson upd) u :: post) (w_db w1)
        /\ (res = Err (status.Errorf codes.Internal
                         "failed to retrieve updated user")
            \/ exists v,
                 find (fun x => String.eqb (User_ID x) oid)
                      (pre ++ apply_set (SetDoc_bson upd) u :: post) = Some v
                 /\ res = Ok {| pbu.UpdateProfileResponse_User :=
                                  services.pbUser_of P v;
                                pbu.UpdateProfileResponse_Message :=
                                  "Profile updated successfully" |})).
Proof.
  intros H. rewrite run_bind, Users_UpdateOne_run in H.
  destruct (hd None (w_faults w1)) as [msg|].
  { injection H as <- <-. left.
    split; [eexists; split; [reflexivity|discriminate]|reflexivity]. }
  pose proof (split_first_spec (userservice.live_with_id oid)
                (Users (w_db w1))) as Hs.
  destruct (split_first _ _) as [[[pre u] post]|].
  2:{ injection H as <- <-. left.
      split; [eexists; split; [reflexivity|discriminate]|reflexivity]. }
  destruct Hs as (Hus & Hu & Hpre).
  destruct (negb _ && _) eqn:Ecl.
  { injection H as <- <-. left.
    split; [eexists; split; [reflexivity|discriminate]|reflexivity]. }
  cbv beta iota in H. change (1 =? 0) with false in H. cbv iota in H.
  rewrite run_bind in H. unfold Users_FindOne in H.
  rewrite FindOne_run in H.
  assert (Hcl : User_Email (apply_set (SetDoc_bson upd) u) = User_Email u
                \/ forall x, In x (pre ++ post) ->
                     User_Email x <> User_Email (apply_set (SetDoc_bson upd) u)).
  { apply andb_false_iff in Ecl. destruct Ecl as [Ecl|Ecl].
    - left. apply negb_false_iff in Ecl. now apply String.eqb_eq in Ecl.
    - right. intros x Hx He.
      assert (existsb (userIndexes_unique (apply_set (SetDoc_bson upd) u))
                (pre ++ post) = true).
      { apply existsb_exists. exists x. split; [exact Hx|].
        unfold userIndexes_unique. rewrite He. apply String.eqb_refl. }
      congruence. }
  right. exists pre, u, post.
  destruct (hd None (w_faults _)) as [msg|].
  { injection H as <- <-. repeat split; auto. }
  replace (Users (w_db (with_db
             (with_Users (pre ++ apply_set (SetDoc_bson upd) u :: post) (w_db w1))
             (contacted w1))))
    with (pre ++ apply_set (SetDoc_bson upd) u :: post)%list in H
    by reflexivity.
  destruct (find _ (pre ++ _ :: post)) as [v|] eqn:Ef.
  - injection H as <- <-. repeat split; auto. right. exists v. auto.
  - injection H as <- <-. repeat split; auto.
Qed.

(** Every [UpdateProfile] call either fails and leaves the collections
    alone, or updates the first live user of the given id; it may then
    still fail to return it. *)
Lemma UpdateProfile_outcome P ctx req w res w' :
  userservice.UpdateProfile P ctx req w = Some (res, w') ->
  let name := utils.SanitizeString P (pbu.UpdateProfileRequest_Name req) in
  let email := utils.SanitizeString P (pbu.UpdateProfileRequest_Email req) in
  ((exists s, res = Err s
      /\ s <> status.Errorf codes.Internal "failed to retrieve updated user")
   /\ w_db w' = w_db w)
  \/ (exists oid pre u post,
        primitive_ObjectIDFromHex P (pbu.UpdateProfileRequest_UserId req)
        = Ok oid
        /\ (name <> "" -> utils.ValidateName P name "name" = None)
        /\ (email <> "" -> utils.ValidateEmail P email = None)
        /\ Users (w_db w) = (pre ++ u :: post)%list
        /\ userservice.live_with_id oid u = true
        /\ (forall x, In x pre -> userservice.live_with_id oid x = false)
        /\ let u' := edited name email (mongo.DateTime (w_now w)) u in
           (User_Email u' = User_Email u
            \/ forall x, In x (pre ++ post) -> User_Email x <> User_Email u')
           /\ w_db w' = with_Users (pre ++ u' :: post) (w_db w)
           /\ (res = Err (status.Errorf codes.Internal
                            "failed to retrieve updated user")
               \/ exists v,
                    find (fun x => String.eqb (User_ID x) oid)
                         (pre ++ u' :: post) = Some v
                    /\ res = Ok {| pbu.UpdateProfileResponse_User :=
                                     services.pbUser_of P v;
                                   pbu.UpdateProfileResponse_Message :=
                                     "Profile updated successfully" |})).
Proof.
  intros H. cbv zeta. unfold edited. unfold userservice.UpdateProfile in H.
  destruct (String.eqb_spec (pbu.UpdateProfileRequest_UserId req) "")
    as [E|E].
  { injection H as <- <-. left.
    split; [eexists; split; [reflexivity|discriminate]|reflexivity]. }
  destruct (primitive_ObjectIDFromHex P _) as [oid|e] eqn:Eo.
  2:{ injection H as <- <-. left.
      split; [eexists; split; [reflexivity|discriminate]|reflexivity]. }
  cbv zeta in H. rewrite run_bind in H. unfold time_Now at 1 in H.
  cbv beta iota in H.
  revert H.
  destruct (String.eqb_spec
              (utils.SanitizeString P (pbu.UpdateProfileRequest_Name req)) "")
    as [En|En]; cbn [negb]; cbv iota;
  [|destruct (utils.ValidateName P _ "name") as [err|] eqn:Evn;
    [intros H; injection H as <- <-; left;
     split; [eexists; split; [reflexivity|discriminate]|reflexivity]|]].
  all: destruct (String.eqb_spec
                   (utils.SanitizeString P (pbu.UpdateProfileRequest_Email req))
                   "") as [Em|Em]; cbn [negb]; cbv iota.
  all: intros H; rewrite run_bind in H.
  all: try (destruct (utils.ValidateEmail P _) as [err|] eqn:Eve;
            [injection H as <- <-; left;
             split; [eexists; split; [reflexivity|discriminate]|reflexivity]|];
            rewrite run_bind in H; unfold Users_FindOne at 1 in H;
            rewrite FindOne_run in H; cbv beta iota in H;
            destruct (hd None (w_faults (ticked w))) as [msg|];
            [injection H as <- <-; left;
             split; [eexists; split; [reflexivity|discriminate]|reflexivity]|];
            destruct (find _ (Users (w_db (ticked w)))) as [other|];
            [injection H as <- <-; left;
             split; [eexists; split; [reflexivity|discriminate]|reflexivity]|];
            cbn [mongo.is_ErrNoDocuments negb] in H).
  all: unfold ret at 1 in H; cbv beta iota in H.
  all: apply UpdateProfile_tail in H.
  all: destruct H as [[Hs Hdb]|(pre & u & post & Hus & Hu & Hpre & Hcl & Hdb
                                & Hres)];
    [left; split; assumption|].
  all: right; exists oid, pre, u, post.
  all: repeat split; try assumption; try (intros; congruence).
Qed.

Lemma find_none_of {D} (f : D -> bool) (l : list D) :
  (forall x, In x l -> f x = false) -> find f l = None.
Proof.
  intros Hl. destruct (find f l) as [d|] eqn:E; [|reflexivity].
  apply find_some in E. destruct E as [Hin Hd].
  rewrite (Hl d Hin) in Hd. discriminate.
Qed.

Lemma split_first_middle {D} (f : D -> bool) pre u post :
  (forall x, In x pre -> f x = false) -> f u = true ->
  split_first f (pre ++ u :: post) = Some (pre, u, post).
Proof.
  intros Hpre Hu. induction pre as [|y pre IH]; simpl.
  - now rewrite Hu.
  - rewrite (Hpre y (or_introl eq_refl)), IH; [reflexivity|].
    intros x Hx. apply Hpre. now right.
Qed.

Lemma find_middle {D} (f : D -> bool) pre u post :
  (forall x, In x pre -> f x = false) -> f u = true ->
  find f (pre ++ u :: post) = Some u.
Proof.
  intros Hpre Hu. induction pre as [|y pre IH]; simpl.
  - now rewrite Hu.
  - rewrite (Hpre y (or_introl eq_refl)). apply IH.
    intros x Hx. apply Hpre. now right.
Qed.

(** With distinct ids, the users around one user have other ids. *)
Lemma other_ids pre (u : User) post :
  NoDup (map User_ID (pre ++ u :: post)) ->
  forall x, In x (pre ++ post) -> User_ID x <> User_ID u.
Proof.
  intros Hnd x Hx He. rewrite map_app in Hnd. simpl in Hnd.
  apply NoDup_remove_2 in Hnd. apply Hnd. rewrite <- map_app, <- He.
  now apply in_map.
Qed.

(** What [GetProfile] answers to a well-formed request. *)
Lemma GetProfile_run P ctx req oid w :
  pbu.GetProfileRequest_UserId req <> "" ->
  primitive_ObjectIDFromHex P (pbu.GetProfileRequest_UserId req) = Ok oid ->
  userservice.GetProfile P ctx req w =
  Some (match hd None (w_faults w) with
        | Some _ =>
            Err (status.Errorf codes.Internal "failed to retrieve user")
        | None =>
            match find (userservice.live_with_id oid) (Users (w_db w)) with
            | Some user =>
                Ok {| pbu.GetProfileResponse_User :=
                        services.pbUser_of P user |}
            | None => Err (status.Errorf codes.NotFound "user not found")
            end
        end,
        sent (OpFindOne users) w).
Proof.
  intros Hne Ho. unfold userservice.GetProfile.
  destruct (String.eqb_spec (pbu.GetProfileRequest_UserId req) "") as [E|_];
    [contradiction|].
  rewrite Ho, run_bind. unfold Users_FindOne. rewrite FindOne_run.
  destruct (hd None (w_faults w)); [reflexivity|].
  destruct (find _ _); reflexivity.
Qed.

(** What [DeleteProfile] answers when no live user has the id. *)
Lemma DeleteProfile_no_live P ctx req oid w :
  pbu.DeleteProfileRequest_UserId req <> "" ->
  primitive_ObjectIDFromHex P (pbu.DeleteProfileRequest_UserId req) = Ok oid ->
  goes_through 0 w ->
  (forall x, In x (Users (w_db w)) -> userservice.live_with_id oid x = false) ->
  userservice.DeleteProfile P ctx req w
  = Some (Err (status.Errorf codes.NotFound "user not found"),
          contacted (ticked w)).
Proof.
  intros Hne Ho G0 Hnone. unfold userservice.DeleteProfile.
  destruct (String.eqb_spec (pbu.DeleteProfileRequest_UserId req) "") as [E|_];
    [contradiction|].
  rewrite Ho, run_bind. unfold time_Now at 1. cbv beta iota.
  rewrite run_bind, Users_UpdateOne_run.
  replace (w_faults (ticked w)) with (w_faults w) by reflexivity.
  replace (w_db (ticked w)) with (w_db w) by reflexivity.
  unfold goes_through in G0. rewrite <- hd_nth in G0. rewrite G0.
  rewrite (split_first_none _ _ Hnone). reflexivity.
Qed.

Lemma none_live_after_delete oid now pre u post :
  NoDup (map User_ID (pre ++ u :: post)) ->
  userservice.live_with_id oid u = true ->
  (forall x, In x pre -> userservice.live_with_id oid x = false) ->
  forall x, In x (pre ++ mark_deleted now u :: post) ->
    userservice.live_with_id oid x = false.
Proof.
  intros Hnd Hu Hpre x Hx.
  apply live_with_id_spec in Hu. destruct Hu as [Hid _].
  apply in_app_or in Hx. destruct Hx as [Hx|[<-|Hx]].
  - now apply Hpre.
  - unfold userservice.live_with_id. simpl. apply andb_false_r.
  - unfold userservice.live_with_id.
    destruct (String.eqb_spec (User_ID x) oid) as [E|_]; [|reflexivity].
    destruct (other_ids pre u post Hnd x); [|congruence].
    apply in_or_app. now right.
Qed.

(** X19. A deleted profile is gone for the profile handlers.  After a
    [DeleteProfile] that succeeded, in any world holding the users it left
    (ids being distinct), [GetProfile] and a second [DeleteProfile] for the
    same id answer NotFound when the store responds, and no [UpdateProfile]
    for that id succeeds or changes a collection. *)
Theorem X19_deleted_profile_is_gone
    (P : Platform) (ctx : Context) (req : pbu.DeleteProfileRequest)
    (w : World) (resp : pbu.DeleteProfileResponse) (w' : World) :
  userservice.DeleteProfile P ctx req w = Some (Ok resp, w') ->
  NoDup (map User_ID (Users (w_db w))) ->
  forall (ctx2 : Context) (w2 : World),
    Users (w_db w2) = Users (w_db w') ->
    (goes_through 0 w2 ->
     userservice.GetProfile P ctx2
       {| pbu.GetProfileRequest_UserId := pbu.DeleteProfileRequest_UserId req |}
       w2
     = Some (Err (status.Errorf codes.NotFound "user not found"),
             sent (OpFindOne users) w2))
    /\ (goes_through 0 w2 ->
        userservice.DeleteProfile P ctx2 req w2
        = Some (Err (status.Errorf codes.NotFound "user not found"),
                contacted (ticked w2)))
    /\ (forall upd res w3,
          pbu.UpdateProfileRequest_UserId upd
          = pbu.DeleteProfileRequest_UserId req ->
          userservice.UpdateProfile P ctx2 upd w2 = Some (res, w3) ->
          (exists s, res = Err s) /\ w_db w3 = w_db w2).
Proof.
  intros H Hnd ctx2 w2 Hus2.
  destruct (DeleteProfile_outcome _ _ _ _ _ _ H) as [[[s Hs] _]|Hok].
  { discriminate Hs. }
  destruct Hok as (oid & pre & u & post & Hne & Ho & _ & Hus & Hu & Hpre
                   & _ & Hdb).
  assert (Hnone : forall x, In x (Users (w_db w2)) ->
                            userservice.live_with_id oid x = false).
  { rewrite Hus2, Hdb. cbn [Users with_Users].
    apply none_live_after_delete; [now rewrite <- Hus | exact Hu | exact Hpre]. }
  split; [|split; [|intros upd res w3 H0 H1; split]].
  - intros G0. rewrite (GetProfile_run P ctx2
               {| pbu.GetProfileRequest_UserId :=
                    pbu.DeleteProfileRequest_UserId req |} oid w2 Hne Ho).
    unfold goes_through in G0. rewrite <- hd_nth in G0. rewrite G0.
    now rewrite (find_none_of _ _ Hnone).
  - intros G0. now apply (DeleteProfile_no_live P ctx2 req oid w2).
  - destruct (UpdateProfile_outcome _ _ _ _ _ _ H1)
      as [[[s [Hs _]] _]|Hok]; [eauto|].
    cbv zeta in Hok.
    destruct Hok as (oid' & pre' & u' & post' & Ho' & _ & _ & Hus' & Hu' & _).
    rewrite H0, Ho in Ho'. injection Ho' as <-.
    rewrite (Hnone u') in Hu'; [discriminate|].
    rewrite Hus'. apply in_or_app. right. now left.
  - destruct (UpdateProfile_outcome _ _ _ _ _ _ H1)
      as [[_ Hdb']|Hok]; [exact Hdb'|].
    cbv zeta in Hok.
    destruct Hok as (oid' & pre' & u' & post' & Ho' & _ & _ & Hus' & Hu' & _).
    rewrite H0, Ho in Ho'. injection Ho' as <-.
    rewrite (Hnone u') in Hu'; [discriminate|].
    rewrite Hus'. apply in_or_app. right. now left.
Qed.

Lemma X19_deleted_profile_is_gone_witness :
  userservice.GetProfile testbed.platform examples.no_metadata
    scenarios.get_alice scenarios.w_alice_deleted
  = Some (Err (status.Errorf codes.NotFound "user not found"),
          sent (OpFindOne users) scenarios.w_alice_deleted).
Proof.
  apply (X19_deleted_profile_is_gone
           testbed.platform examples.no_metadata scenarios.delete_alice
           scenarios.w_users_late scenarios.deleted_resp
           scenarios.w_alice_deleted).
  - vm_compute. reflexivity.
  - repeat constructor; simpl; intuition discriminate.
  - reflexivity.
  - reflexivity.
Defined.

(** X20. The email of a deleted profile stays taken, and opens no session.
    After a [DeleteProfile] that succeeded, in any world holding the users
    it left: [Register] under the email of the deleted user fails and
    stores nothing; and, emails being distinct, [Login] under that email
    fails without the stored password hash being consulted (never
    Unauthenticated, never PermissionDenied). *)
Theorem X20_deleted_profile_keeps_its_email
    (P : Platform) (ctx : Context) (req : pbu.DeleteProfileRequest)
    (w : World) (resp : pbu.DeleteProfileResponse) (w' : World) :
  userservice.DeleteProfile P ctx req w = Some (Ok resp, w') ->
  exists u,
    In u (Users (w_db w))
    /\ primitive_ObjectIDFromHex P (pbu.DeleteProfileRequest_UserId req)
       = Ok (User_ID u)
    /\ forall w2, Users (w_db w2) = Users (w_db w') ->
         (forall ctx2 reg res w3,
            utils.SanitizeString P (pb.RegisterRequest_Email reg)
            = User_Email u ->
            services.Register P ctx2 reg w2 = Some (res, w3) ->
            (exists s, res = Err s) /\ w_db w3 = w_db w2)
         /\ (NoDup (map User_Email (Users (w_db w))) ->
             forall L j ctx2 login res w3,
               pb.LoginRequest_Email login = User_Email u ->
               services.Login L P j ctx2 login w2 = Some (res, w3) ->
               exists s,
                 res = Err s
                 /\ status.Code s <> codes.Unauthenticated
                 /\ status.Code s <> codes.PermissionDenied).
Proof.
  intros H.
  destruct (DeleteProfile_outcome _ _ _ _ _ _ H) as [[[s Hs] _]|Hok].
  { discriminate Hs. }
  destruct Hok as (oid & pre & u & post & Hne & Ho & _ & Hus & Hu & Hpre
                   & _ & Hdb).
  apply live_with_id_spec in Hu. destruct Hu as [<- Hd].
  exists u. split; [rewrite Hus; apply in_or_app; right; now left|].
  split; [exact Ho|].
  intros w2 Hus2. rewrite Hdb in Hus2. cbn [Users with_Users] in Hus2.
  split.
  - intros ctx2 reg res w3 He Hr.
    destruct (Register_outcome _ _ _ _ _ _ Hr) as [Herr|Hok]; [exact Herr|].
    cbv zeta in Hok.
    destruct Hok as (hashed & _ & _ & _ & Hnew & _).
    destruct (Hnew (mark_deleted (mongo.DateTime (w_now w)) u)).
    + rewrite Hus2. apply in_or_app. right. now left.
    + rewrite He. reflexivity.
  - intros Hnd L j ctx2 login res w3 He Hl.
    assert (Hnone :
      find (fun x => String.eqb (User_Email x) (pb.LoginRequest_Email login)
                     && Bool.eqb (User_IsDeleted x) false)
           (Users (w_db w2)) = None).
    { apply find_none_of. intros x Hx. rewrite Hus2 in Hx.
      apply in_app_or in Hx.
      assert (Hother : forall y, In y (pre ++ post) ->
                                 User_Email y <> User_Email u).
      { intros y Hy Hey. rewrite Hus, map_app in Hnd. simpl in Hnd.
        apply NoDup_remove_2 in Hnd. apply Hnd.
        rewrite <- map_app, <- Hey. now apply in_map. }
      destruct Hx as [Hx|[<-|Hx]].
      - destruct (String.eqb_spec (User_Email x) (pb.LoginRequest_Email login))
          as [E|_]; [|reflexivity].
        destruct (Hother x); [apply in_or_app; now left | congruence].
      - simpl. apply andb_false_r.
      - destruct (String.eqb_spec (User_Email x) (pb.LoginRequest_Email login))
          as [E|_]; [|reflexivity].
        destruct (Hother x); [apply in_or_app; now right | congruence]. }
    pose proof (Login_outcome _ _ _ _ _ _ _ _ Hl) as Hout.
    inversion Hout; subst;
      try (eexists; split; [reflexivity|split; discriminate]);
      congruence.
Qed.

Lemma X20_deleted_profile_keeps_its_email_witness :
  exists u,
    In u [examples.alice; examples.bob]
    /\ User_ID u = examples.alice_id
    /\ forall res w3,
         services.Register testbed.platform examples.no_metadata
           {| pb.RegisterRequest_Email := User_Email u;
              pb.RegisterRequest_Password := "N3w!Passw0rd";
              pb.RegisterRequest_Name := "Alice" |}
           scenarios.w_alice_deleted = Some (res, w3) ->
         exists s, res = Err s.
Proof.
  destruct (X20_deleted_profile_keeps_its_email
              testbed.platform examples.no_metadata scenarios.delete_alice
              scenarios.w_users_late scenarios.deleted_resp
              scenarios.w_alice_deleted)
    as (u & Hin & Ho & Hafter).
  - vm_compute. reflexivity.
  - exists u. split; [exact Hin|].
    assert (Hid : User_ID u = examples.alice_id).
    { assert (E : primitive_ObjectIDFromHex testbed.platform
                    (pbu.DeleteProfileRequest_UserId scenarios.delete_alice)
                  = Ok examples.alice_id) by (vm_compute; reflexivity).
      congruence. }
    split; [exact Hid|].
    intros res w3 Hr.
    destruct (Hafter scenarios.w_alice_deleted eq_refl) as [Hreg _].
    refine (proj1 (Hreg _ _ _ _ _ Hr)).
    destruct Hin as [<-|[<-|[]]]; [vm_compute; reflexivity|].
    vm_compute in Hid. discriminate Hid.
Defined.

(** X21. [GetProfile] reads and never writes, and shows live users only:
    what it returns is the summary of a stored user that has the id of the
    request and is not deleted; it answers NotFound only when every user
    stored under that id is deleted (or none is stored), and otherwise
    fails with InvalidArgument for a missing or malformed id or with
    Internal when the store fails. *)
Theorem X21_GetProfile_shows_live_users_only
    (P : Platform) (ctx : Context) (req : pbu.GetProfileRequest)
    (w : World) (res : result status.Status pbu.GetProfileResponse)
    (w' : World) :
  userservice.GetProfile P ctx req w = Some (res, w') ->
  w_db w' = w_db w
  /\ match res with
     | Ok resp =>
         exists u,
           In u (Users (w_db w))
           /\ primitive_ObjectIDFromHex P (pbu.GetProfileRequest_UserId req)
              = Ok (User_ID u)
           /\ User_IsDeleted u = false
           /\ pbu.GetProfileResponse_User resp = services.pbUser_of P u
           /\ pb.User_IsDeleted (pbu.GetProfileResponse_User resp) = false
     | Err s =>
         In s [status.Errorf codes.InvalidArgument "user ID is required";
               status.Errorf codes.InvalidArgument "invalid user ID format";
               status.Errorf codes.NotFound "user not found";
               status.Errorf codes.Internal "failed to retrieve user"]
         /\ (status.Code s = codes.NotFound ->
             exists oid,
               primitive_ObjectIDFromHex P (pbu.GetProfileRequest_UserId req)
               = Ok oid
               /\ forall u, In u (Users (w_db w)) -> User_ID u = oid ->
                    User_IsDeleted u = true)
     end.
Proof.
  intros H. unfold userservice.GetProfile in H.
  destruct (String.eqb_spec (pbu.GetProfileRequest_UserId req) "") as [E|E].
  { injection H as <- <-. split; [reflexivity|].
    split; [simpl; auto | discriminate]. }
  destruct (primitive_ObjectIDFromHex P _) as [oid|e] eqn:Eo.
  2:{ injection H as <- <-. split; [reflexivity|].
      split; [simpl; auto | discriminate]. }
  rewrite run_bind in H. unfold Users_FindOne in H. rewrite FindOne_run in H.
  destruct (hd None (w_faults w)) as [msg|].
  { injection H as <- <-. split; [reflexivity|].
    split; [simpl; auto | discriminate]. }
  destruct (find _ (Users (w_db w))) as [user|] eqn:Ef.
  - injection H as <- <-. split; [reflexivity|].
    apply find_some in Ef. destruct Ef as [Hin Hu].
    apply live_with_id_spec in Hu. destruct Hu as [<- Hd].
    exists user. repeat split; assumption.
  - injection H as <- <-. split; [reflexivity|].
    split; [simpl; auto|]. intros _. exists oid. split; [reflexivity|].
    intros u Hin Hid. pose proof (find_none _ _ Ef u Hin) as Hu.
    destruct (User_IsDeleted u) eqn:Ed; [reflexivity|].
    assert (userservice.live_with_id oid u = true)
      by (apply live_with_id_spec; auto).
    congruence.
Qed.

Lemma X21_GetProfile_shows_live_users_only_witness :
  exists u,
    In u [examples.alice; examples.bob]
    /\ User_IsDeleted u = false
    /\ scenarios.alice_profile
       = {| pbu.GetProfileResponse_User :=
              services.pbUser_of testbed.platform u |}.
Proof.
  destruct (X21_GetProfile_shows_live_users_only
              testbed.platform examples.no_metadata scenarios.get_alice
              examples.w_users (Ok scenarios.alice_profile)
              (sent (OpFindOne users) examples.w_users))
    as [_ (u & Hin & _ & Hd & Hresp & _)].
  - vm_compute. reflexivity.
  - exists u. repeat split; [exact Hin | exact Hd |].
    unfold scenarios.alice_profile in *. simpl in Hresp. now rewrite Hresp.
Defined.

Lemma Forall2_same_account us : Forall2 same_account us us.
Proof. induction us; constructor; [repeat split|assumption]. Qed.

Lemma same_account_edited name email at_ u :
  same_account u (edited name email at_ u).
Proof. repeat split. Qed.

(** X22. [UpdateProfile] changes names, emails and update dates, nothing
    else.  Whatever it answers: the users are the same accounts in the same
    order (ids, password hashes, creation dates and both flags unchanged),
    at most one of them differs, and that one is not deleted and has the id
    of the request; revocations and attempts are untouched; emails that
    were distinct stay distinct; and every error but the failure to
    retrieve the updated user leaves the collections as they were. *)
Theorem X22_UpdateProfile_changes_name_and_email_only
    (P : Platform) (ctx : Context) (req : pbu.UpdateProfileRequest)
    (w : World) (res : result status.Status pbu.UpdateProfileResponse)
    (w' : World) :
  userservice.UpdateProfile P ctx req w = Some (res, w') ->
  Forall2 same_account (Users (w_db w)) (Users (w_db w'))
  /\ (Users (w_db w') = Users (w_db w)
      \/ exists pre u u' post,
           Users (w_db w) = (pre ++ u :: post)%list
           /\ Users (w_db w') = (pre ++ u' :: post)%list
           /\ primitive_ObjectIDFromHex P (pbu.UpdateProfileRequest_UserId req)
              = Ok (User_ID u)
           /\ User_IsDeleted u = false)
  /\ Tokens (w_db w') = Tokens (w_db w)
  /\ Attempts (w_db w') = Attempts (w_db w)
  /\ (NoDup (map User_Email (Users (w_db w))) ->
      NoDup (map User_Email (Users (w_db w'))))
  /\ (forall s, res = Err s ->
        s <> status.Errorf codes.Internal "failed to retrieve updated user" ->
        w_db w' = w_db w).
Proof.
  intros H.
  destruct (UpdateProfile_outcome _ _ _ _ _ _ H) as [[_ Hdb]|Hok].
  { rewrite Hdb. repeat split; auto. apply Forall2_same_account. }
  cbv zeta in Hok.
  destruct Hok as (oid & pre & u & post & Ho & _ & _ & Hus & Hu & _ & Hcl
                   & Hdb & Hres).
  apply live_with_id_spec in Hu. destruct Hu as [<- Hd].
  rewrite Hdb, Hus. cbn [Users Tokens Attempts with_Users].
  split; [|split; [|split; [|split; [|split]]]]; try reflexivity.
  - apply Forall2_app; [apply Forall2_same_account|].
    constructor; [apply same_account_edited | apply Forall2_same_account].
  - right. do 4 eexists. repeat split; [exact Ho | exact Hd].
  - intros Hnd. rewrite map_app in *. cbn [map] in *.
    destruct Hcl as [Hsame|Hfree].
    + now rewrite Hsame.
    + apply NoDup_remove_1 in Hnd.
      apply (NoDup_Add (Add_app _ _ _)). split; [exact Hnd|].
      rewrite <- map_app. intros Hin. apply in_map_iff in Hin.
      destruct Hin as (x & Hx & Hin). now apply (Hfree x Hin).
  - intros s -> Hs. destruct Hres as [Hres|(v & _ & Hres)].
    + injection Hres as ->. now destruct Hs.
    + discriminate Hres.
Qed.

Lemma X22_UpdateProfile_changes_name_and_email_only_witness :
  Forall2 same_account [examples.alice; examples.bob]
    (Users (w_db scenarios.w_alice_renamed))
  /\ NoDup (map User_Email (Users (w_db scenarios.w_alice_renamed))).
Proof.
  destruct (X22_UpdateProfile_changes_name_and_email_only
              testbed.platform examples.no_metadata scenarios.rename_alice
              scenarios.w_users_late
              (match scenarios.alice_renaming with
               | Some (r, _) => r
               | None => Err (status.Errorf codes.Internal "")
               end)
              scenarios.w_alice_renamed)
    as (Hsame & _ & _ & _ & Hnd & _).
  - vm_compute. reflexivity.
  - split; [exact Hsame|]. apply Hnd.
    repeat constructor; simpl; intuition discriminate.
Defined.

(** X23. What [UpdateProfile] returns is what it stored.  When it succeeds
    (ids being distinct), the summary returned is that of the user now
    stored under the id of the request: the user that was stored there,
    not deleted, with the update date read from the clock and rounded down
    to the millisecond, with the trimmed name of the request when that is
    not empty and then valid, with the trimmed email of the request when
    that is not empty and then valid, and with its former name or email
    otherwise. *)
Theorem X23_UpdateProfile_returns_what_it_stored
    (P : Platform) (ctx : Context) (req : pbu.UpdateProfileRequest)
    (w : World) (resp : pbu.UpdateProfileResponse) (w' : World) :
  userservice.UpdateProfile P ctx req w = Some (Ok resp, w') ->
  NoDup (map User_ID (Users (w_db w))) ->
  let name := utils.SanitizeString P (pbu.UpdateProfileRequest_Name req) in
  let email := utils.SanitizeString P (pbu.UpdateProfileRequest_Email req) in
  exists u u',
    In u (Users (w_db w))
    /\ In u' (Users (w_db w'))
    /\ primitive_ObjectIDFromHex P (pbu.UpdateProfileRequest_UserId req)
       = Ok (User_ID u)
    /\ User_IsDeleted u = false
    /\ same_account u u'
    /\ User_UpdatedAt u' = mongo.DateTime (w_now w)
    /\ User_Name u' = (if String.eqb name "" then User_Name u else name)
    /\ User_Email u' = (if String.eqb email "" then User_Email u else email)
    /\ (name <> "" -> utils.ValidateName P name "name" = None)
    /\ (email <> "" -> utils.ValidateEmail P email = None)
    /\ resp = {| pbu.UpdateProfileResponse_User := services.pbUser_of P u';
                 pbu.UpdateProfileResponse_Message :=
                   "Profile updated successfully" |}.
Proof.
  intros H Hnd. cbv zeta.
  destruct (UpdateProfile_outcome _ _ _ _ _ _ H) as [[[s [Hs _]] _]|Hok].
  { discriminate Hs. }
  cbv zeta in Hok.
  destruct Hok as (oid & pre & u & post & Ho & Hn & He & Hus & Hu & _ & _
                   & Hdb & Hres).
  destruct Hres as [Hres|(v & Hv & Hres)]; [discriminate Hres|].
  apply live_with_id_spec in Hu. destruct Hu as [<- Hd].
  rewrite find_middle in Hv.
  - injection Hv as <-. injection Hres as ->.
    eexists u, _. rewrite Hdb, Hus. cbn [Users with_Users].
    split; [apply in_or_app; right; now left|].
    split; [apply in_or_app; right; left; reflexivity|].
    repeat split; assumption.
  - intros x Hx. rewrite Hus in Hnd.
    destruct (String.eqb_spec (User_ID x) (User_ID u)) as [E|_];
      [|reflexivity].
    destruct (other_ids pre u post Hnd x); [|exact E].
    apply in_or_app. now left.
  - simpl. apply String.eqb_refl.
Qed.

Lemma X23_UpdateProfile_returns_what_it_stored_witness :
  exists u u',
    In u [examples.alice; examples.bob]
    /\ In u' (Users (w_db scenarios.w_alice_renamed))
    /\ User_Name u' = "Alicia"
    /\ User_Email u' = User_Email u
    /\ User_UpdatedAt u' = examples.noon.
Proof.
  destruct (X23_UpdateProfile_returns_what_it_stored
              testbed.platform examples.no_metadata scenarios.rename_alice
              scenarios.w_users_late
              {| pbu.UpdateProfileResponse_User :=
                   services.pbUser_of testbed.platform
                     (edited "Alicia" "" examples.noon examples.alice);
                 pbu.UpdateProfileResponse_Message :=
                   "Profile updated successfully" |}
              scenarios.w_alice_renamed)
    as (u & u' & Hin & Hin' & _ & _ & _ & Hat & Hn & He & _).
  - vm_compute. reflexivity.
  - repeat constructor; simpl; intuition discriminate.
  - exists u, u'. repeat split; assumption.
Defined.

(** X24. [UpdateProfile] can fail after it has written.  For a request
    that names a live user and carries a valid name and no email: when the
    store applies the update and then fails the retrieval that follows,
    the caller is told Internal, and the new name is stored all the same,
    with the update date read from the clock, to the millisecond. *)
Theorem X24_UpdateProfile_may_fail_after_the_write
    (P : Platform) (ctx : Context) (req : pbu.UpdateProfileRequest)
    (w : World) (oid : mongo.ObjectID) (pre : list User) (u : User)
    (post : list User) (msg : string) :
  pbu.UpdateProfileRequest_UserId req <> "" ->
  primitive_ObjectIDFromHex P (pbu.UpdateProfileRequest_UserId req) = Ok oid ->
  let name := utils.SanitizeString P (pbu.UpdateProfileRequest_Name req) in
  name <> "" ->
  utils.ValidateName P name "name" = None ->
  utils.SanitizeString P (pbu.UpdateProfileRequest_Email req) = "" ->
  Users (w_db w) = (pre ++ u :: post)%list ->
  userservice.live_with_id oid u = true ->
  (forall x, In x pre -> userservice.live_with_id oid x = false) ->
  goes_through 0 w ->
  nth 1 (w_faults w) None = Some msg ->
  exists w',
    userservice.UpdateProfile P ctx req w
    = Some (Err (status.Errorf codes.Internal
                   "failed to retrieve updated user"), w')
    /\ Users (w_db w')
       = (pre ++ edited name "" (mongo.DateTime (w_now w)) u :: post)%list.
Proof.
  intros Hne Ho name Hn Hvn Hem Hus Hu Hpre G0 F1.
  unfold userservice.UpdateProfile.
  destruct (String.eqb_spec (pbu.UpdateProfileRequest_UserId req) "") as [E|_];
    [contradiction|].
  rewrite Ho. cbv zeta. rewrite run_bind. unfold time_Now at 1.
  cbv beta iota. fold name. rewrite Hem.
  destruct (String.eqb_spec name "") as [E|_]; [contradiction|].
  cbn [negb]. cbv iota. rewrite Hvn.
  change (String.eqb "" "") with true. cbn [negb]. cbv iota.
  rewrite run_bind. unfold ret at 1. cbv beta iota.
  rewrite run_bind, Users_UpdateOne_run.
  replace (w_faults (ticked w)) with (w_faults w) by reflexivity.
  replace (w_db (ticked w)) with (w_db w) by reflexivity.
  unfold goes_through in G0. rewrite <- hd_nth in G0. rewrite G0.
  rewrite Hus, (split_first_middle _ pre u post Hpre Hu).
  assert (Hedit : apply_set
                    (SetDoc_bson
                       (userservice.with_name name
                          {| set_name := None; set_email := None;
                             set_is_active := None; set_is_deleted := None;
                             set_updated_at := Some (w_now w) |})) u
                  = edited name "" (mongo.DateTime (w_now w)) u).
  { unfold edited. destruct (String.eqb_spec name "") as [E|_];
      [contradiction | reflexivity]. }
  rewrite Hedit.
  unfold userIndexes_unique at 1. cbn [edited User_Email].
  change (String.eqb "" "") with true. cbv iota.
  rewrite String.eqb_refl. cbn [negb andb].
  cbv beta iota. change (1 =? 0) with false. cbv iota.
  rewrite run_bind. unfold Users_FindOne. rewrite FindOne_run.
  replace (hd None (w_faults (with_db _ (contacted (ticked w)))))
    with (nth 1 (w_faults w) None)
    by (simpl; symmetry; apply hd_tl_nth).
  rewrite F1. eexists. split; reflexivity.
Qed.

Lemma X24_UpdateProfile_may_fail_after_the_write_witness :
  exists w',
    userservice.UpdateProfile testbed.platform examples.no_metadata
      scenarios.rename_alice scenarios.w_flaky
    = Some (Err (status.Errorf codes.Internal
                   "failed to retrieve updated user"), w')
    /\ map User_Name (Users (w_db w')) = ["Alicia"; "Bob"]
    /\ map User_UpdatedAt (Users (w_db w'))
       = [examples.noon; examples.noon - time.Minute].
Proof.
  destruct (X24_UpdateProfile_may_fail_after_the_write
              testbed.platform examples.no_metadata scenarios.rename_alice
              scenarios.w_flaky examples.alice_id [] examples.alice
              [examples.bob] "context deadline exceeded")
    as (w' & Hrun & Hus).
  - discriminate.
  - vm_compute. reflexivity.
  - vm_compute. discriminate.
  - vm_compute. reflexivity.
  - vm_compute. reflexivity.
  - reflexivity.
  - vm_compute. reflexivity.
  - intros x [].
  - reflexivity.
  - reflexivity.
  - exists w'. split; [exact Hrun|]. rewrite Hus.
    split; vm_compute; reflexivity.
Defined.
